(** * The aggregator gRPC client of OpenFL

    A shallow embedding of [openfl/transport/grpc/aggregator_client.py]:
    the constant backoff policy, the retrying client interceptor, the three
    decorators ([_atomic_connection], [_handle_grpc_error],
    [_resend_data_on_reconnection]) and the [AggregatorGRPCClient] facade.

    Python objects that are mutated in place (the client [self] and the gRPC
    channels it owns) live in an explicit state; exceptions are results of a
    small state-and-exception monad; the two [while True] loops take fuel,
    and running out of fuel is the only way a computation yields [None]. *)

From Stdlib Require Import ZArith Lia.
From stdpp Require Import base option list strings pretty.

Local Open Scope string_scope.
Local Open Scope Z_scope.

(* ===================================================================== *)
(** ** Values of the gRPC library the client handles *)
(* ===================================================================== *)

(** [grpc.StatusCode]. *)
Inductive StatusCode :=
  | OK | CANCELLED | UNKNOWN | INVALID_ARGUMENT | DEADLINE_EXCEEDED
  | NOT_FOUND | ALREADY_EXISTS | PERMISSION_DENIED | RESOURCE_EXHAUSTED
  | FAILED_PRECONDITION | ABORTED | OUT_OF_RANGE | UNIMPLEMENTED
  | INTERNAL | UNAVAILABLE | DATA_LOSS | UNAUTHENTICATED.

#[global] Instance StatusCode_eq_dec : EqDecision StatusCode.
Proof. solve_decision. Defined.

(** What an f-string prints for a status code. *)
Definition StatusCode_str (c : StatusCode) : string :=
  "StatusCode." ++
  match c with
  | OK => "OK" | CANCELLED => "CANCELLED" | UNKNOWN => "UNKNOWN"
  | INVALID_ARGUMENT => "INVALID_ARGUMENT"
  | DEADLINE_EXCEEDED => "DEADLINE_EXCEEDED"
  | NOT_FOUND => "NOT_FOUND" | ALREADY_EXISTS => "ALREADY_EXISTS"
  | PERMISSION_DENIED => "PERMISSION_DENIED"
  | RESOURCE_EXHAUSTED => "RESOURCE_EXHAUSTED"
  | FAILED_PRECONDITION => "FAILED_PRECONDITION" | ABORTED => "ABORTED"
  | OUT_OF_RANGE => "OUT_OF_RANGE" | UNIMPLEMENTED => "UNIMPLEMENTED"
  | INTERNAL => "INTERNAL" | UNAVAILABLE => "UNAVAILABLE"
  | DATA_LOSS => "DATA_LOSS" | UNAUTHENTICATED => "UNAUTHENTICATED"
  end.

(** Exceptions that can travel through the client.  [SystemExit] is what
    [exit(1)] raises; it is not an [Exception] and no handler of the client
    catches it, so it ends the process. *)
Inductive Exn :=
  | RpcError (code : StatusCode) (details : string)
  | ValueError (msg : string)
  | OSError (filename : string)
  | HeaderMismatchError (actual : string) (expected : option string)
  | SystemExit (status : Z).

#[global] Instance Exn_eq_dec : EqDecision Exn.
Proof. solve_decision. Defined.

Definition is_RpcError (e : Exn) : bool :=
  match e with RpcError _ _ => true | _ => false end.

(** Credentials built by [grpc.ssl_channel_credentials]. *)
Record ChannelCredentials := {
  root_certificates : string;
  cred_private_key : option string;
  certificate_chain : option string
}.

(** A channel object: its target, its credentials ([None] for an insecure
    channel), the options it was created with and whether [close] was
    called on it. *)
Record Channel := {
  target : string;
  credentials : option ChannelCredentials;
  options : list (string * Z);
  closed : bool
}.

Definition close_channel (c : Channel) : Channel :=
  {| target := target c; credentials := credentials c;
     options := options c; closed := true |}.

(* ===================================================================== *)
(** ** The world outside the client *)
(* ===================================================================== *)

Inductive Level := DEBUG | INFO | WARNING.

(** Observable effects, in the order they happen. *)
Inductive Event :=
  | Log (level : Level) (msg : string)
  | Slept (secs : Z)
  | Printed (line : string).

#[global] Instance Level_eq_dec : EqDecision Level.
Proof. solve_decision. Defined.
#[global] Instance Event_eq_dec : EqDecision Event.
Proof. solve_decision. Defined.

(** [heap] holds the channel objects created so far, a channel being named
    by its index; [files] is the file system the credentials are read from;
    [calls] counts the RPC attempts that reached the wire. *)
Record World := {
  trace : list Event;
  heap : list Channel;
  files : list (string * string);
  calls : nat
}.

Definition is_sleep (e : Event) : bool :=
  match e with Slept _ => true | _ => false end.

Definition is_warning (e : Event) : bool :=
  match e with Log WARNING _ => true | _ => false end.

(** Number of completed backoff sleeps, and of warnings, in a trace. *)
Definition sleeps (w : World) : nat := length (filter is_sleep (trace w)).
Definition warnings (w : World) : nat := length (filter is_warning (trace w)).

(** A channel that exists and was not closed. *)
Definition channel_open (w : World) (ch : nat) : bool :=
  match heap w !! ch with
  | Some c => negb (closed c)
  | None => false
  end.

(* ===================================================================== *)
(** ** State and exceptions *)
(* ===================================================================== *)

Inductive Result (A : Type) :=
  | Ret (a : A)
  | Raise (e : Exn).
Arguments Ret {A} a.
Arguments Raise {A} e.

(** A computation over a state [S]: [None] only when a loop ran out of
    fuel. *)
Definition M (S A : Type) : Type := S -> option (Result A * S).

Definition ret {S A} (a : A) : M S A := fun s => Some (Ret a, s).
Definition raise {S A} (e : Exn) : M S A := fun s => Some (Raise e, s).
Definition out_of_fuel {S A} : M S A := fun _ => None.

Definition bind {S A B} (m : M S A) (k : A -> M S B) : M S B :=
  fun s =>
    match m s with
    | None => None
    | Some (Ret a, s') => k a s'
    | Some (Raise e, s') => Some (Raise e, s')
    end.

(** [try: m except: h].  The handler returns [None] for an exception its
    [except] clause does not match, which then keeps propagating. *)
Definition try_except {S A} (m : M S A) (h : Exn -> option (M S A)) : M S A :=
  fun s =>
    match m s with
    | None => None
    | Some (Ret a, s') => Some (Ret a, s')
    | Some (Raise e, s') =>
        match h e with
        | Some k => k s'
        | None => Some (Raise e, s')
        end
    end.

Definition get {S} : M S S := fun s => Some (Ret s, s).
Definition modify {S} (f : S -> S) : M S unit := fun s => Some (Ret tt, f s).

Notation "'let*' x ':=' m 'in' k" := (bind m (fun x => k))
  (at level 10, x name, m at level 100, k at level 200, only parsing).
Notation "m ';;' k" := (bind m (fun _ => k))
  (at level 100, k at level 200, right associativity, only parsing).

(** *** Effects on the world *)

Definition emit (e : Event) : M World unit :=
  modify (fun w => {| trace := trace w ++ [e]; heap := heap w;
                      files := files w; calls := calls w |}).

Definition logger_info (msg : string) : M World unit := emit (Log INFO msg).
Definition logger_warn (msg : string) : M World unit := emit (Log WARNING msg).
Definition logger_debug (msg : string) : M World unit := emit (Log DEBUG msg).
Definition print (line : string) : M World unit := emit (Printed line).

(** [time.sleep]: rejects a negative length, otherwise returns after the
    pause. *)
Definition time_sleep (secs : Z) : M World unit :=
  if secs <? 0 then raise (ValueError "sleep length must be non-negative")
  else emit (Slept secs).

(** [with open(path, "rb") as f: f.read()]. *)
Definition read_file (path : string) : M World string :=
  let* w := get in
  match List.find (fun kv => bool_decide (fst kv = path)) (files w) with
  | Some kv => ret (snd kv)
  | None => raise (OSError path)
  end.

(** A new channel object; its index in the heap is returned. *)
Definition new_channel (c : Channel) : M World nat :=
  let* w := get in
  modify (fun w => {| trace := trace w; heap := heap w ++ [c];
                      files := files w; calls := calls w |});;
  ret (length (heap w)).

(** [channel.close()]: idempotent. *)
Definition channel_close (ch : nat) : M World unit :=
  modify (fun w => {| trace := trace w; heap := alter close_channel ch (heap w);
                      files := files w; calls := calls w |}).

(* ===================================================================== *)
(** ** ConstantBackoff *)
(* ===================================================================== *)

Record ConstantBackoff := {
  reconnect_interval : Z;
  backoff_uri : string
}.

Definition ConstantBackoff_sleep (self : ConstantBackoff) : M World unit :=
  logger_info ("Attempting to connect to aggregator at " ++ backoff_uri self);;
  time_sleep (reconnect_interval self).

(* ===================================================================== *)
(** ** RetryOnRpcErrorClientInterceptor *)
(* ===================================================================== *)

(** What a continuation hands back to an interceptor: the finished call, a
    call that failed with a status ([grpc.RpcError]), or the wrapper gRPC
    puts around any other exception raised below the interceptor (also a
    [grpc.RpcError], whose code is [INTERNAL]). *)
Inductive Outcome (R : Type) :=
  | UnaryOutcome (response : R)
  | RpcErrorOutcome (code : StatusCode) (details : string)
  | FailureOutcome (exception : Exn).
Arguments UnaryOutcome {R} response.
Arguments RpcErrorOutcome {R} code details.
Arguments FailureOutcome {R} exception.

Definition isinstance_RpcError {R} (o : Outcome R) : bool :=
  match o with UnaryOutcome _ => false | _ => true end.

Definition outcome_code {R} (o : Outcome R) : StatusCode :=
  match o with
  | UnaryOutcome _ => OK
  | RpcErrorOutcome c _ => c
  | FailureOutcome _ => INTERNAL
  end.

(** [call.result()]. *)
Definition outcome_result {S R} (o : Outcome R) : M S R :=
  match o with
  | UnaryOutcome r => ret r
  | RpcErrorOutcome c d => raise (RpcError c d)
  | FailureOutcome e => raise e
  end.

Record RetryOnRpcErrorClientInterceptor := {
  sleeping_policy : ConstantBackoff;
  status_for_retry : option (list StatusCode)
}.

(** Truth value of [status_for_retry]: [None] and the empty tuple are
    false. *)
Definition truthy (t : option (list StatusCode)) : bool :=
  match t with
  | Some (_ :: _) => true
  | _ => false
  end.

Definition code_in (c : StatusCode) (t : option (list StatusCode)) : bool :=
  match t with
  | Some l => bool_decide (c ∈ l)
  | None => false
  end.

Section Interceptor.
Context {D Q R : Type}.

Fixpoint _intercept_call (fuel : nat)
    (self : RetryOnRpcErrorClientInterceptor)
    (continuation : D -> Q -> M World (Outcome R))
    (client_call_details : D) (request_or_iterator : Q)
    : M World (Outcome R) :=
  match fuel with
  | O => out_of_fuel
  | S fuel' =>
      let* response := continuation client_call_details request_or_iterator in
      if isinstance_RpcError response then
        logger_info ("Response code: " ++ StatusCode_str (outcome_code response));;
        if truthy (status_for_retry self)
           && negb (code_in (outcome_code response) (status_for_retry self))
        then ret response
        else
          ConstantBackoff_sleep (sleeping_policy self);;
          _intercept_call fuel' self continuation
            client_call_details request_or_iterator
      else ret response
  end.

Definition intercept_unary_unary := _intercept_call.
Definition intercept_stream_unary := _intercept_call.
End Interceptor.

(* ===================================================================== *)
(** ** Wire messages *)
(* ===================================================================== *)

(** Modelled from the spec: the wire schema ([aggregator_pb2]) is not part of
    the sources.  Every message carries the four-field identity header; the
    payload fields are the ones the client reads or writes. *)
Module MessageHeader.
Record t := {
  sender : string;
  receiver : string;
  federation_uuid : string;
  single_col_cert_common_name : string
}.
(** The header of a message whose [header] field was left unset. *)
Definition empty : t :=
  {| sender := ""; receiver := ""; federation_uuid := "";
     single_col_cert_common_name := "" |}.
End MessageHeader.

#[global] Instance MessageHeader_eq_dec : EqDecision MessageHeader.t.
Proof. solve_decision. Defined.

(** Responses are read through [reply.header] whatever their type. *)
Class HasHeader (R : Type) := header_of : R -> MessageHeader.t.

Module GetTasksRequest.
Record t := { header : MessageHeader.t }.
End GetTasksRequest.

Module GetTasksResponse.
Record t := {
  header : MessageHeader.t;
  round_number : Z;
  tasks : list string;
  sleep_time : Z;
  quit : bool
}.
End GetTasksResponse.

Module GetAggregatedTensorRequest.
Record t := {
  header : MessageHeader.t;
  tensor_name : string;
  round_number : Z;
  report : bool;
  tags : list string;
  require_lossless : bool
}.
End GetAggregatedTensorRequest.

Module GetAggregatedTensorResponse.
Record t := {
  header : MessageHeader.t;
  round_number : Z;
  tensor : string
}.
End GetAggregatedTensorResponse.

Module TaskResults.
Record t := {
  header : MessageHeader.t;
  round_number : Z;
  task_name : string;
  data_size : Z;
  tensors : list string
}.
End TaskResults.

Module SendLocalTaskResultsResponse.
Record t := { header : MessageHeader.t }.
End SendLocalTaskResultsResponse.

Module ConnectivityCheckRequest.
Record t := { header : MessageHeader.t }.
End ConnectivityCheckRequest.

Module ConnectivityCheckResponse.
Record t := { header : MessageHeader.t }.
End ConnectivityCheckResponse.

Module AddCollaboratorRequest.
Record t := {
  header : MessageHeader.t;
  collaborator_label : string;
  collaborator_cn : string
}.
End AddCollaboratorRequest.

Module AddCollaboratorResponse.
Record t := { header : MessageHeader.t }.
End AddCollaboratorResponse.

Module RemoveCollaboratorRequest.
Record t := {
  header : MessageHeader.t;
  collaborator_label : string;
  collaborator_cn : string
}.
End RemoveCollaboratorRequest.

Module RemoveCollaboratorResponse.
Record t := { header : MessageHeader.t }.
End RemoveCollaboratorResponse.

Module GetExperimentStatusRequest.
Record t := { header : MessageHeader.t }.
End GetExperimentStatusRequest.

Module GetExperimentStatusResponse.
Record t := { header : MessageHeader.t; experiment_status : string }.
End GetExperimentStatusResponse.

Module SetStragglerCuttoffTimeRequest.
Record t := { header : MessageHeader.t; timeout_in_seconds : Z }.
End SetStragglerCuttoffTimeRequest.

Module SetStragglerCuttoffTimeResponse.
Record t := { header : MessageHeader.t }.
End SetStragglerCuttoffTimeResponse.

#[global] Instance GetTasksResponse_header : HasHeader GetTasksResponse.t :=
  GetTasksResponse.header.
#[global] Instance GetAggregatedTensorResponse_header :
  HasHeader GetAggregatedTensorResponse.t := GetAggregatedTensorResponse.header.
#[global] Instance SendLocalTaskResultsResponse_header :
  HasHeader SendLocalTaskResultsResponse.t := SendLocalTaskResultsResponse.header.
#[global] Instance ConnectivityCheckResponse_header :
  HasHeader ConnectivityCheckResponse.t := ConnectivityCheckResponse.header.
#[global] Instance AddCollaboratorResponse_header :
  HasHeader AddCollaboratorResponse.t := AddCollaboratorResponse.header.
#[global] Instance RemoveCollaboratorResponse_header :
  HasHeader RemoveCollaboratorResponse.t := RemoveCollaboratorResponse.header.
#[global] Instance GetExperimentStatusResponse_header :
  HasHeader GetExperimentStatusResponse.t := GetExperimentStatusResponse.header.
#[global] Instance SetStragglerCuttoffTimeResponse_header :
  HasHeader SetStragglerCuttoffTimeResponse.t :=
  SetStragglerCuttoffTimeResponse.header.

(** A keyword argument of a message constructor that is [None] leaves the
    field unset, which reads back as the empty string or the empty header. *)
Definition proto_str (x : option string) : string := default "" x.
Definition proto_header (x : option MessageHeader.t) : MessageHeader.t :=
  default MessageHeader.empty x.

(** [x or ""]. *)
Definition or_empty (x : option string) : string :=
  match x with
  | Some s => if bool_decide (s = "") then "" else s
  | None => ""
  end.

(* ===================================================================== *)
(** ** The aggregator behind the wire *)
(* ===================================================================== *)

(** What one attempt on the wire comes back with. *)
Inductive NetReply (R : Type) :=
  | NetOk (response : R)
  | NetFail (code : StatusCode) (details : string).
Arguments NetOk {R} response.
Arguments NetFail {R} code details.

(** The far end, one oracle per RPC of the service: given the number of
    attempts made so far and the request handed to the transport, the reply
    of this attempt. *)
Record Server := {
  GetTasks : nat -> GetTasksRequest.t -> NetReply GetTasksResponse.t;
  GetAggregatedTensor :
    nat -> GetAggregatedTensorRequest.t -> NetReply GetAggregatedTensorResponse.t;
  SendLocalTaskResults :
    nat -> list string -> NetReply SendLocalTaskResultsResponse.t;
  ConnectivityCheck :
    nat -> ConnectivityCheckRequest.t -> NetReply ConnectivityCheckResponse.t;
  AddCollaborator :
    nat -> AddCollaboratorRequest.t -> NetReply AddCollaboratorResponse.t;
  RemoveCollaborator :
    nat -> RemoveCollaboratorRequest.t -> NetReply RemoveCollaboratorResponse.t;
  GetExperimentStatus :
    nat -> GetExperimentStatusRequest.t -> NetReply GetExperimentStatusResponse.t;
  SetStragglerCuttoffTime :
    nat -> SetStragglerCuttoffTimeRequest.t
    -> NetReply SetStragglerCuttoffTimeResponse.t
}.

Definition tick (w : World) : World :=
  {| trace := trace w; heap := heap w; files := files w; calls := S (calls w) |}.

(** One attempt on a channel without interceptors: refused on a closed
    channel, otherwise answered by the far end; a failure status is raised
    as [grpc.RpcError]. *)
Definition transport_call {Q R} (oracle : nat -> Q -> NetReply R)
    (ch : nat) (request : Q) : M World R :=
  fun w =>
    if channel_open w ch then
      match oracle (calls w) request with
      | NetOk r => Some (Ret r, tick w)
      | NetFail c d => Some (Raise (RpcError c d), tick w)
      end
    else Some (Raise (ValueError "Cannot invoke RPC on closed channel!"), w).

(** The continuation gRPC passes to an interceptor: the call below it, with
    a raised [grpc.RpcError] returned as a value and any other [Exception]
    wrapped. *)
Definition as_outcome {R} (m : M World R) : M World (Outcome R) :=
  fun w =>
    match m w with
    | None => None
    | Some (Ret r, w') => Some (Ret (UnaryOutcome r), w')
    | Some (Raise (RpcError c d), w') => Some (Ret (RpcErrorOutcome c d), w')
    | Some (Raise (SystemExit n), w') => Some (Raise (SystemExit n), w')
    | Some (Raise e, w') => Some (Ret (FailureOutcome e), w')
    end.

(** A call on [grpc.intercept_channel(channel, *interceptors)]: the first
    interceptor is the outermost, and the result of the call it returns is
    what the caller gets. *)
Fixpoint channel_call {Q R} (fuel : nat)
    (interceptors : list RetryOnRpcErrorClientInterceptor)
    (oracle : nat -> Q -> NetReply R) (ch : nat)
    (method : string) (request : Q) : M World R :=
  match interceptors with
  | [] => transport_call oracle ch request
  | i :: rest =>
      let continuation := fun d q =>
        as_outcome (channel_call fuel rest oracle ch d q) in
      let* call := _intercept_call fuel i continuation method request in
      outcome_result call
  end.

(* ===================================================================== *)
(** ** AggregatorGRPCClient *)
(* ===================================================================== *)

(** [aggregator_pb2_grpc.AggregatorStub] over an intercepted channel. *)
Record AggregatorStub := {
  stub_channel : nat;
  stub_interceptors : list RetryOnRpcErrorClientInterceptor
}.

(** The attributes of a client; [channel] names a channel object of the
    heap.  The logger is the module's, its output goes to the trace. *)
Record AggregatorGRPCClient := {
  uri : string;
  tls : bool;
  disable_client_auth : bool;
  root_certificate : string;
  certificate : string;
  private_key : string;
  channel : nat;
  header : option MessageHeader.t;
  aggregator_uuid : option string;
  federation_uuid : option string;
  single_col_cert_common_name : option string;
  interceptors : list RetryOnRpcErrorClientInterceptor;
  stub : AggregatorStub
}.

Definition set_channel (ch : nat) (c : AggregatorGRPCClient) :=
  {| uri := uri c; tls := tls c; disable_client_auth := disable_client_auth c;
     root_certificate := root_certificate c; certificate := certificate c;
     private_key := private_key c; channel := ch; header := header c;
     aggregator_uuid := aggregator_uuid c; federation_uuid := federation_uuid c;
     single_col_cert_common_name := single_col_cert_common_name c;
     interceptors := interceptors c; stub := stub c |}.

Definition set_header (h : option MessageHeader.t) (c : AggregatorGRPCClient) :=
  {| uri := uri c; tls := tls c; disable_client_auth := disable_client_auth c;
     root_certificate := root_certificate c; certificate := certificate c;
     private_key := private_key c; channel := channel c; header := h;
     aggregator_uuid := aggregator_uuid c; federation_uuid := federation_uuid c;
     single_col_cert_common_name := single_col_cert_common_name c;
     interceptors := interceptors c; stub := stub c |}.

Definition set_stub (st : AggregatorStub) (c : AggregatorGRPCClient) :=
  {| uri := uri c; tls := tls c; disable_client_auth := disable_client_auth c;
     root_certificate := root_certificate c; certificate := certificate c;
     private_key := private_key c; channel := channel c; header := header c;
     aggregator_uuid := aggregator_uuid c; federation_uuid := federation_uuid c;
     single_col_cert_common_name := single_col_cert_common_name c;
     interceptors := interceptors c; stub := st |}.

(** A client object together with the world it runs in: what a method call
    can read and change, and what is left behind when it raises. *)
Record Machine := {
  obj : AggregatorGRPCClient;
  env : World
}.

Definition in_world {A} (m : M World A) : M Machine A :=
  fun s =>
    match m (env s) with
    | None => None
    | Some (r, w') => Some (r, {| obj := obj s; env := w' |})
    end.

Definition get_self : M Machine AggregatorGRPCClient :=
  fun s => Some (Ret (obj s), s).

Definition update_self (f : AggregatorGRPCClient -> AggregatorGRPCClient)
    : M Machine unit :=
  modify (fun s => {| obj := f (obj s); env := env s |}).

(** Modelled from the spec: [check_equal] of [openfl.utilities] is not part of
    the sources.  A mismatch is a header-mismatch failure carrying the actual
    and the expected value.  The expected value may be Python's [None], which
    equals no string. *)
Definition check_equal {S} (x : string) (y : option string) : M S unit :=
  if bool_decide (Some x = y) then ret tt
  else raise (HeaderMismatchError x y).

Section Client.
(** [channel_options] of [grpc_channel_options], the stream encoder
    [utils.proto_to_datastream] and [convert_experiment_status_proto_to_dict]
    are imported by the module and not part of the sources. *)
Variable channel_options : list (string * Z).
Variable proto_to_datastream : TaskResults.t -> list string.
Variable convert_experiment_status_proto_to_dict :
  GetExperimentStatusResponse.t -> list (string * string).
(** The aggregator the client talks to. *)
Variable srv : Server.

Definition create_insecure_channel (uri : string) : M World nat :=
  new_channel {| target := uri; credentials := None;
                 options := channel_options; closed := false |}.

Definition create_tls_channel (uri root_certificate : string)
    (disable_client_auth : bool) (certificate private_key : string)
    : M World nat :=
  let* root_certificate_b := read_file root_certificate in
  let* key_and_cert :=
    if disable_client_auth then
      logger_warn "Client-side authentication is disabled.";;
      ret (None, None)
    else
      let* private_key_b := read_file private_key in
      let* certificate_b := read_file certificate in
      ret (Some private_key_b, Some certificate_b) in
  let credentials :=
    {| root_certificates := root_certificate_b;
       cred_private_key := fst key_and_cert;
       certificate_chain := snd key_and_cert |} in
  new_channel {| target := uri; credentials := Some credentials;
                 options := channel_options; closed := false |}.

(** [AggregatorGRPCClient.__init__]; [client_reconnect_interval] is the
    keyword argument read from [kwargs]. *)
Definition __init__ (agg_addr : string) (agg_port : Z)
    (tls disable_client_auth : bool)
    (root_certificate certificate private_key : string)
    (aggregator_uuid federation_uuid single_col_cert_common_name : option string)
    (for_admin : bool) (client_reconnect_interval : option Z)
    : M World AggregatorGRPCClient :=
  let uri := agg_addr ++ ":" ++ pretty agg_port in
  let* channel :=
    if negb tls then
      logger_warn "gRPC is running on insecure channel with TLS disabled.";;
      create_insecure_channel uri
    else
      create_tls_channel uri root_certificate disable_client_auth
        certificate private_key in
  let interceptors :=
    if for_admin then []
    else
      [ {| sleeping_policy :=
             {| reconnect_interval := default 1 client_reconnect_interval;
                backoff_uri := uri |};
           status_for_retry := Some [UNAVAILABLE] |} ] in
  ret {| uri := uri; tls := tls; disable_client_auth := disable_client_auth;
         root_certificate := root_certificate; certificate := certificate;
         private_key := private_key; channel := channel; header := None;
         aggregator_uuid := aggregator_uuid;
         federation_uuid := federation_uuid;
         single_col_cert_common_name := single_col_cert_common_name;
         interceptors := interceptors;
         stub := {| stub_channel := channel;
                    stub_interceptors := interceptors |} |}.

Definition _set_header (collaborator_name : string) : M Machine unit :=
  let* self := get_self in
  update_self (set_header (Some
    {| MessageHeader.sender := collaborator_name;
       MessageHeader.receiver := proto_str (aggregator_uuid self);
       MessageHeader.federation_uuid := proto_str (federation_uuid self);
       MessageHeader.single_col_cert_common_name :=
         or_empty (single_col_cert_common_name self) |})).

Definition validate_response {R} `{HasHeader R} (reply : R)
    (collaborator_name : string) : M Machine unit :=
  let* self := get_self in
  check_equal (MessageHeader.receiver (header_of reply))
    (Some collaborator_name);;
  check_equal (MessageHeader.sender (header_of reply)) (aggregator_uuid self);;
  check_equal (MessageHeader.federation_uuid (header_of reply))
    (federation_uuid self);;
  check_equal (MessageHeader.single_col_cert_common_name (header_of reply))
    (Some (or_empty (single_col_cert_common_name self))).

Definition disconnect : M Machine unit :=
  let* self := get_self in
  in_world (logger_debug ("Disconnecting from gRPC server at " ++ uri self));;
  in_world (channel_close (channel self)).

Definition reconnect : M Machine unit :=
  disconnect;;
  let* self := get_self in
  let* ch :=
    in_world
      (if negb (tls self) then create_insecure_channel (uri self)
       else create_tls_channel (uri self) (root_certificate self)
              (disable_client_auth self) (certificate self)
              (private_key self)) in
  update_self (set_channel ch);;
  in_world (logger_debug ("Connecting to gRPC at " ++ uri self));;
  let* self := get_self in
  update_self (set_stub {| stub_channel := channel self;
                           stub_interceptors := interceptors self |}).

(** *** The decorators *)

Definition _atomic_connection {A} (func : M Machine A) : M Machine A :=
  reconnect;;
  let* response := func in
  disconnect;;
  ret response.

Definition _handle_grpc_error {A} (func : M Machine A) : M Machine A :=
  try_except func (fun error =>
    match error with
    | RpcError code details =>
        Some (in_world (print ("gRPC Error: " ++ StatusCode_str code
                               ++ ". Details: " ++ details));;
              raise (SystemExit 1))
    | _ => None
    end).

Fixpoint _resend_data_on_reconnection {A} (fuel : nat) (func : M Machine A)
    : M Machine A :=
  match fuel with
  | O => out_of_fuel
  | S fuel' =>
      try_except func (fun e =>
        match e with
        | RpcError code _ =>
            Some
              ((if bool_decide (code = UNKNOWN) then
                  let* self := get_self in
                  in_world (logger_info
                    ("Attempting to resend data request to aggregator at "
                     ++ uri self))
                else if bool_decide (code = UNAUTHENTICATED) then raise e
                else ret tt);;
               _resend_data_on_reconnection fuel' func)
        | _ => None
        end)
  end.

(** *** The stub's methods *)

Definition stub_call {Q R} (fuel : nat) (oracle : nat -> Q -> NetReply R)
    (method : string) (request : Q) : M Machine R :=
  let* self := get_self in
  in_world (channel_call fuel (stub_interceptors (stub self)) oracle
              (stub_channel (stub self)) method request).

(** *** The operations

    For each decorated method, [<name>_body] is the function as written
    and [<name>] the method the class ends up with, the decorators applied
    innermost first. *)

Definition get_tasks_body (fuel : nat) (collaborator_name : string)
    : M Machine (list string * Z * Z * bool) :=
  _set_header collaborator_name;;
  let* self := get_self in
  let request := {| GetTasksRequest.header := proto_header (header self) |} in
  let* response :=
    stub_call fuel (GetTasks srv) "/openfl.aggregator.Aggregator/GetTasks"
      request in
  validate_response response collaborator_name;;
  ret (GetTasksResponse.tasks response,
       GetTasksResponse.round_number response,
       GetTasksResponse.sleep_time response,
       GetTasksResponse.quit response).

Definition get_tasks (fuel : nat) (collaborator_name : string) :=
  _atomic_connection
    (_resend_data_on_reconnection fuel (get_tasks_body fuel collaborator_name)).

Definition get_aggregated_tensor_body (fuel : nat)
    (collaborator_name tensor_name : string) (round_number : Z)
    (report : bool) (tags : list string) (require_lossless : bool)
    : M Machine string :=
  _set_header collaborator_name;;
  let* self := get_self in
  let request :=
    {| GetAggregatedTensorRequest.header := proto_header (header self);
       GetAggregatedTensorRequest.tensor_name := tensor_name;
       GetAggregatedTensorRequest.round_number := round_number;
       GetAggregatedTensorRequest.report := report;
       GetAggregatedTensorRequest.tags := tags;
       GetAggregatedTensorRequest.require_lossless := require_lossless |} in
  let* response :=
    stub_call fuel (GetAggregatedTensor srv)
      "/openfl.aggregator.Aggregator/GetAggregatedTensor" request in
  validate_response response collaborator_name;;
  ret (GetAggregatedTensorResponse.tensor response).

Definition get_aggregated_tensor (fuel : nat)
    (collaborator_name tensor_name : string) (round_number : Z)
    (report : bool) (tags : list string) (require_lossless : bool) :=
  _atomic_connection
    (_resend_data_on_reconnection fuel
       (get_aggregated_tensor_body fuel collaborator_name tensor_name
          round_number report tags require_lossless)).

Definition send_local_task_results_body (fuel : nat)
    (collaborator_name : string) (round_number : Z) (task_name : string)
    (data_size : Z) (named_tensors : list string) : M Machine unit :=
  _set_header collaborator_name;;
  let* self := get_self in
  let request :=
    {| TaskResults.header := proto_header (header self);
       TaskResults.round_number := round_number;
       TaskResults.task_name := task_name;
       TaskResults.data_size := data_size;
       TaskResults.tensors := named_tensors |} in
  let stream := ([] ++ proto_to_datastream request)%list in
  let* response :=
    stub_call fuel (SendLocalTaskResults srv)
      "/openfl.aggregator.Aggregator/SendLocalTaskResults" stream in
  validate_response response collaborator_name.

Definition send_local_task_results (fuel : nat)
    (collaborator_name : string) (round_number : Z) (task_name : string)
    (data_size : Z) (named_tensors : list string) :=
  _atomic_connection
    (_resend_data_on_reconnection fuel
       (send_local_task_results_body fuel collaborator_name round_number
          task_name data_size named_tensors)).

Definition connectivity_check_body (fuel : nat) (collaborator_name : string)
    : M Machine unit :=
  _set_header collaborator_name;;
  let* self := get_self in
  let request :=
    {| ConnectivityCheckRequest.header := proto_header (header self) |} in
  let* response :=
    stub_call fuel (ConnectivityCheck srv)
      "/openfl.aggregator.Aggregator/ConnectivityCheck" request in
  validate_response response collaborator_name.

Definition connectivity_check (fuel : nat) (collaborator_name : string) :=
  _handle_grpc_error
    (_atomic_connection (connectivity_check_body fuel collaborator_name)).

Definition admin_add_collaborator_body (fuel : nat)
    (admin_name col_label col_cn : string) : M Machine unit :=
  _set_header admin_name;;
  let* self := get_self in
  let request :=
    {| AddCollaboratorRequest.header := proto_header (header self);
       AddCollaboratorRequest.collaborator_label := col_label;
       AddCollaboratorRequest.collaborator_cn := col_cn |} in
  let* response :=
    stub_call fuel (AddCollaborator srv)
      "/openfl.aggregator.Aggregator/AddCollaborator" request in
  validate_response response admin_name.

Definition admin_add_collaborator (fuel : nat)
    (admin_name col_label col_cn : string) :=
  _handle_grpc_error
    (_atomic_connection
       (admin_add_collaborator_body fuel admin_name col_label col_cn)).

Definition admin_remove_collaborator_body (fuel : nat)
    (admin_name col_label col_cn : string) : M Machine unit :=
  _set_header admin_name;;
  let* self := get_self in
  let request :=
    {| RemoveCollaboratorRequest.header := proto_header (header self);
       RemoveCollaboratorRequest.collaborator_label := col_label;
       RemoveCollaboratorRequest.collaborator_cn := col_cn |} in
  let* response :=
    stub_call fuel (RemoveCollaborator srv)
      "/openfl.aggregator.Aggregator/RemoveCollaborator" request in
  validate_response response admin_name.

Definition admin_remove_collaborator (fuel : nat)
    (admin_name col_label col_cn : string) :=
  _handle_grpc_error
    (_atomic_connection
       (admin_remove_collaborator_body fuel admin_name col_label col_cn)).

Definition admin_get_experiment_status_body (fuel : nat) (admin_name : string)
    : M Machine (list (string * string)) :=
  _set_header admin_name;;
  let* self := get_self in
  let request :=
    {| GetExperimentStatusRequest.header := proto_header (header self) |} in
  let* response :=
    stub_call fuel (GetExperimentStatus srv)
      "/openfl.aggregator.Aggregator/GetExperimentStatus" request in
  validate_response response admin_name;;
  let status_dict := convert_experiment_status_proto_to_dict response in
  ret status_dict.

Definition admin_get_experiment_status (fuel : nat) (admin_name : string) :=
  _handle_grpc_error
    (_atomic_connection (admin_get_experiment_status_body fuel admin_name)).

Definition admin_set_straggler_cutoff_time_body (fuel : nat)
    (admin_name : string) (timeout_in_seconds : Z) : M Machine unit :=
  _set_header admin_name;;
  let* self := get_self in
  let request :=
    {| SetStragglerCuttoffTimeRequest.header := proto_header (header self);
       SetStragglerCuttoffTimeRequest.timeout_in_seconds :=
         timeout_in_seconds |} in
  let* response :=
    stub_call fuel (SetStragglerCuttoffTime srv)
      "/openfl.aggregator.Aggregator/SetStragglerCuttoffTime" request in
  validate_response response admin_name.

Definition admin_set_straggler_cutoff_time (fuel : nat)
    (admin_name : string) (timeout_in_seconds : Z) :=
  _handle_grpc_error
    (_atomic_connection
       (admin_set_straggler_cutoff_time_body fuel admin_name
          timeout_in_seconds)).
End Client.

(* ===================================================================== *)
(** ** Vocabulary of the statements *)
(* ===================================================================== *)

(** The events one round of backoff leaves in the trace: the interceptor's
    report of the status code, then the policy's announcement and sleep. *)
Definition retry_events (self : RetryOnRpcErrorClientInterceptor)
    (c : StatusCode) : list Event :=
  [ Log INFO ("Response code: " ++ StatusCode_str c);
    Log INFO ("Attempting to connect to aggregator at "
              ++ backoff_uri (sleeping_policy self));
    Slept (reconnect_interval (sleeping_policy self)) ].

Definition add_events (es : list Event) (w : World) : World :=
  {| trace := trace w ++ es; heap := heap w; files := files w;
     calls := calls w |}.

(** A wrapped call whose answer depends only on how many attempts were made
    before it, each invocation being one attempt. *)
Definition scripted {D Q R} (continuation : D -> Q -> M World (Outcome R))
    (d : D) (q : Q) (script : nat -> Outcome R) : Prop :=
  forall w, continuation d q w = Some (Ret (script (calls w)), tick w).

(** The interceptor retries the status code [c]. *)
Definition retried (self : RetryOnRpcErrorClientInterceptor)
    (c : StatusCode) : bool :=
  negb (truthy (status_for_retry self)
        && negb (code_in c (status_for_retry self))).

(* ===================================================================== *)
(** ** The retry interceptor *)
(* ===================================================================== *)

Lemma sleeps_add_events es w :
  sleeps (add_events es w) = (sleeps w + length (filter is_sleep es))%nat.
Proof.
  unfold sleeps, add_events; simpl.
  by rewrite filter_app, length_app.
Qed.

Lemma sleeps_tick w : sleeps (tick w) = sleeps w.
Proof. reflexivity. Qed.

Section InterceptorFacts.
Context {D Q R : Type}.
Variable self : RetryOnRpcErrorClientInterceptor.
Variable continuation : D -> Q -> M World (Outcome R).
Variables (d : D) (q : Q).

(** A successful attempt ends the loop. *)
Lemma intercept_call_success fuel w w1 r :
  continuation d q w = Some (Ret (UnaryOutcome r), w1) ->
  _intercept_call (S fuel) self continuation d q w
  = Some (Ret (UnaryOutcome r), w1).
Proof.
  intros Hc. simpl. unfold bind. rewrite Hc. reflexivity.
Qed.

(** A failure that is not retried is returned after the status report. *)
Lemma intercept_call_passthrough fuel w w1 o :
  continuation d q w = Some (Ret o, w1) ->
  isinstance_RpcError o = true ->
  retried self (outcome_code o) = false ->
  _intercept_call (S fuel) self continuation d q w
  = Some (Ret o, add_events
                   [Log INFO ("Response code: " ++ StatusCode_str (outcome_code o))]
                   w1).
Proof.
  intros Hc Hi Hr. simpl. unfold bind at 1. rewrite Hc, Hi.
  unfold retried in Hr. apply negb_false_iff in Hr. rewrite Hr.
  reflexivity.
Qed.

(** A failure that is retried costs one round of backoff, when the sleep
    itself goes through. *)
Lemma intercept_call_retry fuel w w1 o :
  continuation d q w = Some (Ret o, w1) ->
  isinstance_RpcError o = true ->
  retried self (outcome_code o) = true ->
  0 <= reconnect_interval (sleeping_policy self) ->
  _intercept_call (S fuel) self continuation d q w
  = _intercept_call fuel self continuation d q
      (add_events (retry_events self (outcome_code o)) w1).
Proof.
  intros Hc Hi Hr Hpos. simpl. unfold bind at 1. rewrite Hc, Hi.
  unfold retried in Hr. apply negb_true_iff in Hr. rewrite Hr.
  unfold ConstantBackoff_sleep, time_sleep.
  destruct (Z.ltb_spec (reconnect_interval (sleeping_policy self)) 0); [lia|].
  unfold bind, logger_info, emit, modify, add_events, retry_events; simpl.
  repeat rewrite <- app_assoc. reflexivity.
Qed.

(** A negative interval makes the sleep, hence the call, raise. *)
Lemma intercept_call_retry_bad_sleep fuel w w1 o :
  continuation d q w = Some (Ret o, w1) ->
  isinstance_RpcError o = true ->
  retried self (outcome_code o) = true ->
  reconnect_interval (sleeping_policy self) < 0 ->
  exists w2,
    _intercept_call (S fuel) self continuation d q w
    = Some (Raise (ValueError "sleep length must be non-negative"), w2).
Proof.
  intros Hc Hi Hr Hneg. simpl. unfold bind at 1. rewrite Hc, Hi.
  unfold retried in Hr. apply negb_true_iff in Hr. rewrite Hr.
  unfold ConstantBackoff_sleep, time_sleep.
  destruct (Z.ltb_spec (reconnect_interval (sleeping_policy self)) 0); [|lia].
  unfold bind, logger_info, emit, modify, raise; simpl. eauto.
Qed.

(** [n] retried failures in a row, then whatever the loop does next. *)
Lemma intercept_call_retries script :
  scripted continuation d q script ->
  0 <= reconnect_interval (sleeping_policy self) ->
  forall (n : nat) fuel w,
    (forall k, (k < n)%nat ->
       isinstance_RpcError (script (calls w + k)%nat) = true
       /\ retried self (outcome_code (script (calls w + k)%nat)) = true) ->
    exists w',
      _intercept_call (n + fuel) self continuation d q w
      = _intercept_call fuel self continuation d q w'
      /\ sleeps w' = (sleeps w + n)%nat
      /\ calls w' = (calls w + n)%nat
      /\ heap w' = heap w.
Proof.
  intros Hs Hpos n. induction n as [|n IH]; intros fuel w Hfail.
  - exists w. simpl. repeat split; lia.
  - destruct (Hfail 0%nat ltac:(lia)) as [Hi Hr].
    rewrite Nat.add_0_r in Hi, Hr.
    change (S n + fuel)%nat with (S (n + fuel)).
    rewrite (intercept_call_retry _ w (tick w) _ (Hs w) Hi Hr Hpos).
    set (w1 := add_events _ (tick w)).
    destruct (IH fuel w1) as (w' & Heq & Hsl & Hca & Hhe).
    { intros k Hk. specialize (Hfail (S k) ltac:(lia)).
      replace (calls w1 + k)%nat with (calls w + S k)%nat
        by (unfold w1; simpl; lia).
      exact Hfail. }
    exists w'. split; [exact Heq|].
    unfold w1 in *. rewrite sleeps_add_events in Hsl. simpl in *.
    repeat split; try lia.
    rewrite Hsl, sleeps_tick. simpl. lia.
    rewrite Hhe. reflexivity.
Qed.
End InterceptorFacts.

(** C3.  With a non-empty retryable set: when the wrapped call fails with a
    status of the set on its first [N] attempts and then succeeds, the
    interceptor returns the successful result after exactly [N] backoff
    sleeps (and [N + 1] attempts), for every [N] and any fuel above [N]; when
    the first attempt fails with a status outside the set, that failure is
    returned at once with no sleep.  The backoff interval is one [time.sleep]
    accepts. *)
Theorem retry_interceptor_backoff_count {D Q R : Type}
    (self : RetryOnRpcErrorClientInterceptor)
    (continuation : D -> Q -> M World (Outcome R)) (d : D) (q : Q)
    (script : nat -> Outcome R) (w : World) :
  scripted continuation d q script ->
  truthy (status_for_retry self) = true ->
  (forall (N : nat) (r : R) (fuel : nat),
     0 <= reconnect_interval (sleeping_policy self) ->
     (forall k, (k < N)%nat ->
        isinstance_RpcError (script (calls w + k)%nat) = true
        /\ code_in (outcome_code (script (calls w + k)%nat))
             (status_for_retry self) = true) ->
     script (calls w + N)%nat = UnaryOutcome r ->
     (N < fuel)%nat ->
     exists w',
       _intercept_call fuel self continuation d q w
       = Some (Ret (UnaryOutcome r), w')
       /\ sleeps w' = (sleeps w + N)%nat
       /\ calls w' = (calls w + N + 1)%nat)
  /\
  (forall (fuel : nat),
     isinstance_RpcError (script (calls w)) = true ->
     code_in (outcome_code (script (calls w))) (status_for_retry self) = false ->
     (0 < fuel)%nat ->
     exists w',
       _intercept_call fuel self continuation d q w
       = Some (Ret (script (calls w)), w')
       /\ sleeps w' = sleeps w
       /\ calls w' = (calls w + 1)%nat).
Proof.
  intros Hs Ht. split.
  - intros N r fuel Hpos Hfail Hok Hfuel.
    destruct (intercept_call_retries self continuation d q script Hs Hpos
                N (fuel - N) w) as (w1 & Heq & Hsl & Hca & _).
    { intros k Hk. destruct (Hfail k Hk) as [Hi Hc]. split; [exact Hi|].
      unfold retried. rewrite Ht, Hc. reflexivity. }
    replace (N + (fuel - N))%nat with fuel in Heq by lia.
    destruct (fuel - N)%nat as [|f] eqn:Hf; [lia|].
    exists (tick w1). rewrite Heq. split.
    + apply intercept_call_success. rewrite Hs, Hca, Hok. reflexivity.
    + rewrite sleeps_tick. simpl. lia.
  - intros fuel Hi Hc Hfuel. destruct fuel as [|f]; [lia|].
    eexists. split.
    + apply intercept_call_passthrough; [apply Hs | exact Hi |].
      unfold retried. rewrite Ht, Hc. reflexivity.
    + rewrite sleeps_add_events, sleeps_tick. simpl. lia.
Qed.

(** Whatever the wrapped call does, a failure the interceptor hands back
    came through the immediate-return branch: the retryable set was non-empty
    and did not hold the status. *)
Lemma intercept_call_returned_failure {D Q R : Type}
    (self : RetryOnRpcErrorClientInterceptor)
    (continuation : D -> Q -> M World (Outcome R)) (d : D) (q : Q) :
  forall fuel w o w',
    _intercept_call fuel self continuation d q w = Some (Ret o, w') ->
    isinstance_RpcError o = true ->
    truthy (status_for_retry self) = true
    /\ code_in (outcome_code o) (status_for_retry self) = false.
Proof.
  induction fuel as [|fuel IH]; intros w o w' Hrun Hi; [discriminate|].
  simpl in Hrun. unfold bind at 1 in Hrun.
  destruct (continuation d q w) as [[[o1|e] w1]|]; try discriminate.
  destruct (isinstance_RpcError o1) eqn:Hi1.
  - unfold bind at 1 in Hrun. unfold logger_info at 1, emit, modify in Hrun.
    destruct (truthy (status_for_retry self)
              && negb (code_in (outcome_code o1) (status_for_retry self)))
      eqn:Hcond.
    + unfold ret in Hrun. inversion Hrun; subst.
      apply andb_true_iff in Hcond as [? Hn].
      apply negb_true_iff in Hn. auto.
    + unfold bind at 1 in Hrun.
      destruct (ConstantBackoff_sleep (sleeping_policy self) _)
        as [[[[]|e] w2]|]; try discriminate.
      eapply IH; eauto.
  - unfold ret in Hrun. inversion Hrun; subst. congruence.
Qed.

(** C10.  With an empty or absent retryable set, every failure of the wrapped
    call, whatever its status, is followed by the backoff and another
    attempt; the interceptor never returns a failure, so the immediate-return
    branch is dead; and a failure is returned only by an interceptor whose
    set is non-empty. *)
Theorem empty_retry_set_retries_everything {D Q R : Type}
    (self : RetryOnRpcErrorClientInterceptor)
    (continuation : D -> Q -> M World (Outcome R)) (d : D) (q : Q) :
  (status_for_retry self = None \/ status_for_retry self = Some [] ->
   (forall fuel w w1 o,
      continuation d q w = Some (Ret o, w1) ->
      isinstance_RpcError o = true ->
      _intercept_call (S fuel) self continuation d q w
      = (logger_info ("Response code: " ++ StatusCode_str (outcome_code o));;
         ConstantBackoff_sleep (sleeping_policy self);;
         _intercept_call fuel self continuation d q) w1)
   /\
   (forall script (N : nat) (r : R) fuel w,
      scripted continuation d q script ->
      0 <= reconnect_interval (sleeping_policy self) ->
      (forall k, (k < N)%nat ->
         isinstance_RpcError (script (calls w + k)%nat) = true) ->
      script (calls w + N)%nat = UnaryOutcome r ->
      (N < fuel)%nat ->
      exists w',
        _intercept_call fuel self continuation d q w
        = Some (Ret (UnaryOutcome r), w')
        /\ sleeps w' = (sleeps w + N)%nat
        /\ calls w' = (calls w + N + 1)%nat)
   /\
   (forall fuel w o w',
      _intercept_call fuel self continuation d q w = Some (Ret o, w') ->
      isinstance_RpcError o = false))
  /\
  (forall fuel w o w',
     _intercept_call fuel self continuation d q w = Some (Ret o, w') ->
     isinstance_RpcError o = true ->
     exists c l, status_for_retry self = Some (c :: l)).
Proof.
  split.
  - intros Hempty.
    assert (Ht : truthy (status_for_retry self) = false)
      by (destruct Hempty as [-> | ->]; reflexivity).
    split; [|split].
    + intros fuel w w1 o Hc Hi. simpl. unfold bind at 1.
      rewrite Hc, Hi, Ht. reflexivity.
    + intros script N r fuel w Hs Hpos Hfail Hok Hfuel.
      destruct (intercept_call_retries self continuation d q script Hs Hpos
                  N (fuel - N) w) as (w1 & Heq & Hsl & Hca & _).
      { intros k Hk. split; [auto|]. unfold retried. rewrite Ht. reflexivity. }
      replace (N + (fuel - N))%nat with fuel in Heq by lia.
      destruct (fuel - N)%nat as [|f] eqn:Hf; [lia|].
      exists (tick w1). rewrite Heq. split.
      * apply intercept_call_success. rewrite Hs, Hca, Hok. reflexivity.
      * rewrite sleeps_tick. simpl. lia.
    + intros fuel w o w' Hrun.
      destruct (isinstance_RpcError o) eqn:Hi; [|reflexivity].
      destruct (intercept_call_returned_failure _ _ _ _ _ _ _ _ Hrun Hi)
        as [Ht' _]. congruence.
  - intros fuel w o w' Hrun Hi.
    destruct (intercept_call_returned_failure _ _ _ _ _ _ _ _ Hrun Hi)
      as [Ht _].
    destruct (status_for_retry self) as [[|c l]|]; try discriminate. eauto.
Qed.

(* ===================================================================== *)
(** ** What a computation leaves alone *)
(* ===================================================================== *)

(** [preserves rel m]: every run of [m] that ends, normally or by raising,
    relates the state it started from to the state it ends in. *)
Definition preserves {S A} (rel : S -> S -> Prop) (m : M S A) : Prop :=
  forall s r s', m s = Some (r, s') -> rel s s'.

Section Preserves.
Context {S : Type} (rel : S -> S -> Prop) `{!PreOrder rel}.

Lemma preserves_ret {A} (a : A) : preserves rel (ret a).
Proof. intros s r s' H. inversion H; subst. reflexivity. Qed.

Lemma preserves_raise {A} e : preserves rel (@raise S A e).
Proof. intros s r s' H. inversion H; subst. reflexivity. Qed.

Lemma preserves_out_of_fuel {A} : preserves rel (@out_of_fuel S A).
Proof. intros s r s' H. discriminate. Qed.

Lemma preserves_get : preserves rel (@get S).
Proof. intros s r s' H. inversion H; subst. reflexivity. Qed.

Lemma preserves_bind {A B} (m : M S A) (k : A -> M S B) :
  preserves rel m -> (forall a, preserves rel (k a)) -> preserves rel (bind m k).
Proof.
  intros Hm Hk s r s' H. unfold bind in H.
  destruct (m s) as [[[a|e] s1]|] eqn:E; try discriminate.
  - etransitivity; [eapply Hm; eauto | eapply Hk; eauto].
  - inversion H; subst. eapply Hm; eauto.
Qed.

Lemma preserves_try_except {A} (m : M S A) (h : Exn -> option (M S A)) :
  preserves rel m ->
  (forall e k, h e = Some k -> preserves rel k) ->
  preserves rel (try_except m h).
Proof.
  intros Hm Hh s r s' H. unfold try_except in H.
  destruct (m s) as [[[a|e] s1]|] eqn:E; try discriminate.
  - inversion H; subst. eapply Hm; eauto.
  - destruct (h e) as [k|] eqn:Ek.
    + etransitivity; [eapply Hm; eauto | eapply Hh; eauto].
    + inversion H; subst. eapply Hm; eauto.
Qed.

Lemma preserves_modify (f : S -> S) :
  (forall s, rel s (f s)) -> preserves rel (modify f).
Proof. intros Hf s r s' H. inversion H; subst. apply Hf. Qed.
End Preserves.

Lemma preserves_weaken {S A} (rel1 rel2 : S -> S -> Prop) (m : M S A) :
  (forall s s', rel1 s s' -> rel2 s s') -> preserves rel1 m -> preserves rel2 m.
Proof. intros Hw Hm s r s' H. apply Hw. eapply Hm; eauto. Qed.

(** The part of the world a call on the stub leaves alone: the channel
    objects and the files. *)
Definition same_objects (w w' : World) : Prop :=
  heap w' = heap w /\ files w' = files w.

#[global] Instance same_objects_preorder : PreOrder same_objects.
Proof.
  split.
  - intros w. split; reflexivity.
  - intros a b c [? ?] [? ?]. split; congruence.
Qed.

Lemma preserves_emit e : preserves same_objects (emit e).
Proof. apply preserves_modify. intros w. split; reflexivity. Qed.

Lemma preserves_time_sleep secs : preserves same_objects (time_sleep secs).
Proof.
  unfold time_sleep. destruct (secs <? 0).
  - apply preserves_raise. apply _.
  - apply preserves_emit.
Qed.

Lemma preserves_ConstantBackoff_sleep p :
  preserves same_objects (ConstantBackoff_sleep p).
Proof.
  unfold ConstantBackoff_sleep. apply preserves_bind; [apply _| |].
  - apply preserves_emit.
  - intros _. apply preserves_time_sleep.
Qed.

Lemma preserves_intercept_call {D Q R} self
    (continuation : D -> Q -> M World (Outcome R)) d q :
  preserves same_objects (continuation d q) ->
  forall fuel,
    preserves same_objects (_intercept_call fuel self continuation d q).
Proof.
  intros Hc. induction fuel as [|fuel IH]; simpl.
  - apply preserves_out_of_fuel.
  - apply preserves_bind; [apply _|exact Hc|].
    intros o. destruct (isinstance_RpcError o).
    + apply preserves_bind; [apply _|apply preserves_emit|]. intros _.
      destruct (_ && _).
      * apply preserves_ret. apply _.
      * apply preserves_bind; [apply _| |].
        -- apply preserves_ConstantBackoff_sleep.
        -- intros _. exact IH.
    + apply preserves_ret. apply _.
Qed.

Lemma preserves_transport_call {Q R} (oracle : nat -> Q -> NetReply R) ch q :
  preserves same_objects (transport_call oracle ch q).
Proof.
  intros w r w' H. unfold transport_call in H.
  destruct (channel_open w ch).
  - destruct (oracle (calls w) q); inversion H; subst; split; reflexivity.
  - inversion H; subst. reflexivity.
Qed.

Lemma preserves_as_outcome {R} (m : M World R) :
  preserves same_objects m -> preserves same_objects (as_outcome m).
Proof.
  intros Hm w r w' H. unfold as_outcome in H.
  destruct (m w) as [[[a|e] w1]|] eqn:E; try discriminate.
  - inversion H; subst. eapply Hm; eauto.
  - destruct e; inversion H; subst; eapply Hm; eauto.
Qed.

Lemma preserves_outcome_result {R} (o : Outcome R) :
  preserves same_objects (outcome_result o).
Proof.
  destruct o; simpl; [apply preserves_ret | apply preserves_raise
                     | apply preserves_raise]; apply _.
Qed.

Lemma preserves_channel_call {Q R} fuel ints
    (oracle : nat -> Q -> NetReply R) ch :
  forall method q,
    preserves same_objects (channel_call fuel ints oracle ch method q).
Proof.
  induction ints as [|i rest IH]; intros method q; simpl.
  - apply preserves_transport_call.
  - apply preserves_bind; [apply _| |].
    + apply preserves_intercept_call. apply preserves_as_outcome. apply IH.
    + intros o. apply preserves_outcome_result.
Qed.

(* ===================================================================== *)
(** ** One call through the intercepted channel *)
(* ===================================================================== *)

(** The far end answers the next attempt with a response: every layer of
    interceptors hands it up untouched, after a single attempt. *)
Lemma channel_call_ok {Q R} (oracle : nat -> Q -> NetReply R) ch q r w :
  channel_open w ch = true ->
  oracle (calls w) q = NetOk r ->
  forall ints fuel method,
    (0 < fuel)%nat ->
    channel_call fuel ints oracle ch method q w = Some (Ret r, tick w).
Proof.
  intros Hopen Hok ints fuel method Hfuel.
  revert method. induction ints as [|i rest IH]; intros method; simpl.
  - unfold transport_call. rewrite Hopen, Hok. reflexivity.
  - destruct fuel as [|f]; [lia|].
    unfold bind.
    erewrite intercept_call_success; [reflexivity|].
    unfold as_outcome. rewrite IH. reflexivity.
Qed.

(** The far end answers the next attempt with a status no interceptor of
    the channel retries: the failure is raised to the caller of the stub
    after that single attempt, without any sleep. *)
Lemma channel_call_fail {Q R} (oracle : nat -> Q -> NetReply R) ch q c d w :
  channel_open w ch = true ->
  oracle (calls w) q = NetFail c d ->
  forall ints fuel method,
    Forall (fun i => retried i c = false) ints ->
    (0 < fuel)%nat ->
    exists w',
      channel_call fuel ints oracle ch method q w
      = Some (Raise (RpcError c d), w')
      /\ calls w' = Datatypes.S (calls w)
      /\ sleeps w' = sleeps w
      /\ same_objects w w'.
Proof.
  intros Hopen Hfail ints fuel method Hints Hfuel.
  revert method. induction Hints as [|i rest Hi Hrest IH]; intros method; simpl.
  - exists (tick w). unfold transport_call. rewrite Hopen, Hfail.
    repeat split; reflexivity.
  - destruct fuel as [|f]; [lia|].
    destruct (IH method) as (w1 & Hrun & Hca & Hsl & Hob).
    eexists. unfold bind. split.
    + erewrite intercept_call_passthrough
        with (o := RpcErrorOutcome c d) (w1 := w1); [reflexivity | | | ].
      * unfold as_outcome. rewrite Hrun. reflexivity.
      * reflexivity.
      * exact Hi.
    + rewrite sleeps_add_events. simpl.
      destruct Hob as [Hh Hf]. repeat split; simpl; try lia; congruence.
Qed.

(* ===================================================================== *)
(** ** What the client's methods leave alone *)
(* ===================================================================== *)

(** The attributes fixed at construction: endpoint, security configuration,
    identities and the interceptors. *)
Definition same_config (c c' : AggregatorGRPCClient) : Prop :=
  uri c' = uri c /\ tls c' = tls c
  /\ disable_client_auth c' = disable_client_auth c
  /\ root_certificate c' = root_certificate c
  /\ certificate c' = certificate c
  /\ private_key c' = private_key c
  /\ aggregator_uuid c' = aggregator_uuid c
  /\ federation_uuid c' = federation_uuid c
  /\ single_col_cert_common_name c' = single_col_cert_common_name c
  /\ interceptors c' = interceptors c.

(** What a public operation keeps: the configuration and the files. *)
Definition fixed_fields (s s' : Machine) : Prop :=
  same_config (obj s) (obj s') /\ files (env s') = files (env s).

(** What the body of an operation keeps on top of that: the channel and the
    stub it was entered with, and every channel object. *)
Definition body_frame (s s' : Machine) : Prop :=
  same_config (obj s) (obj s')
  /\ channel (obj s') = channel (obj s)
  /\ stub (obj s') = stub (obj s)
  /\ same_objects (env s) (env s').

#[global] Instance same_config_preorder : PreOrder same_config.
Proof.
  split.
  - intros c. unfold same_config. tauto.
  - intros a b c Hab Hbc. unfold same_config in *.
    destruct Hab as (?&?&?&?&?&?&?&?&?&?), Hbc as (?&?&?&?&?&?&?&?&?&?).
    repeat split; congruence.
Qed.

#[global] Instance fixed_fields_preorder : PreOrder fixed_fields.
Proof.
  split.
  - intros s. split; reflexivity.
  - intros a b c [? ?] [? ?]. split; [etransitivity; eauto | congruence].
Qed.

#[global] Instance body_frame_preorder : PreOrder body_frame.
Proof.
  split.
  - intros s. repeat split; reflexivity.
  - intros a b c (?&?&?&?) (?&?&?&?).
    split; [etransitivity; eauto|].
    split; [congruence|]. split; [congruence|]. etransitivity; eauto.
Qed.

Lemma body_frame_fixed_fields s s' : body_frame s s' -> fixed_fields s s'.
Proof. intros (?&?&?&?&?). split; assumption. Qed.

Create HintDb frame.

Ltac frame_step :=
  match goal with
  | |- preserves _ (bind _ _) => apply preserves_bind; [apply _ | | intros ?]
  | |- preserves _ (ret _) => apply preserves_ret; apply _
  | |- preserves _ (raise _) => apply preserves_raise; apply _
  | |- preserves _ out_of_fuel => apply preserves_out_of_fuel
  | |- preserves _ (if ?b then _ else _) => destruct b
  | |- preserves _ (match ?x with _ => _ end) => destruct x
  | |- preserves _ _ => solve [eauto with frame]
  end.

Ltac frame := repeat frame_step.

Lemma preserves_in_world_body {A} (m : M World A) :
  preserves same_objects m -> preserves body_frame (in_world m).
Proof.
  intros Hm s r s' H. unfold in_world in H.
  destruct (m (env s)) as [[r1 w1]|] eqn:E; [|discriminate].
  inversion H; subst. simpl.
  repeat split; try reflexivity; eapply Hm; eauto.
Qed.

Lemma preserves_get_self rel `{!PreOrder rel} : preserves rel get_self.
Proof. intros s r s' H. inversion H; subst. reflexivity. Qed.

Lemma preserves_set_header_body h :
  preserves body_frame (update_self (set_header h)).
Proof.
  apply preserves_modify. intros s. repeat split; reflexivity.
Qed.

Lemma preserves_check_equal {S} (rel : S -> S -> Prop) `{!PreOrder rel} x y :
  preserves rel (check_equal x y).
Proof. unfold check_equal. frame. Qed.

#[export] Hint Resolve preserves_emit preserves_time_sleep
  preserves_ConstantBackoff_sleep preserves_transport_call
  preserves_channel_call preserves_in_world_body
  preserves_set_header_body : frame.
#[export] Hint Extern 1 (preserves _ get_self) =>
  apply preserves_get_self; apply _ : frame.
#[export] Hint Extern 1 (preserves _ (check_equal _ _)) =>
  apply preserves_check_equal; apply _ : frame.
#[export] Hint Extern 1 (preserves _ (logger_info _)) =>
  apply preserves_emit : frame.
#[export] Hint Extern 1 (preserves _ (logger_debug _)) =>
  apply preserves_emit : frame.
#[export] Hint Extern 1 (preserves _ (logger_warn _)) =>
  apply preserves_emit : frame.
#[export] Hint Extern 1 (preserves _ (print _)) =>
  apply preserves_emit : frame.

Section ClientFrame.
Variable channel_options : list (string * Z).
Variable proto_to_datastream : TaskResults.t -> list string.
Variable convert_experiment_status_proto_to_dict :
  GetExperimentStatusResponse.t -> list (string * string).
Variable srv : Server.

Lemma preserves_set_header_call name : preserves body_frame (_set_header name).
Proof. unfold _set_header. frame. Qed.

Lemma preserves_validate_response {R} `{HasHeader R} (reply : R) name :
  preserves body_frame (validate_response reply name).
Proof. unfold validate_response. frame. Qed.

Lemma preserves_stub_call {Q R} fuel (oracle : nat -> Q -> NetReply R) m q :
  preserves body_frame (stub_call fuel oracle m q).
Proof. unfold stub_call. frame. Qed.

Lemma preserves_resend {A} rel `{!PreOrder rel} (func : M Machine A) :
  (forall s s', body_frame s s' -> rel s s') ->
  preserves rel func ->
  forall fuel, preserves rel (_resend_data_on_reconnection fuel func).
Proof.
  intros Hw Hf. induction fuel as [|fuel IH]; simpl.
  - apply preserves_out_of_fuel.
  - apply preserves_try_except; [apply _|exact Hf|].
    intros e k Hk. destruct e; try discriminate.
    inversion Hk; subst. clear Hk.
    apply preserves_bind; [apply _| |intros _; exact IH].
    destruct (bool_decide (code = UNKNOWN)).
    + eapply preserves_weaken; [exact Hw|]. frame.
    + destruct (bool_decide _); frame.
Qed.
End ClientFrame.

(* ===================================================================== *)
(** ** Response-header validation *)
(* ===================================================================== *)

(** The four header fields, in the order [validate_response] checks them. *)
Inductive HeaderField := Receiver | Sender | FederationUuid | CommonName.

Definition checks_in_order : list HeaderField :=
  [Receiver; Sender; FederationUuid; CommonName].

Definition field_actual (f : HeaderField) (h : MessageHeader.t) : string :=
  match f with
  | Receiver => MessageHeader.receiver h
  | Sender => MessageHeader.sender h
  | FederationUuid => MessageHeader.federation_uuid h
  | CommonName => MessageHeader.single_col_cert_common_name h
  end.

(** The identity a field is compared with; [None] is an identity the client
    was built without. *)
Definition field_expected (f : HeaderField) (c : AggregatorGRPCClient)
    (caller : string) : option string :=
  match f with
  | Receiver => Some caller
  | Sender => aggregator_uuid c
  | FederationUuid => federation_uuid c
  | CommonName => Some (or_empty (single_col_cert_common_name c))
  end.

Definition field_matches (c : AggregatorGRPCClient) (caller : string)
    (h : MessageHeader.t) (f : HeaderField) : bool :=
  bool_decide (Some (field_actual f h) = field_expected f c caller).

(** The first field, in checking order, that differs from its identity. *)
Definition first_violation (c : AggregatorGRPCClient) (caller : string)
    (h : MessageHeader.t) : option HeaderField :=
  List.find (fun f => negb (field_matches c caller h f)) checks_in_order.


(** The result of validating a header, as the order of the checks
    dictates. *)
Definition validation_result (c : AggregatorGRPCClient) (caller : string)
    (h : MessageHeader.t) : Result unit :=
  match first_violation c caller h with
  | None => Ret tt
  | Some f =>
      Raise (HeaderMismatchError (field_actual f h) (field_expected f c caller))
  end.

Lemma validate_response_run {R} `{HasHeader R} (reply : R) caller s :
  validate_response reply caller s
  = Some (validation_result (obj s) caller (header_of reply), s).
Proof.
  unfold validate_response, validation_result, first_violation, field_matches,
    checks_in_order, check_equal, bind, get_self; simpl.
  repeat (case_bool_decide; simpl; try reflexivity).
Qed.

Lemma first_violation_none c caller h :
  first_violation c caller h = None <->
  (MessageHeader.receiver h = caller
   /\ aggregator_uuid c = Some (MessageHeader.sender h)
   /\ federation_uuid c = Some (MessageHeader.federation_uuid h)
   /\ MessageHeader.single_col_cert_common_name h
      = or_empty (single_col_cert_common_name c)).
Proof.
  unfold first_violation, field_matches, checks_in_order; simpl.
  repeat (case_bool_decide; simpl); split;
    try discriminate; try (intros; repeat split; congruence);
    intros (?&?&?&?); exfalso; congruence.
Qed.


(* ===================================================================== *)
(** ** Connecting and disconnecting *)
(* ===================================================================== *)

Definition readable (w : World) (path : string) : bool :=
  match List.find (fun kv => bool_decide (fst kv = path)) (files w) with
  | Some _ => true
  | None => false
  end.

(** The credential files a channel of this client needs can be read: none in
    plaintext mode; the root certificate in TLS mode, and the key and the
    certificate too unless client authentication is disabled. *)
Definition credentials_readable (c : AggregatorGRPCClient) (w : World) : bool :=
  negb (tls c)
  || (readable w (root_certificate c)
      && (disable_client_auth c
          || (readable w (private_key c) && readable w (certificate c)))).

(** The state [disconnect] leaves. *)
Definition disconnected (s : Machine) : Machine :=
  {| obj := obj s;
     env := {| trace := trace (env s)
                 ++ [Log DEBUG ("Disconnecting from gRPC server at "
                                ++ uri (obj s))];
               heap := alter close_channel (channel (obj s)) (heap (env s));
               files := files (env s);
               calls := calls (env s) |} |}.

(** How [reconnect] relates the state it is entered with to the one it
    leaves when the channel could be opened: the old channel closed, one new
    open channel appended to the heap, the client and its stub bound to
    it. *)
Definition reconnected (s s1 : Machine) : Prop :=
  same_config (obj s) (obj s1)
  /\ header (obj s1) = header (obj s)
  /\ channel (obj s1) = length (heap (env s))
  /\ stub (obj s1) = {| stub_channel := length (heap (env s));
                        stub_interceptors := interceptors (obj s) |}
  /\ (exists c,
        heap (env s1)
        = (alter close_channel (channel (obj s)) (heap (env s)) ++ [c])%list
        /\ closed c = false /\ target c = uri (obj s))
  /\ files (env s1) = files (env s)
  /\ calls (env s1) = calls (env s)
  /\ sleeps (env s1) = sleeps (env s).

Lemma disconnect_run s : disconnect s = Some (Ret tt, disconnected s).
Proof. reflexivity. Qed.

Lemma bind_run {S A B} (m : M S A) (k : A -> M S B) s :
  bind m k s
  = match m s with
    | None => None
    | Some (Ret a, s') => k a s'
    | Some (Raise e, s') => Some (Raise e, s')
    end.
Proof. reflexivity. Qed.

Lemma read_file_run w path :
  read_file path w
  = match List.find (fun kv => bool_decide (fst kv = path)) (files w) with
    | Some kv => Some (Ret (snd kv), w)
    | None => Some (Raise (OSError path), w)
    end.
Proof.
  unfold read_file, bind, get.
  destruct (List.find _ (files w)); reflexivity.
Qed.

Lemma sleeps_filter_irrelevant (t : list Event) (es : list Event) :
  Forall (fun e => is_sleep e = false) es ->
  length (filter is_sleep (t ++ es)%list) = length (filter is_sleep t).
Proof.
  intros Hes. rewrite filter_app, length_app.
  induction Hes as [|e es He _ IH]; simpl; [lia|].
  rewrite filter_cons. destruct (decide (is_sleep e)) as [Hd|Hd].
  - rewrite He in Hd. destruct Hd.
  - exact IH.
Qed.

Section Connection.
Variable channel_options : list (string * Z).

(** Opening a channel for the client: the events it logs and the channel
    object it creates, when the credentials can be read. *)
Lemma open_channel_ok (c : AggregatorGRPCClient) (w : World) :
  credentials_readable c w = true ->
  exists es ch,
    (if negb (tls c) then create_insecure_channel channel_options (uri c)
     else create_tls_channel channel_options (uri c) (root_certificate c)
            (disable_client_auth c) (certificate c) (private_key c)) w
    = Some (Ret (length (heap w)),
            {| trace := trace w ++ es; heap := heap w ++ [ch];
               files := files w; calls := calls w |})
    /\ closed ch = false /\ target ch = uri c
    /\ Forall (fun e => is_sleep e = false) es
    /\ length (filter is_warning es)
       = (if tls c && disable_client_auth c then 1 else 0)%nat.
Proof.
  unfold credentials_readable, readable. intros Hr.
  destruct (tls c); simpl in *.
  - unfold create_tls_channel. unfold bind at 1. rewrite read_file_run.
    destruct (List.find _ (files w)) as [kv|] eqn:E1; [|discriminate].
    destruct (disable_client_auth c); simpl in *.
    + eexists [_], _. split; [reflexivity|].
      repeat split; auto.
    + rewrite !bind_run, read_file_run.
      destruct (List.find (λ kv0, bool_decide (kv0.1 = private_key c)) (files w))
        as [kv2|] eqn:E2; [|discriminate].
      rewrite bind_run, read_file_run.
      destruct (List.find (λ kv0, bool_decide (kv0.1 = certificate c)) (files w))
        as [kv3|] eqn:E3; [|discriminate].
      exists [], {| target := uri c;
                    credentials := Some {| root_certificates := kv.2;
                                           cred_private_key := Some kv2.2;
                                           certificate_chain := Some kv3.2 |};
                    options := channel_options; closed := false |}.
      split.
      * unfold ret, new_channel, bind, get, modify; simpl.
        rewrite app_nil_r. reflexivity.
      * repeat split; auto.
  - exists [], {| target := uri c; credentials := None;
                  options := channel_options; closed := false |}.
    split.
    + unfold create_insecure_channel, new_channel, bind, get, modify, ret; simpl.
      rewrite app_nil_r. reflexivity.
    + repeat split; auto.
Qed.

Lemma reconnect_ok s :
  credentials_readable (obj s) (env s) = true ->
  exists s1, reconnect channel_options s = Some (Ret tt, s1) /\ reconnected s s1
             /\ warnings (env s1)
                = (warnings (env s)
                   + if tls (obj s) && disable_client_auth (obj s) then 1 else 0)%nat.
Proof.
  intros Hr.
  destruct (open_channel_ok (obj s) (env (disconnected s)))
    as (es & ch & Hopen & Hcl & Htg & Hsl & Hwa); [exact Hr|].
  unfold reconnect. unfold bind at 1. rewrite disconnect_run.
  unfold bind at 1. unfold get_self at 1.
  unfold bind at 1. unfold in_world at 1.
  change (obj (disconnected s)) with (obj s).
  rewrite Hopen.
  eexists. split; [reflexivity|]. simpl.
  split; [|].
  - unfold reconnected; simpl. rewrite length_alter.
    repeat split; try reflexivity.
    + exists ch. auto.
    + unfold sleeps; simpl.
      rewrite sleeps_filter_irrelevant by (constructor; [reflexivity|constructor]).
      rewrite sleeps_filter_irrelevant by exact Hsl.
      rewrite sleeps_filter_irrelevant by (constructor; [reflexivity|constructor]).
      reflexivity.
  - unfold warnings; simpl.
    rewrite !filter_app, !length_app, Hwa. simpl. lia.
Qed.

Lemma reconnected_open s s1 :
  reconnected s s1 -> channel_open (env s1) (channel (obj s1)) = true.
Proof.
  intros (_ & _ & Hch & _ & (c & Hheap & Hcl & _) & _).
  unfold channel_open. rewrite Hch, Hheap.
  rewrite lookup_app_r by (rewrite length_alter; lia).
  rewrite length_alter, Nat.sub_diag. simpl. rewrite Hcl. reflexivity.
Qed.

Lemma reconnected_old_closed s s1 :
  reconnected s s1 ->
  (channel (obj s) < length (heap (env s)))%nat ->
  channel_open (env s1) (channel (obj s)) = false.
Proof.
  intros (_ & _ & Hch & _ & (c & Hheap & Hcl & _) & _) Hlt.
  unfold channel_open. rewrite Hheap.
  rewrite lookup_app_l by (rewrite length_alter; lia).
  rewrite list_lookup_alter_eq.
  destruct (heap (env s) !! channel (obj s)); reflexivity.
Qed.

(** What the lifecycle decorator does once the channel is open: the
    function runs, and only its normal return is followed by the
    disconnect. *)
Lemma atomic_connection_run {A} (func : M Machine A) s s1 :
  reconnect channel_options s = Some (Ret tt, s1) ->
  _atomic_connection channel_options func s
  = match func s1 with
    | None => None
    | Some (Ret a, s2) => Some (Ret a, disconnected s2)
    | Some (Raise e, s2) => Some (Raise e, s2)
    end.
Proof.
  intros Hr. unfold _atomic_connection. unfold bind at 1. rewrite Hr.
  unfold bind at 1. destruct (func s1) as [[[a|e] s2]|]; reflexivity.
Qed.

End Connection.

(* ===================================================================== *)
(** ** The decorated operations, uniformly *)
(* ===================================================================== *)

(** A call of one of the eight decorated methods, indexed by the type of
    what it returns. *)
Inductive Operation : Type -> Type :=
  | get_tasks_op (collaborator_name : string)
      : Operation (list string * Z * Z * bool)
  | get_aggregated_tensor_op (collaborator_name tensor_name : string)
      (round_number : Z) (report : bool) (tags : list string)
      (require_lossless : bool) : Operation string
  | send_local_task_results_op (collaborator_name : string) (round_number : Z)
      (task_name : string) (data_size : Z) (named_tensors : list string)
      : Operation unit
  | connectivity_check_op (collaborator_name : string) : Operation unit
  | admin_add_collaborator_op (admin_name col_label col_cn : string)
      : Operation unit
  | admin_remove_collaborator_op (admin_name col_label col_cn : string)
      : Operation unit
  | admin_get_experiment_status_op (admin_name : string)
      : Operation (list (string * string))
  | admin_set_straggler_cutoff_time_op (admin_name : string)
      (timeout_in_seconds : Z) : Operation unit.

(** The name the caller gives for itself. *)
Definition caller_of {A} (op : Operation A) : string :=
  match op with
  | get_tasks_op n => n
  | get_aggregated_tensor_op n _ _ _ _ _ => n
  | send_local_task_results_op n _ _ _ _ => n
  | connectivity_check_op n => n
  | admin_add_collaborator_op n _ _ => n
  | admin_remove_collaborator_op n _ _ => n
  | admin_get_experiment_status_op n => n
  | admin_set_straggler_cutoff_time_op n _ => n
  end.

(** The operations decorated with [_handle_grpc_error]: the connectivity
    check and the four admin operations.  The other three are decorated with
    [_resend_data_on_reconnection]. *)
Definition terminal {A} (op : Operation A) : bool :=
  match op with
  | get_tasks_op _ | get_aggregated_tensor_op _ _ _ _ _ _
  | send_local_task_results_op _ _ _ _ _ => false
  | _ => true
  end.

(** The header [_set_header] stamps requests with. *)
Definition stamped (c : AggregatorGRPCClient) (caller : string)
    : MessageHeader.t :=
  {| MessageHeader.sender := caller;
     MessageHeader.receiver := proto_str (aggregator_uuid c);
     MessageHeader.federation_uuid := proto_str (federation_uuid c);
     MessageHeader.single_col_cert_common_name :=
       or_empty (single_col_cert_common_name c) |}.

(** What the far end answers with: the reply seen as the response header and
    the value an operation would return from that response. *)
Definition reply_view {R A} `{HasHeader R} (result : R -> A)
    (reply : NetReply R) : NetReply (MessageHeader.t * A) :=
  match reply with
  | NetOk r => NetOk (header_of r, result r)
  | NetFail c d => NetFail c d
  end.

Section Operations.
Variable channel_options : list (string * Z).
Variable proto_to_datastream : TaskResults.t -> list string.
Variable convert_experiment_status_proto_to_dict :
  GetExperimentStatusResponse.t -> list (string * string).
Variable srv : Server.

(** The method the class ends up with. *)
Definition run {A} (fuel : nat) (op : Operation A) : M Machine A :=
  match op with
  | get_tasks_op n => get_tasks channel_options srv fuel n
  | get_aggregated_tensor_op n t r rep tags l =>
      get_aggregated_tensor channel_options srv fuel n t r rep tags l
  | send_local_task_results_op n r t d ts =>
      send_local_task_results channel_options proto_to_datastream srv
        fuel n r t d ts
  | connectivity_check_op n => connectivity_check channel_options srv fuel n
  | admin_add_collaborator_op n l c =>
      admin_add_collaborator channel_options srv fuel n l c
  | admin_remove_collaborator_op n l c =>
      admin_remove_collaborator channel_options srv fuel n l c
  | admin_get_experiment_status_op n =>
      admin_get_experiment_status channel_options
        convert_experiment_status_proto_to_dict srv fuel n
  | admin_set_straggler_cutoff_time_op n t =>
      admin_set_straggler_cutoff_time channel_options srv fuel n t
  end.

(** The function as written, before decoration. *)
Definition body {A} (fuel : nat) (op : Operation A) : M Machine A :=
  match op with
  | get_tasks_op n => get_tasks_body srv fuel n
  | get_aggregated_tensor_op n t r rep tags l =>
      get_aggregated_tensor_body srv fuel n t r rep tags l
  | send_local_task_results_op n r t d ts =>
      send_local_task_results_body proto_to_datastream srv fuel n r t d ts
  | connectivity_check_op n => connectivity_check_body srv fuel n
  | admin_add_collaborator_op n l c => admin_add_collaborator_body srv fuel n l c
  | admin_remove_collaborator_op n l c =>
      admin_remove_collaborator_body srv fuel n l c
  | admin_get_experiment_status_op n =>
      admin_get_experiment_status_body convert_experiment_status_proto_to_dict
        srv fuel n
  | admin_set_straggler_cutoff_time_op n t =>
      admin_set_straggler_cutoff_time_body srv fuel n t
  end.

(** The answer of the far end to the request of an operation stamped with
    header [h], were it the [n]-th attempt on the wire. *)
Definition attempt {A} (op : Operation A) (h : MessageHeader.t) (n : nat)
    : NetReply (MessageHeader.t * A) :=
  match op with
  | get_tasks_op _ =>
      reply_view
        (fun r => (GetTasksResponse.tasks r, GetTasksResponse.round_number r,
                   GetTasksResponse.sleep_time r, GetTasksResponse.quit r))
        (GetTasks srv n {| GetTasksRequest.header := h |})
  | get_aggregated_tensor_op _ t r rep tags l =>
      reply_view GetAggregatedTensorResponse.tensor
        (GetAggregatedTensor srv n
           {| GetAggregatedTensorRequest.header := h;
              GetAggregatedTensorRequest.tensor_name := t;
              GetAggregatedTensorRequest.round_number := r;
              GetAggregatedTensorRequest.report := rep;
              GetAggregatedTensorRequest.tags := tags;
              GetAggregatedTensorRequest.require_lossless := l |})
  | send_local_task_results_op _ r t d ts =>
      reply_view (fun _ => tt)
        (SendLocalTaskResults srv n
           (proto_to_datastream
              {| TaskResults.header := h; TaskResults.round_number := r;
                 TaskResults.task_name := t; TaskResults.data_size := d;
                 TaskResults.tensors := ts |}))
  | connectivity_check_op _ =>
      reply_view (fun _ => tt)
        (ConnectivityCheck srv n {| ConnectivityCheckRequest.header := h |})
  | admin_add_collaborator_op _ l c =>
      reply_view (fun _ => tt)
        (AddCollaborator srv n
           {| AddCollaboratorRequest.header := h;
              AddCollaboratorRequest.collaborator_label := l;
              AddCollaboratorRequest.collaborator_cn := c |})
  | admin_remove_collaborator_op _ l c =>
      reply_view (fun _ => tt)
        (RemoveCollaborator srv n
           {| RemoveCollaboratorRequest.header := h;
              RemoveCollaboratorRequest.collaborator_label := l;
              RemoveCollaboratorRequest.collaborator_cn := c |})
  | admin_get_experiment_status_op _ =>
      reply_view convert_experiment_status_proto_to_dict
        (GetExperimentStatus srv n {| GetExperimentStatusRequest.header := h |})
  | admin_set_straggler_cutoff_time_op _ t =>
      reply_view (fun _ => tt)
        (SetStragglerCuttoffTime srv n
           {| SetStragglerCuttoffTimeRequest.header := h;
              SetStragglerCuttoffTimeRequest.timeout_in_seconds := t |})
  end.

(** The shape the eight bodies share: stamp the header, build the request
    around it, call the stub, validate the response, return what is read
    from it. *)
Definition rpc_body {Q R A} `{HasHeader R} (fuel : nat)
    (oracle : nat -> Q -> NetReply R) (method caller : string)
    (request : MessageHeader.t -> Q) (result : R -> A) : M Machine A :=
  _set_header caller;;
  let* self := get_self in
  let* response :=
    stub_call fuel oracle method (request (proto_header (header self))) in
  validate_response response caller;;
  ret (result response).

Lemma decorators_of_run {A} fuel (op : Operation A) :
  run fuel op
  = if terminal op then
      _handle_grpc_error (_atomic_connection channel_options (body fuel op))
    else
      _atomic_connection channel_options
        (_resend_data_on_reconnection fuel (body fuel op)).
Proof. destruct op; reflexivity. Qed.

Ltac rpc_shape R oracle method request result :=
  exists _, R, _, oracle, method, request, result;
  split; [intros s | intros h n; reflexivity];
  unfold rpc_body, get_tasks_body, get_aggregated_tensor_body,
    send_local_task_results_body, connectivity_check_body,
    admin_add_collaborator_body, admin_remove_collaborator_body,
    admin_get_experiment_status_body, admin_set_straggler_cutoff_time_body;
  unfold bind, _set_header, get_self, update_self, modify; simpl;
  repeat match goal with
    | |- context [match stub_call ?f ?o ?m ?q ?s with _ => _ end] =>
        destruct (stub_call f o m q s) as [[[?|?] ?]|]; try reflexivity
    end;
  rewrite ?validate_response_run; simpl;
  repeat match goal with
    | |- context [validation_result ?c ?n ?h] =>
        destruct (validation_result c n h) as [[]|?]
    end;
  reflexivity.

Lemma body_rpc_shape {A} fuel (op : Operation A) :
  exists (Q R : Type) (H : HasHeader R) (oracle : nat -> Q -> NetReply R)
         (method : string) (request : MessageHeader.t -> Q) (result : R -> A),
    (forall s, body fuel op s
               = rpc_body fuel oracle method (caller_of op) request result s)
    /\ (forall h n, attempt op h n = reply_view result (oracle n (request h))).
Proof.
  destruct op; simpl.
  - rpc_shape GetTasksResponse.t (GetTasks srv)
      "/openfl.aggregator.Aggregator/GetTasks"
      (fun h => {| GetTasksRequest.header := h |})
      (fun r => (GetTasksResponse.tasks r, GetTasksResponse.round_number r,
                 GetTasksResponse.sleep_time r, GetTasksResponse.quit r)).
  - rpc_shape GetAggregatedTensorResponse.t (GetAggregatedTensor srv)
      "/openfl.aggregator.Aggregator/GetAggregatedTensor"
      (fun h =>
         {| GetAggregatedTensorRequest.header := h;
            GetAggregatedTensorRequest.tensor_name := tensor_name;
            GetAggregatedTensorRequest.round_number := round_number;
            GetAggregatedTensorRequest.report := report;
            GetAggregatedTensorRequest.tags := tags;
            GetAggregatedTensorRequest.require_lossless := require_lossless |})
      GetAggregatedTensorResponse.tensor.
  - rpc_shape SendLocalTaskResultsResponse.t (SendLocalTaskResults srv)
      "/openfl.aggregator.Aggregator/SendLocalTaskResults"
      (fun h =>
         proto_to_datastream
           {| TaskResults.header := h;
              TaskResults.round_number := round_number;
              TaskResults.task_name := task_name;
              TaskResults.data_size := data_size;
              TaskResults.tensors := named_tensors |})
      (fun _ : SendLocalTaskResultsResponse.t => tt).
  - rpc_shape ConnectivityCheckResponse.t (ConnectivityCheck srv)
      "/openfl.aggregator.Aggregator/ConnectivityCheck"
      (fun h => {| ConnectivityCheckRequest.header := h |})
      (fun _ : ConnectivityCheckResponse.t => tt).
  - rpc_shape AddCollaboratorResponse.t (AddCollaborator srv)
      "/openfl.aggregator.Aggregator/AddCollaborator"
      (fun h =>
         {| AddCollaboratorRequest.header := h;
            AddCollaboratorRequest.collaborator_label := col_label;
            AddCollaboratorRequest.collaborator_cn := col_cn |})
      (fun _ : AddCollaboratorResponse.t => tt).
  - rpc_shape RemoveCollaboratorResponse.t (RemoveCollaborator srv)
      "/openfl.aggregator.Aggregator/RemoveCollaborator"
      (fun h =>
         {| RemoveCollaboratorRequest.header := h;
            RemoveCollaboratorRequest.collaborator_label := col_label;
            RemoveCollaboratorRequest.collaborator_cn := col_cn |})
      (fun _ : RemoveCollaboratorResponse.t => tt).
  - rpc_shape GetExperimentStatusResponse.t (GetExperimentStatus srv)
      "/openfl.aggregator.Aggregator/GetExperimentStatus"
      (fun h => {| GetExperimentStatusRequest.header := h |})
      convert_experiment_status_proto_to_dict.
  - rpc_shape SetStragglerCuttoffTimeResponse.t (SetStragglerCuttoffTime srv)
      "/openfl.aggregator.Aggregator/SetStragglerCuttoffTime"
      (fun h =>
         {| SetStragglerCuttoffTimeRequest.header := h;
            SetStragglerCuttoffTimeRequest.timeout_in_seconds :=
              timeout_in_seconds |})
      (fun _ : SetStragglerCuttoffTimeResponse.t => tt).
Qed.
End Operations.

Section OperationFacts.
Variable channel_options : list (string * Z).
Variable proto_to_datastream : TaskResults.t -> list string.
Variable convert_experiment_status_proto_to_dict :
  GetExperimentStatusResponse.t -> list (string * string).
Variable srv : Server.

Local Abbreviation run := (run channel_options proto_to_datastream
                   convert_experiment_status_proto_to_dict srv).
Local Abbreviation body := (body proto_to_datastream
                    convert_experiment_status_proto_to_dict srv).
Local Abbreviation attempt := (attempt proto_to_datastream
                       convert_experiment_status_proto_to_dict srv).

(** The state a body leaves after a single answered attempt. *)
Definition after_attempt (caller : string) (s : Machine) : Machine :=
  {| obj := set_header (Some (stamped (obj s) caller)) (obj s);
     env := tick (env s) |}.

Lemma set_header_run caller s :
  _set_header caller s
  = Some (Ret tt, {| obj := set_header (Some (stamped (obj s) caller)) (obj s);
                     env := env s |}).
Proof. reflexivity. Qed.

Lemma stub_call_run {Q R} fuel (oracle : nat -> Q -> NetReply R) m q s :
  stub_call fuel oracle m q s
  = match channel_call fuel (stub_interceptors (stub (obj s))) oracle
            (stub_channel (stub (obj s))) m q (env s) with
    | None => None
    | Some (r, w') => Some (r, {| obj := obj s; env := w' |})
    end.
Proof. reflexivity. Qed.

Lemma preserves_rpc_body {Q R A} `{HasHeader R} fuel
    (oracle : nat -> Q -> NetReply R) method caller
    (request : MessageHeader.t -> Q) (result : R -> A) :
  preserves body_frame (rpc_body fuel oracle method caller request result).
Proof.
  unfold rpc_body.
  apply preserves_bind; [apply _|apply preserves_set_header_call|intros _].
  apply preserves_bind; [apply _|apply preserves_get_self; apply _|intros self].
  apply preserves_bind; [apply _|apply preserves_stub_call|intros r].
  apply preserves_bind; [apply _|apply preserves_validate_response|intros _].
  apply preserves_ret. apply _.
Qed.

Lemma preserves_body {A} fuel (op : Operation A) :
  preserves body_frame (body fuel op).
Proof.
  destruct (body_rpc_shape proto_to_datastream
              convert_experiment_status_proto_to_dict srv fuel op)
    as (Q & R & H & oracle & method & request & result & Heq & _).
  intros s r s' Hrun. rewrite Heq in Hrun.
  eapply preserves_rpc_body; eauto.
Qed.

Lemma rpc_body_ok {Q R A} `{HasHeader R} fuel
    (oracle : nat -> Q -> NetReply R) method caller
    (request : MessageHeader.t -> Q) (result : R -> A) s r :
  channel_open (env s) (stub_channel (stub (obj s))) = true ->
  oracle (calls (env s)) (request (stamped (obj s) caller)) = NetOk r ->
  first_violation (obj s) caller (header_of r) = None ->
  (0 < fuel)%nat ->
  rpc_body fuel oracle method caller request result s
  = Some (Ret (result r), after_attempt caller s).
Proof.
  intros Hopen Hok Hvalid Hfuel. unfold rpc_body.
  rewrite bind_run, set_header_run. rewrite bind_run. unfold get_self at 1.
  rewrite bind_run, stub_call_run. simpl.
  rewrite (channel_call_ok oracle _ _ r) by assumption.
  rewrite bind_run, validate_response_run. unfold validation_result. simpl.
  change (first_violation (set_header _ (obj s)) caller (header_of r))
    with (first_violation (obj s) caller (header_of r)).
  rewrite Hvalid. reflexivity.
Qed.

Lemma rpc_body_fail {Q R A} `{HasHeader R} fuel
    (oracle : nat -> Q -> NetReply R) method caller
    (request : MessageHeader.t -> Q) (result : R -> A) s c d :
  channel_open (env s) (stub_channel (stub (obj s))) = true ->
  oracle (calls (env s)) (request (stamped (obj s) caller)) = NetFail c d ->
  Forall (fun i => retried i c = false) (stub_interceptors (stub (obj s))) ->
  (0 < fuel)%nat ->
  exists s',
    rpc_body fuel oracle method caller request result s
    = Some (Raise (RpcError c d), s')
    /\ calls (env s') = Datatypes.S (calls (env s))
    /\ sleeps (env s') = sleeps (env s).
Proof.
  intros Hopen Hfail Hints Hfuel. unfold rpc_body.
  destruct (channel_call_fail oracle (stub_channel (stub (obj s)))
              (request (stamped (obj s) caller)) c d (env s) Hopen Hfail
              (stub_interceptors (stub (obj s))) fuel method Hints Hfuel)
    as (w' & Hrun & Hca & Hsl & _).
  eexists. split.
  - rewrite bind_run, set_header_run. rewrite bind_run. unfold get_self at 1.
    rewrite bind_run, stub_call_run. simpl. rewrite Hrun. reflexivity.
  - simpl. auto.
Qed.

(** The far end answers the request of the operation with a response whose
    header is valid: the body returns the value read from it. *)
Lemma body_ok {A} fuel (op : Operation A) s rh a :
  channel_open (env s) (stub_channel (stub (obj s))) = true ->
  attempt op (stamped (obj s) (caller_of op)) (calls (env s)) = NetOk (rh, a) ->
  first_violation (obj s) (caller_of op) rh = None ->
  (0 < fuel)%nat ->
  body fuel op s = Some (Ret a, after_attempt (caller_of op) s).
Proof.
  intros Hopen Hok Hvalid Hfuel.
  destruct (body_rpc_shape proto_to_datastream
              convert_experiment_status_proto_to_dict srv fuel op)
    as (Q & R & H & oracle & method & request & result & Heq & Hatt).
  rewrite Heq. rewrite Hatt in Hok. unfold reply_view in Hok.
  destruct (oracle _ _) as [r|] eqn:Hr; [|discriminate].
  inversion Hok; subst.
  eapply rpc_body_ok; eauto.
Qed.

(** The far end answers with a status no interceptor of the stub retries:
    the body raises it after that one attempt, without sleeping. *)
Lemma body_fail {A} fuel (op : Operation A) s c d :
  channel_open (env s) (stub_channel (stub (obj s))) = true ->
  attempt op (stamped (obj s) (caller_of op)) (calls (env s)) = NetFail c d ->
  Forall (fun i => retried i c = false) (stub_interceptors (stub (obj s))) ->
  (0 < fuel)%nat ->
  exists s',
    body fuel op s = Some (Raise (RpcError c d), s')
    /\ body_frame s s'
    /\ calls (env s') = Datatypes.S (calls (env s))
    /\ sleeps (env s') = sleeps (env s).
Proof.
  intros Hopen Hfail Hints Hfuel.
  destruct (body_rpc_shape proto_to_datastream
              convert_experiment_status_proto_to_dict srv fuel op)
    as (Q & R & H & oracle & method & request & result & Heq & Hatt).
  rewrite Hatt in Hfail. unfold reply_view in Hfail.
  destruct (oracle _ _) as [r|c' d'] eqn:Hr; [discriminate|].
  inversion Hfail; subst.
  destruct (rpc_body_fail fuel oracle method (caller_of op) request result
              s c d Hopen Hr Hints Hfuel) as (s' & Hrun & Hca & Hsl).
  exists s'. rewrite Heq. repeat split; auto;
    eapply (preserves_rpc_body fuel oracle method (caller_of op) request result);
    eauto.
Qed.

(** Facts about the state [reconnect] hands to the body. *)
Lemma reconnected_stamped s s1 caller :
  reconnected s s1 -> stamped (obj s1) caller = stamped (obj s) caller.
Proof.
  intros ((_&_&_&_&_&_&Ha&Hf&Hc&_) & _). unfold stamped. congruence.
Qed.

Lemma reconnected_first_violation s s1 caller h :
  reconnected s s1 ->
  first_violation (obj s1) caller h = first_violation (obj s) caller h.
Proof.
  intros ((_&_&_&_&_&_&Ha&Hf&Hc&_) & _).
  unfold first_violation, field_matches, checks_in_order; simpl.
  rewrite Ha, Hf, Hc. reflexivity.
Qed.

Lemma reconnected_stub_open s s1 :
  reconnected s s1 ->
  channel_open (env s1) (stub_channel (stub (obj s1))) = true.
Proof.
  intros Hr. pose proof (reconnected_open s s1 Hr) as Hopen.
  destruct Hr as (_ & _ & Hch & Hst & _). rewrite Hst. simpl.
  rewrite <- Hch. exact Hopen.
Qed.

Lemma reconnected_interceptors s s1 :
  reconnected s s1 -> stub_interceptors (stub (obj s1)) = interceptors (obj s).
Proof. intros (_ & _ & _ & Hst & _). rewrite Hst. reflexivity. Qed.
End OperationFacts.

(* ===================================================================== *)
(** ** The attributes no operation touches *)
(* ===================================================================== *)

Definition same_files (w w' : World) : Prop := files w' = files w.

#[global] Instance same_files_preorder : PreOrder same_files.
Proof.
  split.
  - intros w. reflexivity.
  - intros a b c Hab Hbc. unfold same_files in *. congruence.
Qed.

Lemma files_emit e : preserves same_files (emit e).
Proof. apply preserves_modify. intros w. reflexivity. Qed.

Lemma files_new_channel c : preserves same_files (new_channel c).
Proof.
  unfold new_channel.
  apply preserves_bind; [apply _|apply preserves_get; apply _|intros w].
  apply preserves_bind; [apply _| |intros _; apply preserves_ret; apply _].
  apply preserves_modify. intros w'. reflexivity.
Qed.

Lemma files_channel_close ch : preserves same_files (channel_close ch).
Proof. apply preserves_modify. intros w. reflexivity. Qed.

Lemma files_read_file path : preserves same_files (read_file path).
Proof.
  intros w r w' H. rewrite read_file_run in H.
  destruct (List.find _ (files w)); inversion H; subst; reflexivity.
Qed.

Lemma preserves_in_world_fixed {A} (m : M World A) :
  preserves same_files m -> preserves fixed_fields (in_world m).
Proof.
  intros Hm s r s' H. unfold in_world in H.
  destruct (m (env s)) as [[r1 w1]|] eqn:E; [|discriminate].
  inversion H; subst. split; [reflexivity|]. simpl. eapply Hm; eauto.
Qed.

Lemma preserves_update_fixed f :
  (forall c, same_config c (f c)) -> preserves fixed_fields (update_self f).
Proof.
  intros Hf. apply preserves_modify. intros s. split; [apply Hf|reflexivity].
Qed.

Lemma same_config_set_channel ch c : same_config c (set_channel ch c).
Proof. unfold same_config. simpl. tauto. Qed.

Lemma same_config_set_stub st c : same_config c (set_stub st c).
Proof. unfold same_config. simpl. tauto. Qed.

Lemma same_config_set_header h c : same_config c (set_header h c).
Proof. unfold same_config. simpl. tauto. Qed.

#[export] Hint Resolve files_emit files_new_channel files_channel_close
  files_read_file preserves_in_world_fixed : frame.
#[export] Hint Extern 1 (preserves same_files (logger_info _)) =>
  apply files_emit : frame.
#[export] Hint Extern 1 (preserves same_files (logger_debug _)) =>
  apply files_emit : frame.
#[export] Hint Extern 1 (preserves same_files (logger_warn _)) =>
  apply files_emit : frame.
#[export] Hint Extern 1 (preserves same_files (print _)) =>
  apply files_emit : frame.
#[export] Hint Extern 1 (preserves fixed_fields (update_self (set_channel _))) =>
  apply preserves_update_fixed; apply same_config_set_channel : frame.
#[export] Hint Extern 1 (preserves fixed_fields (update_self (set_stub _))) =>
  apply preserves_update_fixed; apply same_config_set_stub : frame.
#[export] Hint Extern 1 (preserves fixed_fields (update_self (set_header _))) =>
  apply preserves_update_fixed; apply same_config_set_header : frame.

Section FixedFields.
Variable channel_options : list (string * Z).
Variable proto_to_datastream : TaskResults.t -> list string.
Variable convert_experiment_status_proto_to_dict :
  GetExperimentStatusResponse.t -> list (string * string).
Variable srv : Server.

Lemma files_create_insecure_channel u :
  preserves same_files (create_insecure_channel channel_options u).
Proof. apply files_new_channel. Qed.

Lemma files_create_tls_channel u root dis cert key :
  preserves same_files (create_tls_channel channel_options u root dis cert key).
Proof. unfold create_tls_channel. frame. Qed.

Lemma fixed_disconnect : preserves fixed_fields disconnect.
Proof. unfold disconnect. frame. Qed.

Lemma fixed_reconnect : preserves fixed_fields (reconnect channel_options).
Proof.
  unfold reconnect.
  apply preserves_bind; [apply _|apply fixed_disconnect|intros _].
  apply preserves_bind; [apply _|apply preserves_get_self; apply _|intros self].
  apply preserves_bind; [apply _| |intros ch].
  - apply preserves_in_world_fixed. destruct (negb (tls self)).
    + apply files_create_insecure_channel.
    + apply files_create_tls_channel.
  - frame.
Qed.

Lemma fixed_atomic_connection {A} (func : M Machine A) :
  preserves fixed_fields func ->
  preserves fixed_fields (_atomic_connection channel_options func).
Proof.
  intros Hf. unfold _atomic_connection.
  apply preserves_bind; [apply _|apply fixed_reconnect|intros _].
  apply preserves_bind; [apply _|exact Hf|intros a].
  apply preserves_bind; [apply _|apply fixed_disconnect|intros _].
  apply preserves_ret. apply _.
Qed.

Lemma fixed_handle_grpc_error {A} (func : M Machine A) :
  preserves fixed_fields func -> preserves fixed_fields (_handle_grpc_error func).
Proof.
  intros Hf. unfold _handle_grpc_error.
  apply preserves_try_except; [apply _|exact Hf|].
  intros e k Hk. destruct e; try discriminate. inversion Hk; subst. frame.
Qed.

Lemma fixed_body {A} fuel (op : Operation A) :
  preserves fixed_fields
    (body proto_to_datastream convert_experiment_status_proto_to_dict srv
       fuel op).
Proof.
  eapply preserves_weaken; [apply body_frame_fixed_fields|].
  apply preserves_body.
Qed.

Lemma fixed_run {A} fuel (op : Operation A) :
  preserves fixed_fields
    (run channel_options proto_to_datastream
       convert_experiment_status_proto_to_dict srv fuel op).
Proof.
  rewrite decorators_of_run. destruct (terminal op).
  - apply fixed_handle_grpc_error, fixed_atomic_connection, fixed_body.
  - apply fixed_atomic_connection.
    apply preserves_resend; [apply _|apply body_frame_fixed_fields|].
    apply fixed_body.
Qed.
End FixedFields.

(* ===================================================================== *)
(** ** The connection lifecycle *)
(* ===================================================================== *)

Lemma channel_open_same_heap w w' ch :
  heap w' = heap w -> channel_open w' ch = channel_open w ch.
Proof. intros Hh. unfold channel_open. rewrite Hh. reflexivity. Qed.

Section Lifecycle.
Variable channel_options : list (string * Z).
Variable proto_to_datastream : TaskResults.t -> list string.
Variable convert_experiment_status_proto_to_dict :
  GetExperimentStatusResponse.t -> list (string * string).
Variable srv : Server.

Local Abbreviation run := (run channel_options proto_to_datastream
                   convert_experiment_status_proto_to_dict srv).
Local Abbreviation body := (body proto_to_datastream
                    convert_experiment_status_proto_to_dict srv).
Local Abbreviation attempt := (attempt proto_to_datastream
                       convert_experiment_status_proto_to_dict srv).

(** What holds of the state the decorated function [func] ends in, when the
    lifecycle decorator could open the channel and [func] keeps the channel
    and the heap as it found them. *)
Definition opened_then_closed_on_return {A} (s : Machine)
    (r : Result A) (s' : Machine) : Prop :=
  channel (obj s') = length (heap (env s))
  /\ stub_channel (stub (obj s')) = length (heap (env s))
  /\ length (heap (env s')) = Datatypes.S (length (heap (env s)))
  /\ ((channel (obj s) < length (heap (env s)))%nat ->
      channel_open (env s') (channel (obj s)) = false)
  /\ match r with
     | Ret _ => channel_open (env s') (channel (obj s')) = false
     | Raise _ => channel_open (env s') (channel (obj s')) = true
     end.

Lemma lifecycle_after_body {A} s s1 (r : Result A) s2 :
  reconnected s s1 ->
  body_frame s1 s2 ->
  opened_then_closed_on_return s r
    (match r with Ret _ => disconnected s2 | Raise _ => s2 end).
Proof.
  intros Hrec (Hcfg & Hch & Hst & Hheap & Hfiles).
  pose proof (reconnected_open _ _ Hrec) as Hopen.
  pose proof (reconnected_old_closed _ _ Hrec) as Hold.
  destruct Hrec as (_ & _ & Hch1 & Hst1 & (c & Hh1 & Hcl & _) & _).
  assert (Hlen : length (heap (env s1)) = Datatypes.S (length (heap (env s)))).
  { rewrite Hh1, length_app, length_alter. simpl. lia. }
  unfold opened_then_closed_on_return.
  destruct r as [a|e]; simpl.
  - rewrite Hch, Hst, Hst1, Hch1, length_alter, Hheap. simpl.
    repeat split; auto.
    + intros Hlt. unfold channel_open; simpl.
      rewrite list_lookup_alter_ne by lia.
      specialize (Hold Hlt). unfold channel_open in Hold.
      rewrite ?Hheap. exact Hold.
    + unfold channel_open; simpl. rewrite list_lookup_alter_eq.
      destruct (_ !! length (heap (env s))) as [c0|]; reflexivity.
  - rewrite Hch, Hst, Hst1, Hch1, Hheap. simpl.
    repeat split; auto.
    + intros Hlt. rewrite (channel_open_same_heap (env s1)) by exact Hheap.
      auto.
    + rewrite (channel_open_same_heap (env s1)) by exact Hheap.
      rewrite <- Hch1. exact Hopen.
Qed.

(** C1, as the code has it.  For each of the eight decorated operations,
    when the channel can be opened: on entry the old channel is closed and a
    new channel object is created, to which the client and its stub are
    bound; when the operation returns normally that channel is closed on
    exit; when it raises (a failure of the body, or the process exit of the
    terminal paths) the channel is left open. *)
Theorem lifecycle_closes_channel_on_normal_return {A}
    (op : Operation A) (fuel : nat) (s : Machine) (r : Result A) (s' : Machine) :
  credentials_readable (obj s) (env s) = true ->
  run fuel op s = Some (r, s') ->
  opened_then_closed_on_return s r s'.
Proof.
  intros Hcred Hrun.
  destruct (reconnect_ok channel_options s Hcred) as (s1 & Hre & Hrec & _).
  rewrite decorators_of_run in Hrun.
  destruct (terminal op).
  - unfold _handle_grpc_error, try_except in Hrun.
    rewrite (atomic_connection_run _ _ s s1 Hre) in Hrun.
    destruct (body fuel op s1) as [[[a|e] s2]|] eqn:Hb; [| |discriminate].
    + inversion Hrun; subst.
      apply (lifecycle_after_body s s1 (Ret a) s2 Hrec).
      eapply preserves_body; eauto.
    + assert (Hfr : body_frame s1 s2) by (eapply preserves_body; eauto).
      pose proof (lifecycle_after_body s s1 (@Raise A e) s2 Hrec Hfr) as Hl.
      destruct e; inversion Hrun; subst; exact Hl.
  - rewrite (atomic_connection_run _ _ s s1 Hre) in Hrun.
    destruct (_resend_data_on_reconnection fuel (body fuel op) s1)
      as [[[a|e] s2]|] eqn:Hb; [| |discriminate].
    + inversion Hrun; subst.
      apply (lifecycle_after_body s s1 (Ret a) s2 Hrec).
      eapply (preserves_resend body_frame); eauto.
      apply preserves_body.
    + inversion Hrun; subst.
      apply (lifecycle_after_body s s1 (Raise e) s' Hrec).
      eapply (preserves_resend body_frame); eauto.
      apply preserves_body.
Qed.
End Lifecycle.

(** The event the layer logs before resending after an UNKNOWN status. *)
Definition resend_logged (s : Machine) : Machine :=
  {| obj := obj s;
     env := add_events
              [Log INFO ("Attempting to resend data request to aggregator at "
                         ++ uri (obj s))] (env s) |}.

(** The exceptions the resend loop lets out. *)
Definition leaves_resend_loop (e : Exn) : Prop :=
  is_RpcError e = false \/ exists d, e = RpcError UNAUTHENTICATED d.

(* ===================================================================== *)
(** ** The facade: what the caller gets *)
(* ===================================================================== *)

Section Facade.
Variable channel_options : list (string * Z).
Variable proto_to_datastream : TaskResults.t -> list string.
Variable convert_experiment_status_proto_to_dict :
  GetExperimentStatusResponse.t -> list (string * string).
Variable srv : Server.

Local Abbreviation run := (run channel_options proto_to_datastream
                   convert_experiment_status_proto_to_dict srv).
Local Abbreviation body := (body proto_to_datastream
                    convert_experiment_status_proto_to_dict srv).
Local Abbreviation attempt := (attempt proto_to_datastream
                       convert_experiment_status_proto_to_dict srv).

(** C6, as the code has it.  No decorated operation, however it ends,
    changes the endpoint, the security configuration, the identities or the
    interceptors of the client, nor the files; the attributes an operation
    does assign are [channel], [stub] and [header]. *)
Theorem operations_keep_configuration {A}
    (op : Operation A) (fuel : nat) (s : Machine) (r : Result A) (s' : Machine) :
  run fuel op s = Some (r, s') ->
  uri (obj s') = uri (obj s)
  /\ tls (obj s') = tls (obj s)
  /\ disable_client_auth (obj s') = disable_client_auth (obj s)
  /\ root_certificate (obj s') = root_certificate (obj s)
  /\ certificate (obj s') = certificate (obj s)
  /\ private_key (obj s') = private_key (obj s)
  /\ aggregator_uuid (obj s') = aggregator_uuid (obj s)
  /\ federation_uuid (obj s') = federation_uuid (obj s)
  /\ single_col_cert_common_name (obj s') = single_col_cert_common_name (obj s)
  /\ interceptors (obj s') = interceptors (obj s).
Proof.
  intros Hrun.
  destruct (fixed_run channel_options proto_to_datastream
              convert_experiment_status_proto_to_dict srv fuel op s r s' Hrun)
    as [Hcfg _].
  exact Hcfg.
Qed.

(** The body raises a status after one attempt: so does the body under the
    lifecycle decorator, which then leaves without disconnecting. *)
Lemma atomic_body_fail {A} fuel (op : Operation A) s c d :
  credentials_readable (obj s) (env s) = true ->
  attempt op (stamped (obj s) (caller_of op)) (calls (env s)) = NetFail c d ->
  Forall (fun i => retried i c = false) (interceptors (obj s)) ->
  (0 < fuel)%nat ->
  exists s1 s2,
    reconnect channel_options s = Some (Ret tt, s1)
    /\ body fuel op s1 = Some (Raise (RpcError c d), s2)
    /\ _atomic_connection channel_options (body fuel op) s
       = Some (Raise (RpcError c d), s2)
    /\ calls (env s2) = Datatypes.S (calls (env s))
    /\ sleeps (env s2) = sleeps (env s).
Proof.
  intros Hcred Hfail Hints Hfuel.
  destruct (reconnect_ok channel_options s Hcred) as (s1 & Hre & Hrec & _).
  destruct (body_fail proto_to_datastream convert_experiment_status_proto_to_dict
              srv fuel op s1 c d) as (s2 & Hb & _ & Hca & Hsl); auto.
  - eapply reconnected_stub_open; eauto.
  - rewrite (reconnected_stamped s s1) by exact Hrec.
    destruct Hrec as (_&_&_&_&_&_&Hcalls&_). rewrite Hcalls. exact Hfail.
  - rewrite (reconnected_interceptors s s1) by exact Hrec. exact Hints.
  - exists s1, s2. rewrite (atomic_connection_run _ _ s s1 Hre), Hb.
    destruct Hrec as (_&_&_&_&_&_&Hcalls&Hsleeps).
    repeat split; auto; congruence.
Qed.


(** An authentication failure at the first attempt goes through the resend
    layer untouched. *)
Lemma resend_unauthenticated {A} (func : M Machine A) fuel s d s1 :
  func s = Some (Raise (RpcError UNAUTHENTICATED d), s1) ->
  _resend_data_on_reconnection (Datatypes.S fuel) func s
  = Some (Raise (RpcError UNAUTHENTICATED d), s1).
Proof.
  intros Hf. simpl. unfold try_except. rewrite Hf. reflexivity.
Qed.

(** C8.  When the aggregator rejects the first attempt of
    [get_aggregated_tensor] with UNAUTHENTICATED, and every interceptor of
    the client has a non-empty retryable set that does not hold that status
    (as the set of the constructor, UNAVAILABLE alone, or no interceptor at
    all), the failure is raised to the caller after that single attempt: no
    backoff sleep, no retry by the interceptor nor by the resend layer. *)
Theorem unauthenticated_raised_without_backoff
    (fuel : nat) (collaborator_name tensor_name : string) (round_number : Z)
    (report : bool) (tags : list string) (require_lossless : bool)
    (details : string) (s : Machine) :
  credentials_readable (obj s) (env s) = true ->
  Forall (fun i => truthy (status_for_retry i) = true
                   /\ code_in UNAUTHENTICATED (status_for_retry i) = false)
         (interceptors (obj s)) ->
  GetAggregatedTensor srv (calls (env s))
    {| GetAggregatedTensorRequest.header := stamped (obj s) collaborator_name;
       GetAggregatedTensorRequest.tensor_name := tensor_name;
       GetAggregatedTensorRequest.round_number := round_number;
       GetAggregatedTensorRequest.report := report;
       GetAggregatedTensorRequest.tags := tags;
       GetAggregatedTensorRequest.require_lossless := require_lossless |}
  = NetFail UNAUTHENTICATED details ->
  (0 < fuel)%nat ->
  exists s',
    get_aggregated_tensor channel_options srv fuel collaborator_name
      tensor_name round_number report tags require_lossless s
    = Some (Raise (RpcError UNAUTHENTICATED details), s')
    /\ sleeps (env s') = sleeps (env s)
    /\ calls (env s') = Datatypes.S (calls (env s)).
Proof.
  intros Hcred Hints Hfail Hfuel.
  set (op := get_aggregated_tensor_op collaborator_name tensor_name
               round_number report tags require_lossless).
  destruct (atomic_body_fail fuel op s UNAUTHENTICATED details Hcred)
    as (s1 & s2 & Hre & Hb & _ & Hca & Hsl); auto.
  - simpl. rewrite Hfail. reflexivity.
  - eapply Forall_impl; [exact Hints|]. intros i [Ht Hc].
    unfold retried. rewrite Ht, Hc. reflexivity.
  - exists s2. split; [|auto].
    unfold get_aggregated_tensor.
    rewrite (atomic_connection_run _ _ s s1 Hre).
    destruct fuel as [|f]; [lia|].
    change (get_aggregated_tensor_body srv (Datatypes.S f) collaborator_name
              tensor_name round_number report tags require_lossless)
      with (body (Datatypes.S f) op).
    rewrite (resend_unauthenticated _ f s1 details s2 Hb). reflexivity.
Qed.

(** An operation whose first attempt is answered with a valid response. *)
Lemma run_ok {A} fuel (op : Operation A) s rh a :
  credentials_readable (obj s) (env s) = true ->
  attempt op (stamped (obj s) (caller_of op)) (calls (env s)) = NetOk (rh, a) ->
  first_violation (obj s) (caller_of op) rh = None ->
  (0 < fuel)%nat ->
  exists s1,
    reconnect channel_options s = Some (Ret tt, s1)
    /\ run fuel op s
       = Some (Ret a, disconnected (after_attempt (caller_of op) s1)).
Proof.
  intros Hcred Hok Hvalid Hfuel.
  destruct (reconnect_ok channel_options s Hcred) as (s1 & Hre & Hrec & _).
  exists s1. split; [exact Hre|].
  assert (Hb : body fuel op s1
               = Some (Ret a, after_attempt (caller_of op) s1)).
  { apply (body_ok _ _ _ fuel op s1 rh a); auto.
    - eapply reconnected_stub_open; eauto.
    - rewrite (reconnected_stamped s s1) by exact Hrec.
      destruct Hrec as (_&_&_&_&_&_&Hcalls&_). rewrite Hcalls. exact Hok.
    - rewrite (reconnected_first_violation s s1) by exact Hrec. exact Hvalid. }
  rewrite decorators_of_run. destruct (terminal op).
  - unfold _handle_grpc_error, try_except.
    rewrite (atomic_connection_run _ _ s s1 Hre), Hb. reflexivity.
  - rewrite (atomic_connection_run _ _ s s1 Hre).
    destruct fuel as [|f]; [lia|].
    simpl _resend_data_on_reconnection. unfold try_except.
    rewrite Hb. reflexivity.
Qed.

(** *** Where a returned value comes from *)

(** A successful call the interceptor hands back is one the wrapped call
    handed to it. *)
Lemma intercept_call_unary {D Q R} self
    (continuation : D -> Q -> M World (Outcome R)) d q
    (P : R -> World -> Prop) :
  (forall w r w',
     continuation d q w = Some (Ret (UnaryOutcome r), w') -> P r w') ->
  forall fuel w r w',
    _intercept_call fuel self continuation d q w
    = Some (Ret (UnaryOutcome r), w') ->
    P r w'.
Proof.
  intros Hc. induction fuel as [|fuel IH]; intros w r w' Hrun; [discriminate|].
  simpl in Hrun. rewrite bind_run in Hrun.
  destruct (continuation d q w) as [[[o|e] w1]|] eqn:E; try discriminate.
  destruct o as [r0|c0 d0|e0]; simpl in Hrun.
  - inversion Hrun; subst. eapply Hc; eauto.
  - rewrite bind_run in Hrun. simpl in Hrun.
    destruct (_ && _); [discriminate|].
    rewrite bind_run in Hrun.
    destruct (ConstantBackoff_sleep _ _) as [[[[]|e] w2]|]; try discriminate.
    eapply IH; eauto.
  - rewrite bind_run in Hrun. simpl in Hrun.
    destruct (_ && _); [discriminate|].
    rewrite bind_run in Hrun.
    destruct (ConstantBackoff_sleep _ _) as [[[[]|e] w2]|]; try discriminate.
    eapply IH; eauto.
Qed.

(** A response returned by a call on the stub is the answer of the far end
    to the last attempt made. *)
Lemma channel_call_returns {Q R} (oracle : nat -> Q -> NetReply R) ch fuel q :
  forall ints method w r w',
    channel_call fuel ints oracle ch method q w = Some (Ret r, w') ->
    exists n, calls w' = Datatypes.S n /\ oracle n q = NetOk r.
Proof.
  induction ints as [|i rest IH]; intros method w r w' Hrun; simpl in Hrun.
  - unfold transport_call in Hrun.
    destruct (channel_open w ch); [|discriminate].
    destruct (oracle (calls w) q) as [r0|c d] eqn:E; inversion Hrun; subst.
    exists (calls w). split; [reflexivity|exact E].
  - rewrite bind_run in Hrun.
    destruct (_intercept_call _ _ _ _ _ _) as [[[o|e] w1]|] eqn:E;
      try discriminate.
    destruct o as [r0|c0 d0|e0]; simpl in Hrun; inversion Hrun; subst.
    eapply (intercept_call_unary i _ method q
              (fun r w' => exists n, calls w' = Datatypes.S n
                                     /\ oracle n q = NetOk r));
      [|exact E].
    intros w0 r0 w0' Hc. unfold as_outcome in Hc.
    destruct (channel_call fuel rest oracle ch method q w0)
      as [[[r1|e1] w2]|] eqn:E1; try discriminate.
    + inversion Hc; subst. eapply IH; eauto.
    + destruct e1; discriminate.
Qed.

Lemma rpc_body_returns {Q R A} `{HasHeader R} fuel
    (oracle : nat -> Q -> NetReply R) method caller
    (request : MessageHeader.t -> Q) (result : R -> A) s a s' :
  rpc_body fuel oracle method caller request result s = Some (Ret a, s') ->
  exists r n,
    a = result r
    /\ calls (env s') = Datatypes.S n
    /\ oracle n (request (stamped (obj s) caller)) = NetOk r
    /\ first_violation (obj s) caller (header_of r) = None.
Proof.
  unfold rpc_body. intros Hrun.
  rewrite bind_run, set_header_run in Hrun. rewrite bind_run in Hrun.
  unfold get_self at 1 in Hrun. rewrite bind_run, stub_call_run in Hrun.
  simpl in Hrun.
  destruct (channel_call _ _ _ _ _ _ _) as [[[r|e] w1]|] eqn:E;
    try discriminate.
  apply channel_call_returns in E as (n & Hn & Ho).
  rewrite bind_run, validate_response_run in Hrun.
  unfold validation_result in Hrun. simpl in Hrun.
  change (first_violation (set_header _ (obj s)) caller (header_of r))
    with (first_violation (obj s) caller (header_of r)) in Hrun.
  destruct (first_violation (obj s) caller (header_of r)) eqn:Hv;
    [discriminate|].
  inversion Hrun; subst. exists r, n. simpl. auto.
Qed.

Lemma body_returns {A} fuel (op : Operation A) s a s' :
  body fuel op s = Some (Ret a, s') ->
  exists rh n,
    calls (env s') = Datatypes.S n
    /\ attempt op (stamped (obj s) (caller_of op)) n = NetOk (rh, a)
    /\ first_violation (obj s) (caller_of op) rh = None.
Proof.
  destruct (body_rpc_shape proto_to_datastream
              convert_experiment_status_proto_to_dict srv fuel op)
    as (Q & R & H & oracle & method & request & result & Heq & Hatt).
  rewrite Heq. intros Hrun.
  apply rpc_body_returns in Hrun as (r & n & Ha & Hn & Ho & Hv).
  exists (header_of r), n. rewrite Hatt, Ho. subst a. auto.
Qed.

(** A value returned through the resend layer was returned by a round of
    the function, entered in a state that differs from the first one only by
    what the rounds before may change. *)
Lemma resend_returned_by_round {A} (func : M Machine A) :
  preserves body_frame func ->
  forall fuel s a s',
    _resend_data_on_reconnection fuel func s = Some (Ret a, s') ->
    exists t, body_frame s t /\ func t = Some (Ret a, s').
Proof.
  intros Hf. induction fuel as [|fuel IH]; intros s a s' Hrun; [discriminate|].
  simpl in Hrun. unfold try_except in Hrun.
  destruct (func s) as [[[a1|e] s1]|] eqn:E; try discriminate.
  - inversion Hrun; subst. exists s. split; [reflexivity|exact E].
  - destruct e as [c d| | | |]; try discriminate.
    assert (Hfr : body_frame s s1) by (eapply Hf; eauto).
    rewrite bind_run in Hrun.
    destruct (bool_decide (c = UNKNOWN)).
    + simpl in Hrun. apply IH in Hrun as (t & Ht & Hrun).
      exists t. split; [|exact Hrun].
      transitivity (resend_logged s1); [|exact Ht].
      destruct Hfr as (H1&H2&H3&H4&H5).
      exact (conj H1 (conj H2 (conj H3 (conj H4 H5)))).
    + destruct (bool_decide (c = UNAUTHENTICATED)); [discriminate|].
      simpl in Hrun. apply IH in Hrun as (t & Ht & Hrun).
      exists t. split; [|exact Hrun]. transitivity s1; assumption.
Qed.

Lemma atomic_connection_returned {A} (func : M Machine A) s a s' :
  _atomic_connection channel_options func s = Some (Ret a, s') ->
  exists s1 s2,
    reconnect channel_options s = Some (Ret tt, s1)
    /\ func s1 = Some (Ret a, s2)
    /\ s' = disconnected s2.
Proof.
  unfold _atomic_connection. rewrite bind_run.
  destruct (reconnect channel_options s) as [[[[]|e] s1]|] eqn:Hre;
    try discriminate.
  rewrite bind_run.
  destruct (func s1) as [[[a1|e] s2]|] eqn:Hf; try discriminate.
  rewrite bind_run, disconnect_run. intros Hrun. inversion Hrun; subst.
  exists s1, s2. auto.
Qed.

(** Whatever happened before, a value an operation returns was read from a
    response of the far end to the last attempt, and the header of that
    response passed validation. *)
Lemma run_returns {A} fuel (op : Operation A) s a s' :
  run fuel op s = Some (Ret a, s') ->
  exists rh n,
    calls (env s') = Datatypes.S n
    /\ attempt op (stamped (obj s) (caller_of op)) n = NetOk (rh, a)
    /\ first_violation (obj s) (caller_of op) rh = None.
Proof.
  intros Hrun. rewrite decorators_of_run in Hrun.
  assert (Hat : exists t s2,
            fixed_fields s t
            /\ body fuel op t = Some (Ret a, s2) /\ s' = disconnected s2).
  { destruct (terminal op).
    - unfold _handle_grpc_error, try_except in Hrun.
      destruct (_atomic_connection _ _ s) as [[[a1|e] s0]|] eqn:E;
        try discriminate.
      + inversion Hrun; subst.
        apply atomic_connection_returned in E as (s1 & s2 & Hre & Hb & ->).
        exists s1, s2. split; [|auto].
        eapply fixed_reconnect; eauto.
      + destruct e; discriminate.
    - apply atomic_connection_returned in Hrun as (s1 & s2 & Hre & Hb & ->).
      apply resend_returned_by_round in Hb as (t & Ht & Hb);
        [|apply preserves_body].
      exists t, s2. split; [|auto].
      transitivity s1; [eapply fixed_reconnect; eauto|].
      apply body_frame_fixed_fields. exact Ht. }
  destruct Hat as (t & s2 & [Hcfg _] & Hb & ->).
  apply body_returns in Hb as (rh & n & Hn & Hatt & Hv).
  destruct Hcfg as (_&_&_&_&_&_&Ha&Hf&Hc&_).
  exists rh, n. split; [exact Hn|]. split.
  - rewrite <- Hatt. unfold stamped. rewrite Ha, Hf, Hc. reflexivity.
  - rewrite <- Hv. unfold first_violation, field_matches, checks_in_order.
    simpl. rewrite Ha, Hf, Hc. reflexivity.
Qed.

(** C9.  For every caller name: when the aggregator answers the request of
    [get_tasks] with a response whose header carries the identities the
    client expects, [get_tasks] returns the tasks, round number, sleep time
    and quit flag of that response, unchanged; and whenever [get_tasks]
    returns, after however many retries, what it returns is that four-tuple
    of the response to its last attempt, whose header carried those
    identities. *)
Theorem get_tasks_returns_response_tuple
    (fuel : nat) (collaborator_name : string) (s : Machine) :
  (forall response : GetTasksResponse.t,
     credentials_readable (obj s) (env s) = true ->
     GetTasks srv (calls (env s))
       {| GetTasksRequest.header := stamped (obj s) collaborator_name |}
     = NetOk response ->
     MessageHeader.receiver (GetTasksResponse.header response)
     = collaborator_name ->
     aggregator_uuid (obj s)
     = Some (MessageHeader.sender (GetTasksResponse.header response)) ->
     federation_uuid (obj s)
     = Some (MessageHeader.federation_uuid (GetTasksResponse.header response)) ->
     MessageHeader.single_col_cert_common_name
       (GetTasksResponse.header response)
     = or_empty (single_col_cert_common_name (obj s)) ->
     (0 < fuel)%nat ->
     exists s',
       get_tasks channel_options srv fuel collaborator_name s
       = Some (Ret (GetTasksResponse.tasks response,
                    GetTasksResponse.round_number response,
                    GetTasksResponse.sleep_time response,
                    GetTasksResponse.quit response), s'))
  /\
  (forall v s',
     get_tasks channel_options srv fuel collaborator_name s
     = Some (Ret v, s') ->
     exists (response : GetTasksResponse.t) (n : nat),
       calls (env s') = Datatypes.S n
       /\ GetTasks srv n
            {| GetTasksRequest.header := stamped (obj s) collaborator_name |}
          = NetOk response
       /\ MessageHeader.receiver (GetTasksResponse.header response)
          = collaborator_name
       /\ aggregator_uuid (obj s)
          = Some (MessageHeader.sender (GetTasksResponse.header response))
       /\ federation_uuid (obj s)
          = Some (MessageHeader.federation_uuid
                    (GetTasksResponse.header response))
       /\ MessageHeader.single_col_cert_common_name
            (GetTasksResponse.header response)
          = or_empty (single_col_cert_common_name (obj s))
       /\ v = (GetTasksResponse.tasks response,
               GetTasksResponse.round_number response,
               GetTasksResponse.sleep_time response,
               GetTasksResponse.quit response)).
Proof.
  split.
  - intros response Hcred Hok H1 H2 H3 H4 Hfuel.
    destruct (run_ok fuel (get_tasks_op collaborator_name) s
                (GetTasksResponse.header response)
                (GetTasksResponse.tasks response,
                 GetTasksResponse.round_number response,
                 GetTasksResponse.sleep_time response,
                 GetTasksResponse.quit response)) as (s1 & _ & Hrun); auto.
    + simpl. rewrite Hok. reflexivity.
    + apply first_violation_none. auto.
    + eexists. exact Hrun.
  - intros v s' Hrun.
    destruct (run_returns fuel (get_tasks_op collaborator_name) s v s' Hrun)
      as (rh & n & Hn & Hatt & Hv).
    simpl in Hatt. unfold reply_view in Hatt.
    destruct (GetTasks srv n _) as [response|c d] eqn:E; [|discriminate].
    inversion Hatt; subst.
    apply first_violation_none in Hv as (H1 & H2 & H3 & H4).
    exists response, n. repeat split; auto.
Qed.
End Facade.

(* ===================================================================== *)
(** ** The resend layer *)
(* ===================================================================== *)

Section ResendLayer.
Context {A : Type}.
Variable func : M Machine A.

Lemma resend_returns fuel s a s1 :
  func s = Some (Ret a, s1) ->
  _resend_data_on_reconnection (Datatypes.S fuel) func s = Some (Ret a, s1).
Proof. intros Hf. simpl. unfold try_except. rewrite Hf. reflexivity. Qed.

Lemma resend_unknown fuel s d s1 :
  func s = Some (Raise (RpcError UNKNOWN d), s1) ->
  _resend_data_on_reconnection (Datatypes.S fuel) func s
  = _resend_data_on_reconnection fuel func (resend_logged s1).
Proof. intros Hf. simpl. unfold try_except. rewrite Hf. reflexivity. Qed.

Lemma resend_other fuel s c d s1 :
  func s = Some (Raise (RpcError c d), s1) ->
  c <> UNKNOWN -> c <> UNAUTHENTICATED ->
  _resend_data_on_reconnection (Datatypes.S fuel) func s
  = _resend_data_on_reconnection fuel func s1.
Proof.
  intros Hf H1 H2. simpl. unfold try_except. rewrite Hf.
  rewrite bind_run.
  rewrite (bool_decide_eq_false_2 _ H1), (bool_decide_eq_false_2 _ H2).
  reflexivity.
Qed.

Lemma resend_not_transport fuel s e s1 :
  func s = Some (Raise e, s1) ->
  is_RpcError e = false ->
  _resend_data_on_reconnection (Datatypes.S fuel) func s = Some (Raise e, s1).
Proof.
  intros Hf He. simpl. unfold try_except. rewrite Hf.
  destruct e; try reflexivity. discriminate.
Qed.

Lemma resend_ends_on fuel :
  forall s e s',
    _resend_data_on_reconnection fuel func s = Some (Raise e, s') ->
    leaves_resend_loop e.
Proof.
  induction fuel as [|fuel IH]; intros s e s' Hrun; [discriminate|].
  simpl in Hrun. unfold try_except in Hrun.
  destruct (func s) as [[[a|e1] s1]|]; try discriminate.
  destruct e1 as [c d| | | |];
    try (inversion Hrun; subst; left; reflexivity).
  rewrite bind_run in Hrun.
  destruct (bool_decide (c = UNKNOWN)).
  - simpl in Hrun. eapply IH; eauto.
  - destruct (bool_decide (c = UNAUTHENTICATED)) eqn:Hc.
    + apply bool_decide_eq_true in Hc. subst c.
      inversion Hrun; subst. right. eauto.
    + simpl in Hrun. eapply IH; eauto.
Qed.
End ResendLayer.

Section ResendFacade.
Variable channel_options : list (string * Z).
Variable proto_to_datastream : TaskResults.t -> list string.
Variable convert_experiment_status_proto_to_dict :
  GetExperimentStatusResponse.t -> list (string * string).
Variable srv : Server.

Local Abbreviation run := (run channel_options proto_to_datastream
                   convert_experiment_status_proto_to_dict srv).
Local Abbreviation body := (body proto_to_datastream
                    convert_experiment_status_proto_to_dict srv).
Local Abbreviation attempt := (attempt proto_to_datastream
                       convert_experiment_status_proto_to_dict srv).

(** The [k]-th attempt from state [s] on is answered with a status that is
    not UNAUTHENTICATED and that no interceptor of the client retries. *)
Definition resent_failure {A} (op : Operation A) (s : Machine)
    (ints : list RetryOnRpcErrorClientInterceptor) (k : nat) : Prop :=
  exists c d,
    attempt op (stamped (obj s) (caller_of op)) (calls (env s) + k)%nat
    = NetFail c d
    /\ c <> UNAUTHENTICATED
    /\ Forall (fun i => retried i c = false) ints.

Lemma resend_retries {A} (op : Operation A) fuel_b :
  (0 < fuel_b)%nat ->
  forall (N : nat) f t,
    channel_open (env t) (stub_channel (stub (obj t))) = true ->
    (forall k, (k < N)%nat ->
       resent_failure op t (stub_interceptors (stub (obj t))) k) ->
    exists t',
      _resend_data_on_reconnection (N + f) (body fuel_b op) t
      = _resend_data_on_reconnection f (body fuel_b op) t'
      /\ body_frame t t'
      /\ calls (env t') = (calls (env t) + N)%nat
      /\ sleeps (env t') = sleeps (env t).
Proof.
  intros Hfuel N. induction N as [|N IH]; intros f t Hopen Hfail.
  - exists t. simpl. repeat split; try reflexivity; lia.
  - destruct (Hfail 0%nat ltac:(lia)) as (c & d & Hatt & Hc & Hints).
    rewrite Nat.add_0_r in Hatt.
    destruct (body_fail proto_to_datastream
                convert_experiment_status_proto_to_dict srv fuel_b op t c d
                Hopen Hatt Hints Hfuel) as (t1 & Hb & Hfr & Hca & Hsl).
    set (t2 := if bool_decide (c = UNKNOWN) then resend_logged t1 else t1).
    assert (Hstep : _resend_data_on_reconnection (Datatypes.S N + f)
                      (body fuel_b op) t
                    = _resend_data_on_reconnection (N + f) (body fuel_b op) t2).
    { unfold t2. change (Datatypes.S N + f)%nat with (Datatypes.S (N + f)).
      case_bool_decide as Hu.
      - subst c. eapply resend_unknown. exact Hb.
      - apply (resend_other _ _ _ c d); auto. }
    assert (Hfr2 : body_frame t t2).
    { unfold t2. case_bool_decide; [|exact Hfr].
      destruct Hfr as (H1&H2&H3&H4&H5).
      exact (conj H1 (conj H2 (conj H3 (conj H4 H5)))). }
    assert (Hca2 : calls (env t2) = Datatypes.S (calls (env t)))
      by (unfold t2; case_bool_decide; exact Hca).
    assert (Hsl2 : sleeps (env t2) = sleeps (env t)).
    { unfold t2. case_bool_decide; [|exact Hsl].
      unfold resend_logged; simpl. rewrite sleeps_add_events. simpl. lia. }
    pose proof Hfr2 as (Hcfg & Hch & Hst & Hheap & Hfiles).
    destruct (IH f t2) as (t' & Heq & Hfr' & Hca' & Hsl').
    { rewrite Hst. rewrite (channel_open_same_heap (env t)) by exact Hheap.
      exact Hopen. }
    { intros k Hk. destruct (Hfail (Datatypes.S k) ltac:(lia))
        as (c' & d' & Hatt' & Hc' & Hints').
      exists c', d'. rewrite Hst. repeat split; auto.
      replace (stamped (obj t2) (caller_of op))
        with (stamped (obj t) (caller_of op)).
      - replace (calls (env t2) + k)%nat with (calls (env t) + Datatypes.S k)%nat
          by lia. exact Hatt'.
      - destruct Hcfg as (_&_&_&_&_&_&Ha&Hf&Hn&_). unfold stamped. congruence. }
    exists t'. rewrite Hstep. split; [exact Heq|].
    split; [|split; [lia|congruence]].
    transitivity t2; [exact Hfr2|exact Hfr'].
Qed.

(** C2, as the code has it.  For the three operations under the resend layer
    ([get_tasks], [get_aggregated_tensor], [send_local_task_results]): a
    round of the layer that raises a transport failure with status UNKNOWN
    is logged and followed by another round; one that raises UNAUTHENTICATED
    re-raises it at once; one that raises any other status is followed by
    another round as well, without a log line; anything that is not a
    transport failure propagates.  So the loop ends only on success, on
    UNAUTHENTICATED or on a failure that is not a transport failure; and when
    the first [N] attempts are answered with statuses other than
    UNAUTHENTICATED that the interceptors do not retry and the next one with
    a valid response, the operation returns the value of that response after
    [N + 1] attempts and no sleep. *)
Theorem resend_layer_retries_all_but_unauthenticated {A}
    (op : Operation A) (fuel : nat) (s : Machine) :
  terminal op = false ->
  (forall f,
     (forall a s1,
        body fuel op s = Some (Ret a, s1) ->
        _resend_data_on_reconnection (Datatypes.S f) (body fuel op) s
        = Some (Ret a, s1))
     /\ (forall d s1,
           body fuel op s = Some (Raise (RpcError UNKNOWN d), s1) ->
           _resend_data_on_reconnection (Datatypes.S f) (body fuel op) s
           = _resend_data_on_reconnection f (body fuel op) (resend_logged s1))
     /\ (forall d s1,
           body fuel op s = Some (Raise (RpcError UNAUTHENTICATED d), s1) ->
           _resend_data_on_reconnection (Datatypes.S f) (body fuel op) s
           = Some (Raise (RpcError UNAUTHENTICATED d), s1))
     /\ (forall c d s1,
           body fuel op s = Some (Raise (RpcError c d), s1) ->
           c <> UNKNOWN -> c <> UNAUTHENTICATED ->
           _resend_data_on_reconnection (Datatypes.S f) (body fuel op) s
           = _resend_data_on_reconnection f (body fuel op) s1)
     /\ (forall e s1,
           body fuel op s = Some (Raise e, s1) ->
           is_RpcError e = false ->
           _resend_data_on_reconnection (Datatypes.S f) (body fuel op) s
           = Some (Raise e, s1)))
  /\
  (forall f e s',
     _resend_data_on_reconnection f (body fuel op) s = Some (Raise e, s') ->
     leaves_resend_loop e)
  /\
  (forall (N : nat) rh a,
     credentials_readable (obj s) (env s) = true ->
     (forall k, (k < N)%nat -> resent_failure op s (interceptors (obj s)) k) ->
     attempt op (stamped (obj s) (caller_of op)) (calls (env s) + N)%nat
     = NetOk (rh, a) ->
     first_violation (obj s) (caller_of op) rh = None ->
     (N < fuel)%nat ->
     exists s',
       run fuel op s = Some (Ret a, s')
       /\ calls (env s') = (calls (env s) + N + 1)%nat
       /\ sleeps (env s') = sleeps (env s)).
Proof.
  intros Hterm. split; [|split].
  - intros f. repeat split.
    + intros a s1. apply resend_returns.
    + intros d s1. apply resend_unknown.
    + intros d s1. apply resend_unauthenticated.
    + intros c d s1. apply resend_other.
    + intros e s1. apply resend_not_transport.
  - intros f e s'. apply resend_ends_on.
  - intros N rh a Hcred Hfail Hok Hvalid Hfuel.
    destruct (reconnect_ok channel_options s Hcred) as (s1 & Hre & Hrec & _).
    pose proof (reconnected_stub_open s s1 Hrec) as Hopen.
    pose proof (reconnected_stamped s s1 (caller_of op) Hrec) as Hstamp.
    pose proof (reconnected_interceptors s s1 Hrec) as Hints.
    pose proof (reconnected_first_violation s s1 (caller_of op) rh Hrec) as Hfv.
    destruct Hrec as (_&_&_&_&_&_&Hcalls&Hsleeps).
    destruct (resend_retries op fuel ltac:(lia) N (fuel - N) s1 Hopen)
      as (t & Heq & Hfr & Hca & Hsl).
    { intros k Hk. destruct (Hfail k Hk) as (c & d & Hatt & Hc & Hi).
      exists c, d. rewrite Hstamp, Hcalls, Hints. auto. }
    replace (N + (fuel - N))%nat with fuel in Heq by lia.
    destruct Hfr as (Hcfg & Hch & Hst & Hheap & Hfiles).
    assert (Hb : body fuel op t = Some (Ret a, after_attempt (caller_of op) t)).
    { apply (body_ok _ _ _ fuel op t rh a); try lia.
      - rewrite Hst. rewrite (channel_open_same_heap (env s1)) by exact Hheap.
        exact Hopen.
      - replace (stamped (obj t) (caller_of op))
          with (stamped (obj s) (caller_of op)).
        + rewrite Hca, Hcalls. exact Hok.
        + rewrite <- Hstamp.
          destruct Hcfg as (_&_&_&_&_&_&Ha&Hf&Hn&_). unfold stamped. congruence.
      - rewrite <- Hvalid, <- Hfv.
        destruct Hcfg as (_&_&_&_&_&_&Ha&Hf&Hn&_).
        unfold first_violation, field_matches, checks_in_order; simpl.
        rewrite Ha, Hf, Hn. reflexivity. }
    exists (disconnected (after_attempt (caller_of op) t)).
    rewrite decorators_of_run, Hterm.
    rewrite (atomic_connection_run _ _ s s1 Hre), Heq.
    destruct (fuel - N)%nat as [|f'] eqn:Hf; [lia|].
    rewrite (resend_returns _ f' t a _ Hb).
    split; [reflexivity|]. split; [simpl; lia|].
    rewrite <- Hsleeps, <- Hsl. unfold sleeps; simpl.
    apply sleeps_filter_irrelevant. repeat constructor.
Qed.
End ResendFacade.

(* ===================================================================== *)
(** ** A collaborator, an administrator and a fake aggregator *)
(* ===================================================================== *)

Definition fresh_world : World :=
  {| trace := []; heap := []; files := []; calls := 0 |}.

(** The interceptor the constructor installs for a collaborator. *)
Definition collaborator_interceptor : RetryOnRpcErrorClientInterceptor :=
  {| sleeping_policy := {| reconnect_interval := 1;
                           backoff_uri := "localhost:50051" |};
     status_for_retry := Some [UNAVAILABLE] |}.

(** An interceptor built without a retryable set. *)
Definition unconfigured_interceptor : RetryOnRpcErrorClientInterceptor :=
  {| sleeping_policy := {| reconnect_interval := 1;
                           backoff_uri := "localhost:50051" |};
     status_for_retry := None |}.

(** The client [AggregatorGRPCClient("localhost", 50051, tls=False, ...,
    aggregator_uuid="agg-uuid", federation_uuid="fed-uuid")] and the same
    built with [for_admin=True]. *)
Definition built_client (for_admin : bool) : AggregatorGRPCClient :=
  let ints := if for_admin then [] else [collaborator_interceptor] in
  {| uri := "localhost:50051"; tls := false; disable_client_auth := false;
     root_certificate := ""; certificate := ""; private_key := "";
     channel := 0; header := None;
     aggregator_uuid := Some "agg-uuid"; federation_uuid := Some "fed-uuid";
     single_col_cert_common_name := None;
     interceptors := ints;
     stub := {| stub_channel := 0; stub_interceptors := ints |} |}.

Definition built_world : World :=
  {| trace := [Log WARNING
                 "gRPC is running on insecure channel with TLS disabled."];
     heap := [{| target := "localhost:50051"; credentials := None;
                 options := []; closed := false |}];
     files := []; calls := 0 |}.

Definition collaborator_start : Machine :=
  {| obj := built_client false; env := built_world |}.

Definition admin_start : Machine :=
  {| obj := built_client true; env := built_world |}.

Definition valid_header : MessageHeader.t :=
  {| MessageHeader.sender := "agg-uuid";
     MessageHeader.receiver := "collab-1";
     MessageHeader.federation_uuid := "fed-uuid";
     MessageHeader.single_col_cert_common_name := "" |}.

Definition tasks_response : GetTasksResponse.t :=
  {| GetTasksResponse.header := valid_header;
     GetTasksResponse.round_number := 3;
     GetTasksResponse.tasks := ["train"; "validate"];
     GetTasksResponse.sleep_time := 0;
     GetTasksResponse.quit := false |}.

(** An aggregator that answers [GetTasks] with the response above, except
    that the very first attempt fails with [first] when one is given; that
    rejects [GetAggregatedTensor] as unauthenticated; and that is out of
    reach for everything else. *)
Definition fake_aggregator (first : option StatusCode) : Server :=
  {| GetTasks := fun n _ =>
       match first, n with
       | Some c, O => NetFail c "try again"
       | _, _ => NetOk tasks_response
       end;
     GetAggregatedTensor := fun _ _ => NetFail UNAUTHENTICATED "bad credentials";
     SendLocalTaskResults := fun _ _ => NetFail UNAVAILABLE "connection refused";
     ConnectivityCheck := fun _ _ => NetFail UNAVAILABLE "connection refused";
     AddCollaborator := fun _ _ => NetFail UNAVAILABLE "connection refused";
     RemoveCollaborator := fun _ _ => NetFail UNAVAILABLE "connection refused";
     GetExperimentStatus := fun _ _ => NetFail UNAVAILABLE "connection refused";
     SetStragglerCuttoffTime :=
       fun _ _ => NetFail UNAVAILABLE "connection refused" |}.

Definition one_chunk_per_tensor (r : TaskResults.t) : list string :=
  TaskResults.tensors r.

Definition status_as_dict (r : GetExperimentStatusResponse.t)
    : list (string * string) :=
  [("status", GetExperimentStatusResponse.experiment_status r)].

(** A wrapped call that fails twice with [c] and then answers. *)
Definition flaky (c : StatusCode) : unit -> unit -> M World (Outcome string) :=
  fun _ _ w =>
    Some (Ret (if (calls w <? 2)%nat then RpcErrorOutcome c "try again"
               else UnaryOutcome "pong"), tick w).

Definition flaky_script (c : StatusCode) (n : nat) : Outcome string :=
  if (n <? 2)%nat then RpcErrorOutcome c "try again" else UnaryOutcome "pong".

(** The state the collaborator is left in by [get_tasks("collab-1")] against
    the fake aggregator, and by [get_aggregated_tensor], which it rejects. *)
Definition after_get_tasks : Machine :=
  Eval vm_compute in
    match get_tasks [] (fake_aggregator None) 1 "collab-1" collaborator_start
    with
    | Some (_, s') => s'
    | None => collaborator_start
    end.

Definition after_rejected_tensor : Machine :=
  Eval vm_compute in
    match get_aggregated_tensor [] (fake_aggregator None) 1 "collab-1" "conv1"
            3 false ["trained"] true collaborator_start
    with
    | Some (_, s') => s'
    | None => collaborator_start
    end.

(** The constructor builds these clients, opening one channel and warning
    once in plaintext mode. *)
Lemma init_builds_client for_admin :
  __init__ [] "localhost" 50051 false false "" "" ""
    (Some "agg-uuid") (Some "fed-uuid") None for_admin None fresh_world
  = Some (Ret (built_client for_admin), built_world).
Proof. destruct for_admin; reflexivity. Qed.

(* ===================================================================== *)
(** ** Plaintext channels *)
(* ===================================================================== *)

(** In plaintext mode every reconnect opens a channel without failing, and
    logs no warning. *)
Lemma reconnect_plaintext_no_warning channel_options s :
  tls (obj s) = false ->
  exists s',
    reconnect channel_options s = Some (Ret tt, s')
    /\ channel_open (env s') (channel (obj s')) = true
    /\ warnings (env s') = warnings (env s).
Proof.
  intros Htls.
  destruct (reconnect_ok channel_options s) as (s' & Hre & Hrec & Hw).
  { unfold credentials_readable. rewrite Htls. reflexivity. }
  exists s'. split; [exact Hre|]. split; [eapply reconnected_open; eauto|].
  rewrite Hw, Htls. simpl. lia.
Qed.

(** C5.  The plaintext client of the scenario: the constructor opens the
    first channel and logs one insecure-channel warning; [reconnect] then
    opens a second channel, successfully, and logs no warning, so that two
    opens have produced one warning. *)
Theorem reconnect_opens_plaintext_channel_without_warning :
  __init__ [] "localhost" 50051 false false "" "" ""
    (Some "agg-uuid") (Some "fed-uuid") None false None fresh_world
  = Some (Ret (obj collaborator_start), env collaborator_start)
  /\ length (heap (env collaborator_start)) = 1%nat
  /\ warnings (env collaborator_start) = 1%nat
  /\ exists s',
       reconnect [] collaborator_start = Some (Ret tt, s')
       /\ length (heap (env s')) = 2%nat
       /\ channel_open (env s') (channel (obj s')) = true
       /\ warnings (env s') = 1%nat.
Proof.
  split; [apply (init_builds_client false)|].
  split; [reflexivity|]. split; [reflexivity|].
  vm_compute. eexists. split; [reflexivity|]. repeat split.
Qed.

(* ===================================================================== *)
(** ** Scenarios *)
(* ===================================================================== *)

(** The retry interceptor of a collaborator, on a call that is unavailable
    twice and then answers: two sleeps, three attempts; and on a call that
    is rejected as unauthenticated: returned at once. *)
Lemma retry_interceptor_backoff_count_scenario :
  (exists w',
     _intercept_call 3 collaborator_interceptor (flaky UNAVAILABLE) tt tt
       fresh_world
     = Some (Ret (UnaryOutcome "pong"), w')
     /\ sleeps w' = 2%nat /\ calls w' = 3%nat)
  /\
  (exists w',
     _intercept_call 1 collaborator_interceptor (flaky UNAUTHENTICATED) tt tt
       fresh_world
     = Some (Ret (RpcErrorOutcome UNAUTHENTICATED "try again"), w')
     /\ sleeps w' = 0%nat /\ calls w' = 1%nat).
Proof.
  split.
  - apply (proj1 (retry_interceptor_backoff_count collaborator_interceptor
                    (flaky UNAVAILABLE) tt tt (flaky_script UNAVAILABLE)
                    fresh_world (fun w => eq_refl) eq_refl) 2%nat "pong" 3%nat).
    + simpl. lia.
    + intros k Hk. destruct k as [|[|k]]; [split; reflexivity..|lia].
    + reflexivity.
    + lia.
  - apply (proj2 (retry_interceptor_backoff_count collaborator_interceptor
                    (flaky UNAUTHENTICATED) tt tt (flaky_script UNAUTHENTICATED)
                    fresh_world (fun w => eq_refl) eq_refl) 1%nat).
    + reflexivity.
    + reflexivity.
    + lia.
Defined.

(** An interceptor without a retryable set retries an authentication
    failure like any other. *)
Lemma empty_retry_set_scenario :
  exists w',
    _intercept_call 3 unconfigured_interceptor (flaky UNAUTHENTICATED) tt tt
      fresh_world
    = Some (Ret (UnaryOutcome "pong"), w')
    /\ sleeps w' = 2%nat /\ calls w' = 3%nat.
Proof.
  apply (proj1 (proj2 (proj1 (empty_retry_set_retries_everything
                                unconfigured_interceptor
                                (flaky UNAUTHENTICATED) tt tt)
                               (or_introl eq_refl)))
           (flaky_script UNAUTHENTICATED) 2%nat "pong" 3%nat fresh_world).
  - intros w. reflexivity.
  - simpl. lia.
  - intros k Hk. destruct k as [|[|k]]; [reflexivity..|lia].
  - reflexivity.
  - lia.
Defined.


(** The round trip of the specification: [get_tasks("collab-1")] against
    the fake aggregator. *)
Lemma get_tasks_round_trip :
  exists s',
    get_tasks [] (fake_aggregator None) 1 "collab-1" collaborator_start
    = Some (Ret (["train"; "validate"], 3, 0, false), s').
Proof.
  apply (proj1 (get_tasks_returns_response_tuple [] one_chunk_per_tensor
                  status_as_dict (fake_aggregator None) 1
                  "collab-1" collaborator_start) tasks_response);
    try reflexivity.
  lia.
Defined.

(** The collaborator asks for a tensor and is rejected. *)
Lemma unauthenticated_scenario :
  exists s',
    get_aggregated_tensor [] (fake_aggregator None) 1 "collab-1" "conv1"
      3 false ["trained"] true collaborator_start
    = Some (Raise (RpcError UNAUTHENTICATED "bad credentials"), s')
    /\ sleeps (env s') = 0%nat
    /\ calls (env s') = 1%nat.
Proof.
  apply (unauthenticated_raised_without_backoff [] one_chunk_per_tensor
           status_as_dict (fake_aggregator None) 1
           "collab-1" "conv1" 3 false ["trained"] true "bad credentials"
           collaborator_start).
  - reflexivity.
  - repeat constructor.
  - reflexivity.
  - lia.
Defined.


(** C1, as the specification states it, fails: the collaborator is rejected
    while fetching a tensor, the operation raises, and the channel it opened
    is still open on exit. *)
Lemma failed_operation_leaves_channel_open :
  exists s',
    get_aggregated_tensor [] (fake_aggregator None) 1 "collab-1" "conv1"
      3 false ["trained"] true collaborator_start
    = Some (Raise (RpcError UNAUTHENTICATED "bad credentials"), s')
    /\ channel_open (env s') (channel (obj s')) = true.
Proof. vm_compute. eexists. split; reflexivity. Qed.

(** The lifecycle on the same run and on a successful one: channel 1 is
    opened in both, closed after the return, left open after the failure. *)
Lemma lifecycle_scenario :
  (get_tasks [] (fake_aggregator None) 1 "collab-1" collaborator_start
   = Some (Ret (["train"; "validate"], 3, 0, false), after_get_tasks)
   /\ channel (obj after_get_tasks) = 1%nat
   /\ channel_open (env after_get_tasks) 1%nat = false)
  /\
  (get_aggregated_tensor [] (fake_aggregator None) 1 "collab-1" "conv1"
     3 false ["trained"] true collaborator_start
   = Some (Raise (RpcError UNAUTHENTICATED "bad credentials"),
           after_rejected_tensor)
   /\ channel (obj after_rejected_tensor) = 1%nat
   /\ channel_open (env after_rejected_tensor) 1%nat = true).
Proof.
  assert (Hok : get_tasks [] (fake_aggregator None) 1 "collab-1"
                  collaborator_start
                = Some (Ret (["train"; "validate"], 3, 0, false),
                        after_get_tasks))
    by (vm_compute; reflexivity).
  assert (Hko : get_aggregated_tensor [] (fake_aggregator None) 1 "collab-1"
                  "conv1" 3 false ["trained"] true collaborator_start
                = Some (Raise (RpcError UNAUTHENTICATED "bad credentials"),
                        after_rejected_tensor))
    by (vm_compute; reflexivity).
  split.
  - destruct (lifecycle_closes_channel_on_normal_return []
                one_chunk_per_tensor status_as_dict (fake_aggregator None)
                (get_tasks_op "collab-1") 1 collaborator_start _ _
                eq_refl Hok) as (Hch & _ & _ & _ & Hnew).
    split; [exact Hok|]. split; [exact Hch|].
    rewrite Hch in Hnew. exact Hnew.
  - destruct (lifecycle_closes_channel_on_normal_return []
                one_chunk_per_tensor status_as_dict (fake_aggregator None)
                (get_aggregated_tensor_op "collab-1" "conv1" 3 false
                   ["trained"] true) 1 collaborator_start _ _
                eq_refl Hko) as (Hch & _ & _ & _ & Hnew).
    split; [exact Hko|]. split; [exact Hch|].
    rewrite Hch in Hnew. exact Hnew.
Defined.

(** C2, as the specification states it, fails: the first attempt of
    [get_tasks] is refused with PERMISSION_DENIED, a status that is neither
    UNKNOWN nor retried by the interceptor, and instead of propagating it the
    operation resends and returns the tasks of the second attempt. *)
Lemma permission_denied_is_resent :
  GetTasks (fake_aggregator (Some PERMISSION_DENIED)) 0
    {| GetTasksRequest.header := stamped (obj collaborator_start) "collab-1" |}
  = NetFail PERMISSION_DENIED "try again"
  /\ exists s',
       get_tasks [] (fake_aggregator (Some PERMISSION_DENIED)) 2 "collab-1"
         collaborator_start
       = Some (Ret (["train"; "validate"], 3, 0, false), s')
       /\ calls (env s') = 2%nat.
Proof. vm_compute. split; [reflexivity|]. eexists. split; reflexivity. Qed.

(** The same run through the resend layer, one refusal before the answer. *)
Lemma resend_scenario :
  exists s',
    run [] one_chunk_per_tensor status_as_dict
      (fake_aggregator (Some PERMISSION_DENIED)) 2 (get_tasks_op "collab-1")
      collaborator_start
    = Some (Ret (["train"; "validate"], 3, 0, false), s')
    /\ calls (env s') = 2%nat
    /\ sleeps (env s') = 0%nat.
Proof.
  apply (proj2 (proj2 (resend_layer_retries_all_but_unauthenticated []
                         one_chunk_per_tensor status_as_dict
                         (fake_aggregator (Some PERMISSION_DENIED))
                         (get_tasks_op "collab-1") 2 collaborator_start
                         eq_refl))
           1%nat valid_header).
  - reflexivity.
  - intros k Hk. destruct k as [|k]; [|lia].
    exists PERMISSION_DENIED, "try again".
    split; [reflexivity|]. split; [discriminate|]. repeat constructor.
  - reflexivity.
  - reflexivity.
  - lia.
Defined.

(** C6, as the specification states it, fails: [get_tasks] assigns the
    [header] and the [stub] of the client, not only its [channel]. *)
Lemma get_tasks_assigns_header_and_stub :
  exists s',
    get_tasks [] (fake_aggregator None) 1 "collab-1" collaborator_start
    = Some (Ret (["train"; "validate"], 3, 0, false), s')
    /\ header (obj collaborator_start) = None
    /\ header (obj s') = Some (stamped (obj collaborator_start) "collab-1")
    /\ stub_channel (stub (obj collaborator_start)) = 0%nat
    /\ stub_channel (stub (obj s')) = 1%nat.
Proof. vm_compute. eexists. repeat split; reflexivity. Qed.

(** The configuration of the collaborator after that run. *)
Lemma configuration_scenario :
  get_tasks [] (fake_aggregator None) 1 "collab-1" collaborator_start
  = Some (Ret (["train"; "validate"], 3, 0, false), after_get_tasks)
  /\ uri (obj after_get_tasks) = "localhost:50051"
  /\ tls (obj after_get_tasks) = false
  /\ aggregator_uuid (obj after_get_tasks) = Some "agg-uuid"
  /\ federation_uuid (obj after_get_tasks) = Some "fed-uuid".
Proof.
  assert (Hok : get_tasks [] (fake_aggregator None) 1 "collab-1"
                  collaborator_start
                = Some (Ret (["train"; "validate"], 3, 0, false),
                        after_get_tasks))
    by (vm_compute; reflexivity).
  destruct (operations_keep_configuration [] one_chunk_per_tensor
              status_as_dict (fake_aggregator None) (get_tasks_op "collab-1")
              1 collaborator_start _ _ Hok)
    as (H1 & H2 & _ & _ & _ & _ & H7 & H8 & _).
  split; [exact Hok|]. repeat split; assumption.
Defined.

(* ===================================================================== *)
(** * Beyond the claims *)
(* ===================================================================== *)

(* ===================================================================== *)
(** ** Opening a TLS channel *)
(* ===================================================================== *)

(** What reading [path] gives, if it can be read. *)
Definition file_content (w : World) (path : string) : option string :=
  match List.find (fun kv => bool_decide (fst kv = path)) (files w) with
  | Some kv => Some (snd kv)
  | None => None
  end.

(** The files [create_tls_channel] opens, in the order it opens them. *)
Definition files_needed (root_certificate : string) (disable_client_auth : bool)
    (certificate private_key : string) : list string :=
  root_certificate
  :: (if disable_client_auth then [] else [private_key; certificate]).

Definition first_unreadable (w : World) (paths : list string) : option string :=
  List.find (fun p => negb (readable w p)) paths.

(** The files a channel of client [c] needs: none in plaintext mode. *)
Definition client_files (c : AggregatorGRPCClient) : list string :=
  if tls c then
    files_needed (root_certificate c) (disable_client_auth c) (certificate c)
      (private_key c)
  else [].

Definition client_auth_warning : Event :=
  Log WARNING "Client-side authentication is disabled.".

Lemma readable_file_content w path :
  readable w path = match file_content w path with
                    | Some _ => true
                    | None => false
                    end.
Proof.
  unfold readable, file_content.
  destruct (List.find _ (files w)); reflexivity.
Qed.

Lemma read_file_content w path :
  read_file path w
  = match file_content w path with
    | Some b => Some (Ret b, w)
    | None => Some (Raise (OSError path), w)
    end.
Proof.
  rewrite read_file_run. unfold file_content.
  destruct (List.find _ (files w)); reflexivity.
Qed.

Lemma credentials_readable_first_unreadable c w :
  credentials_readable c w
  = match first_unreadable w (client_files c) with
    | None => true
    | Some _ => false
    end.
Proof.
  unfold credentials_readable, first_unreadable, client_files, files_needed.
  destruct (tls c); simpl; [|reflexivity].
  destruct (readable w (root_certificate c)); simpl; [|reflexivity].
  destruct (disable_client_auth c); simpl; [reflexivity|].
  destruct (readable w (private_key c)); simpl; [|reflexivity].
  destruct (readable w (certificate c)); reflexivity.
Qed.

(** The decision tree of [create_tls_channel]. *)
Lemma create_tls_channel_outcome
    (channel_options : list (string * Z)) (uri root_certificate : string)
    (disable_client_auth : bool) (certificate private_key : string)
    (w : World) :
  (forall p,
     first_unreadable w
       (files_needed root_certificate disable_client_auth certificate
          private_key) = Some p ->
     create_tls_channel channel_options uri root_certificate
       disable_client_auth certificate private_key w
     = Some (Raise (OSError p), w))
  /\
  (first_unreadable w
     (files_needed root_certificate disable_client_auth certificate
        private_key) = None ->
   exists root_b,
     file_content w root_certificate = Some root_b
     /\ create_tls_channel channel_options uri root_certificate
          disable_client_auth certificate private_key w
        = Some (Ret (length (heap w)),
                {| trace := trace w
                     ++ (if disable_client_auth then [client_auth_warning]
                         else []);
                   heap := heap w
                     ++ [{| target := uri;
                            credentials :=
                              Some {| root_certificates := root_b;
                                      cred_private_key :=
                                        if disable_client_auth then None
                                        else file_content w private_key;
                                      certificate_chain :=
                                        if disable_client_auth then None
                                        else file_content w certificate |};
                            options := channel_options;
                            closed := false |}];
                   files := files w; calls := calls w |})).
Proof.
  unfold first_unreadable, files_needed, create_tls_channel.
  rewrite bind_run, read_file_content.
  destruct disable_client_auth; simpl; rewrite !readable_file_content;
    destruct (file_content w root_certificate) as [root_b|] eqn:Hroot; simpl;
    try (split; [|discriminate]; intros p Hp; inversion Hp; subst;
         reflexivity).
  - split; [discriminate|]. intros _. exists root_b. split; reflexivity.
  - rewrite !bind_run, read_file_content.
    destruct (file_content w private_key) as [key_b|] eqn:Hkey; simpl;
      [|split; [|discriminate]; intros p Hp; inversion Hp; subst;
        reflexivity].
    rewrite bind_run, read_file_content.
    destruct (file_content w certificate) as [cert_b|] eqn:Hcert; simpl;
      [|split; [|discriminate]; intros p Hp; inversion Hp; subst;
        reflexivity].
    split; [discriminate|]. intros _. exists root_b. split; [reflexivity|].
    unfold ret, new_channel, bind, get, modify; simpl.
    rewrite app_nil_r. reflexivity.
Qed.

(** X1.  [create_tls_channel] opens the root certificate, then, unless client
    authentication is disabled, the private key and then the certificate.
    The first of these that cannot be read makes it raise for that file,
    before anything is logged or any channel is created.  Otherwise it
    creates one open channel for the target, whose credentials hold the
    bytes read; with client authentication disabled the key and the
    certificate are not even opened, the credentials hold the root
    certificate alone and one warning is logged. *)
Theorem create_tls_channel_reads_in_order
    (channel_options : list (string * Z)) (uri root_certificate : string)
    (disable_client_auth : bool) (certificate private_key : string)
    (w : World) :
  (forall p,
     first_unreadable w
       (files_needed root_certificate disable_client_auth certificate
          private_key) = Some p ->
     create_tls_channel channel_options uri root_certificate
       disable_client_auth certificate private_key w
     = Some (Raise (OSError p), w))
  /\
  (first_unreadable w
     (files_needed root_certificate disable_client_auth certificate
        private_key) = None ->
   exists root_b,
     file_content w root_certificate = Some root_b
     /\ create_tls_channel channel_options uri root_certificate
          disable_client_auth certificate private_key w
        = Some (Ret (length (heap w)),
                {| trace := trace w
                     ++ (if disable_client_auth then [client_auth_warning]
                         else []);
                   heap := heap w
                     ++ [{| target := uri;
                            credentials :=
                              Some {| root_certificates := root_b;
                                      cred_private_key :=
                                        if disable_client_auth then None
                                        else file_content w private_key;
                                      certificate_chain :=
                                        if disable_client_auth then None
                                        else file_content w certificate |};
                            options := channel_options;
                            closed := false |}];
                   files := files w; calls := calls w |})).
Proof.
  split.
  - intros p Hp.
    apply (proj1 (create_tls_channel_outcome channel_options uri
                    root_certificate disable_client_auth certificate
                    private_key w) p Hp).
  - intros Hall.
    apply (proj2 (create_tls_channel_outcome channel_options uri
                    root_certificate disable_client_auth certificate
                    private_key w) Hall).
Qed.

(** A file system with the three credential files, and one that lacks the
    private key. *)
Definition tls_world : World :=
  {| trace := []; heap := [];
     files := [("ca.crt", "ROOT"); ("client.key", "KEY"); ("client.crt", "CERT")];
     calls := 0 |}.

Definition keyless_world : World :=
  {| trace := []; heap := [];
     files := [("ca.crt", "ROOT"); ("client.crt", "CERT")];
     calls := 0 |}.

(** With all three files the channel carries their bytes; without the key
    the call raises for the key, unless client authentication is disabled. *)
Lemma create_tls_channel_scenario :
  create_tls_channel [] "localhost:50051" "ca.crt" false "client.crt"
    "client.key" keyless_world
  = Some (Raise (OSError "client.key"), keyless_world)
  /\ exists root_b,
       file_content keyless_world "ca.crt" = Some root_b
       /\ create_tls_channel [] "localhost:50051" "ca.crt" true "client.crt"
            "client.key" keyless_world
          = Some (Ret 0%nat,
                  {| trace := [client_auth_warning];
                     heap := [{| target := "localhost:50051";
                                 credentials :=
                                   Some {| root_certificates := root_b;
                                           cred_private_key := None;
                                           certificate_chain := None |};
                                 options := []; closed := false |}];
                     files := files keyless_world; calls := 0 |}).
Proof.
  split.
  - apply (proj1 (create_tls_channel_reads_in_order [] "localhost:50051"
                    "ca.crt" false "client.crt" "client.key" keyless_world)
             "client.key").
    reflexivity.
  - apply (proj2 (create_tls_channel_reads_in_order [] "localhost:50051"
                    "ca.crt" true "client.crt" "client.key" keyless_world)).
    reflexivity.
Defined.

(* ===================================================================== *)
(** ** Constructing a client *)
(* ===================================================================== *)

(** The interceptors the constructor installs. *)
Definition interceptors_built (for_admin : bool) (uri : string)
    (client_reconnect_interval : option Z)
    : list RetryOnRpcErrorClientInterceptor :=
  if for_admin then []
  else [ {| sleeping_policy :=
              {| reconnect_interval := default 1 client_reconnect_interval;
                 backoff_uri := uri |};
            status_for_retry := Some [UNAVAILABLE] |} ].

(** The stub is the one built over the client's channel and interceptors. *)
Definition stub_bound (c : AggregatorGRPCClient) : Prop :=
  stub c = {| stub_channel := channel c;
              stub_interceptors := interceptors c |}.

(** The two ways the constructor ends. *)
Lemma init_cases
    (channel_options : list (string * Z)) (agg_addr : string) (agg_port : Z)
    (tls_flag disable : bool) (root cert key : string)
    (agg_uuid fed_uuid common_name : option string) (for_admin : bool)
    (interval : option Z) (w : World) :
  let target_uri := agg_addr ++ ":" ++ pretty agg_port in
  let needed := if tls_flag then files_needed root disable cert key else [] in
  (forall p,
     first_unreadable w needed = Some p ->
     __init__ channel_options agg_addr agg_port tls_flag disable root cert key
       agg_uuid fed_uuid common_name for_admin interval w
     = Some (Raise (OSError p), w))
  /\
  (first_unreadable w needed = None ->
   exists c w',
     __init__ channel_options agg_addr agg_port tls_flag disable root cert key
       agg_uuid fed_uuid common_name for_admin interval w
     = Some (Ret c, w')
     /\ uri c = target_uri /\ tls c = tls_flag
     /\ disable_client_auth c = disable
     /\ root_certificate c = root /\ certificate c = cert
     /\ private_key c = key
     /\ aggregator_uuid c = agg_uuid /\ federation_uuid c = fed_uuid
     /\ single_col_cert_common_name c = common_name
     /\ header c = None
     /\ interceptors c = interceptors_built for_admin target_uri interval
     /\ stub_bound c
     /\ channel c = length (heap w)
     /\ (exists ch, heap w' = (heap w ++ [ch])%list
                    /\ target ch = target_uri /\ closed ch = false)
     /\ calls w' = calls w
     /\ warnings w'
        = (warnings w + if negb tls_flag || disable then 1 else 0)%nat).
Proof.
  intros target_uri needed. unfold needed, __init__.
  destruct tls_flag; simpl.
  - rewrite bind_run.
    destruct (create_tls_channel_outcome channel_options target_uri root
                disable cert key w) as [Hfail Hok].
    split.
    + intros p Hp. fold target_uri. pose proof (Hfail p Hp) as E.
      rewrite E. reflexivity.
    + intros Hall. destruct (Hok Hall) as (root_b & _ & Hrun).
      fold target_uri. rewrite Hrun.
      eexists _, _. split; [reflexivity|]. simpl.
      do 13 (split; [reflexivity|]).
      split; [eexists; repeat split|].
      split; [reflexivity|].
      unfold warnings; simpl. rewrite filter_app, length_app.
      destruct disable; simpl; lia.
  - split; [discriminate|]. intros _.
    eexists _, _. split; [reflexivity|]. simpl.
    do 13 (split; [reflexivity|]).
    split; [eexists; repeat split|].
    split; [reflexivity|].
    unfold warnings; simpl. rewrite !filter_app, !length_app. simpl. lia.
Qed.

(** X2.  The constructor fails exactly when, in TLS mode, a credential file
    it needs cannot be read: it then raises for the first such file and
    nothing is logged or created.  Otherwise it returns a client that keeps
    the arguments as given, whose target is [agg_addr:agg_port], whose
    channel is a new, open channel for that target, whose stub is bound to
    that channel, whose header is unset, and which has no interceptor when
    built for administration and otherwise the one retrying interceptor, for
    UNAVAILABLE alone, pausing [client_reconnect_interval] (1 by default)
    between attempts; no attempt is made on the wire, and one warning is
    logged in plaintext mode or with client authentication disabled. *)
Theorem init_outcome
    (channel_options : list (string * Z)) (agg_addr : string) (agg_port : Z)
    (tls_flag disable : bool) (root cert key : string)
    (agg_uuid fed_uuid common_name : option string) (for_admin : bool)
    (interval : option Z) (w : World) :
  let target_uri := agg_addr ++ ":" ++ pretty agg_port in
  let needed := if tls_flag then files_needed root disable cert key else [] in
  (forall p,
     first_unreadable w needed = Some p ->
     __init__ channel_options agg_addr agg_port tls_flag disable root cert key
       agg_uuid fed_uuid common_name for_admin interval w
     = Some (Raise (OSError p), w))
  /\
  (first_unreadable w needed = None ->
   exists c w',
     __init__ channel_options agg_addr agg_port tls_flag disable root cert key
       agg_uuid fed_uuid common_name for_admin interval w
     = Some (Ret c, w')
     /\ uri c = target_uri /\ tls c = tls_flag
     /\ disable_client_auth c = disable
     /\ root_certificate c = root /\ certificate c = cert
     /\ private_key c = key
     /\ aggregator_uuid c = agg_uuid /\ federation_uuid c = fed_uuid
     /\ single_col_cert_common_name c = common_name
     /\ header c = None
     /\ interceptors c = interceptors_built for_admin target_uri interval
     /\ stub_bound c
     /\ channel c = length (heap w)
     /\ (exists ch, heap w' = (heap w ++ [ch])%list
                    /\ target ch = target_uri /\ closed ch = false)
     /\ calls w' = calls w
     /\ warnings w'
        = (warnings w + if negb tls_flag || disable then 1 else 0)%nat).
Proof.
  intros target_uri needed. split.
  - intros p Hp.
    apply (proj1 (init_cases channel_options agg_addr agg_port tls_flag
                    disable root cert key agg_uuid fed_uuid common_name
                    for_admin interval w) p Hp).
  - intros Hall.
    apply (proj2 (init_cases channel_options agg_addr agg_port tls_flag
                    disable root cert key agg_uuid fed_uuid common_name
                    for_admin interval w) Hall).
Qed.

(** A collaborator over TLS, as built when the key is missing and when all
    files are there. *)
Lemma init_scenario :
  __init__ [] "localhost" 50051 true false "ca.crt" "client.crt" "client.key"
    (Some "agg-uuid") (Some "fed-uuid") None false (Some 5) keyless_world
  = Some (Raise (OSError "client.key"), keyless_world)
  /\ exists c w',
       __init__ [] "localhost" 50051 true false "ca.crt" "client.crt"
         "client.key" (Some "agg-uuid") (Some "fed-uuid") None false (Some 5)
         tls_world
       = Some (Ret c, w')
       /\ interceptors c
          = [ {| sleeping_policy := {| reconnect_interval := 5;
                                       backoff_uri := "localhost:50051" |};
                 status_for_retry := Some [UNAVAILABLE] |} ]
       /\ channel c = 0%nat
       /\ warnings w' = 0%nat.
Proof.
  split.
  - apply (proj1 (init_outcome [] "localhost" 50051 true false "ca.crt"
                    "client.crt" "client.key" (Some "agg-uuid")
                    (Some "fed-uuid") None false (Some 5) keyless_world)
             "client.key").
    reflexivity.
  - destruct (proj2 (init_outcome [] "localhost" 50051 true false "ca.crt"
                       "client.crt" "client.key" (Some "agg-uuid")
                       (Some "fed-uuid") None false (Some 5) tls_world)
                eq_refl)
      as (c & w' & Hrun & _ & _ & _ & _ & _ & _ & _ & _ & _ & _ & Hints & _
          & Hch & _ & _ & Hw).
    exists c, w'. split; [exact Hrun|]. split; [exact Hints|].
    split; [exact Hch|exact Hw].
Defined.

(* ===================================================================== *)
(** ** Reconnecting, disconnecting and what they leave behind *)
(* ===================================================================== *)

(** No channel but the client's own is open. *)
Definition only_own_channel_open (s : Machine) : Prop :=
  forall ch, channel_open (env s) ch = true -> ch = channel (obj s).

(** A client in a sound state: its stub is bound to its channel and its
    interceptors, its channel is an object of the heap, and no other channel
    is open. *)
Definition client_ok (s : Machine) : Prop :=
  stub_bound (obj s)
  /\ (channel (obj s) < length (heap (env s)))%nat
  /\ only_own_channel_open s.

(** A series of calls of decorated operations. *)
Inductive Call := MkCall (A : Type) (op : Operation A).
Arguments MkCall {A} op.

Lemma close_channel_idempotent c :
  close_channel (close_channel c) = close_channel c.
Proof. reflexivity. Qed.

Lemma channel_open_alter_close w ch ch' :
  channel_open
    {| trace := trace w; heap := alter close_channel ch (heap w);
       files := files w; calls := calls w |} ch'
  = channel_open w ch' && negb (bool_decide (ch = ch')).
Proof.
  unfold channel_open; simpl. case_bool_decide as E.
  - subst ch'. rewrite list_lookup_alter_eq.
    destruct (heap w !! ch) as [c|]; simpl; [|reflexivity].
    rewrite andb_false_r. reflexivity.
  - rewrite list_lookup_alter_ne by exact E.
    destruct (heap w !! ch') as [c|]; simpl; [|reflexivity].
    rewrite andb_true_r. reflexivity.
Qed.

Lemma channel_open_disconnected_any s ch :
  channel_open (env (disconnected s)) ch
  = channel_open (env s) ch && negb (bool_decide (channel (obj s) = ch)).
Proof.
  unfold disconnected; simpl.
  rewrite <- (channel_open_alter_close (env s)). reflexivity.
Qed.

Lemma channel_open_lt w ch :
  channel_open w ch = true -> (ch < length (heap w))%nat.
Proof.
  unfold channel_open. destruct (heap w !! ch) as [c|] eqn:E; [|discriminate].
  intros _. eapply lookup_lt_Some; eauto.
Qed.

(** X3.  [disconnect] never fails, whether or not the channel was already
    closed: it closes the client's channel and leaves every other channel
    and the client itself as they were; a second [disconnect] changes no
    channel any more. *)
Theorem disconnect_is_idempotent (s : Machine) :
  exists s1 s2,
    disconnect s = Some (Ret tt, s1)
    /\ disconnect s1 = Some (Ret tt, s2)
    /\ obj s1 = obj s /\ obj s2 = obj s
    /\ channel_open (env s1) (channel (obj s)) = false
    /\ (forall ch, ch <> channel (obj s) ->
          channel_open (env s1) ch = channel_open (env s) ch)
    /\ heap (env s2) = heap (env s1)
    /\ calls (env s2) = calls (env s).
Proof.
  exists (disconnected s), (disconnected (disconnected s)).
  split; [apply disconnect_run|]. split; [apply disconnect_run|].
  split; [reflexivity|]. split; [reflexivity|]. split; [|split; [|split]].
  - rewrite channel_open_disconnected_any. rewrite bool_decide_eq_true_2
      by reflexivity. apply andb_false_r.
  - intros ch Hne. rewrite channel_open_disconnected_any.
    rewrite bool_decide_eq_false_2 by congruence. apply andb_true_r.
  - unfold disconnected; simpl. rewrite list_alter_alter_eq.
    apply list_alter_ext; [|reflexivity]. intros c _. reflexivity.
  - reflexivity.
Qed.

Section Reconnecting.
Variable channel_options : list (string * Z).
Variable proto_to_datastream : TaskResults.t -> list string.
Variable convert_experiment_status_proto_to_dict :
  GetExperimentStatusResponse.t -> list (string * string).
Variable srv : Server.

Local Abbreviation run := (run channel_options proto_to_datastream
                   convert_experiment_status_proto_to_dict srv).
Local Abbreviation body := (body proto_to_datastream
                    convert_experiment_status_proto_to_dict srv).

(** The state after each call of a series, whether the call returned or
    raised; [None] when a call ran out of fuel. *)
Fixpoint run_calls (fuel : nat) (cs : list Call) (s : Machine)
    : option Machine :=
  match cs with
  | [] => Some s
  | MkCall op :: rest =>
      match run fuel op s with
      | None => None
      | Some (_, s') => run_calls fuel rest s'
      end
  end.

Lemma reconnect_fails s p :
  first_unreadable (env s) (client_files (obj s)) = Some p ->
  reconnect channel_options s = Some (Raise (OSError p), disconnected s).
Proof.
  unfold client_files. intros Hp.
  destruct (tls (obj s)) eqn:Htls; [|discriminate].
  unfold reconnect. rewrite bind_run, disconnect_run.
  rewrite bind_run. unfold get_self at 1. rewrite bind_run.
  unfold in_world at 1. change (obj (disconnected s)) with (obj s).
  rewrite Htls. change (negb true) with false. cbv iota.
  pose proof (proj1 (create_tls_channel_outcome channel_options (uri (obj s))
                       (root_certificate (obj s)) (disable_client_auth (obj s))
                       (certificate (obj s)) (private_key (obj s))
                       (env (disconnected s))) p Hp) as E.
  rewrite E. reflexivity.
Qed.

Lemma credentials_readable_fixed_fields s s' :
  fixed_fields s s' ->
  credentials_readable (obj s') (env s') = credentials_readable (obj s) (env s).
Proof.
  intros [(Hu&Ht&Hd&Hr&Hc&Hk&_) Hf].
  unfold credentials_readable, readable. rewrite Ht, Hd, Hr, Hc, Hk, Hf.
  reflexivity.
Qed.

(** X4.  When a credential file the client needs cannot be read (TLS mode),
    [reconnect] raises for the first such file after having closed the old
    channel: the client is left holding that channel, closed, no channel is
    created and the stub is not rebuilt. *)
Theorem reconnect_failure_leaves_client_disconnected (s : Machine) (p : string) :
  first_unreadable (env s) (client_files (obj s)) = Some p ->
  exists s',
    reconnect channel_options s = Some (Raise (OSError p), s')
    /\ obj s' = obj s
    /\ length (heap (env s')) = length (heap (env s))
    /\ channel_open (env s') (channel (obj s')) = false
    /\ calls (env s') = calls (env s)
    /\ warnings (env s') = warnings (env s).
Proof.
  intros Hp. exists (disconnected s).
  split; [apply reconnect_fails; exact Hp|].
  split; [reflexivity|]. split; [apply length_alter|].
  split; [|split; [reflexivity|]].
  - rewrite channel_open_disconnected_any.
    rewrite bool_decide_eq_true_2 by reflexivity. apply andb_false_r.
  - unfold warnings, disconnected; simpl.
    rewrite filter_app, length_app. simpl. lia.
Qed.

Lemma run_unopenable {A} (op : Operation A) fuel s p :
  first_unreadable (env s) (client_files (obj s)) = Some p ->
  run fuel op s = Some (Raise (OSError p), disconnected s).
Proof.
  intros Hp. pose proof (reconnect_fails s p Hp) as Hre.
  rewrite decorators_of_run.
  destruct (terminal op);
    unfold _handle_grpc_error, try_except, _atomic_connection;
    rewrite bind_run, Hre; reflexivity.
Qed.

(** X5.  When a credential file the client needs cannot be read, every
    decorated operation raises for that file before any attempt on the wire,
    whatever the fuel: the failure is neither resent nor, on the terminal
    paths, printed and turned into an exit, and all that happened is the
    disconnect on entry. *)
Theorem operations_fail_before_any_attempt {A}
    (op : Operation A) (fuel : nat) (s : Machine) (p : string) :
  first_unreadable (env s) (client_files (obj s)) = Some p ->
  run fuel op s = Some (Raise (OSError p), disconnected s)
  /\ calls (env (disconnected s)) = calls (env s)
  /\ sleeps (env (disconnected s)) = sleeps (env s)
  /\ Forall (fun e => match e with Printed _ => False | _ => True end)
       (drop (length (trace (env s))) (trace (env (disconnected s)))).
Proof.
  intros Hp. split; [apply run_unopenable; exact Hp|].
  split; [reflexivity|]. split.
  - unfold sleeps, disconnected; simpl.
    apply sleeps_filter_irrelevant. repeat constructor.
  - unfold disconnected; simpl. rewrite drop_app_length.
    repeat constructor.
Qed.

(** X6.  When the credentials can be read, [reconnect] followed at once by a
    second [reconnect] never fails: each creates one new channel, the first
    new channel is closed by the second call, the client ends on the second
    one, open, and no attempt was made on the wire. *)
Theorem reconnect_twice_never_fails (s : Machine) :
  credentials_readable (obj s) (env s) = true ->
  exists s1 s2,
    reconnect channel_options s = Some (Ret tt, s1)
    /\ reconnect channel_options s1 = Some (Ret tt, s2)
    /\ channel (obj s1) = length (heap (env s))
    /\ channel (obj s2) = Datatypes.S (length (heap (env s)))
    /\ channel_open (env s2) (channel (obj s1)) = false
    /\ channel_open (env s2) (channel (obj s2)) = true
    /\ stub_bound (obj s2)
    /\ calls (env s2) = calls (env s).
Proof.
  intros Hcred.
  destruct (reconnect_ok channel_options s Hcred) as (s1 & Hre1 & Hrec1 & _).
  assert (Hcred1 : credentials_readable (obj s1) (env s1) = true).
  { rewrite (credentials_readable_fixed_fields s s1); [exact Hcred|].
    eapply fixed_reconnect; eauto. }
  destruct (reconnect_ok channel_options s1 Hcred1) as (s2 & Hre2 & Hrec2 & _).
  exists s1, s2. split; [exact Hre1|]. split; [exact Hre2|].
  pose proof (reconnected_open _ _ Hrec2) as Hopen2.
  pose proof (reconnected_old_closed _ _ Hrec2) as Hold2.
  destruct Hrec1 as (_ & _ & Hch1 & _ & (c1 & Hh1 & _) & _ & Hca1 & _).
  assert (Hlen1 : length (heap (env s1)) = Datatypes.S (length (heap (env s)))).
  { rewrite Hh1, length_app, length_alter. simpl. lia. }
  destruct Hrec2 as ((_&_&_&_&_&_&_&_&_&Hi2) & _ & Hch2 & Hst2 & _ & _ & Hca2 & _).
  split; [exact Hch1|]. split; [rewrite Hch2; exact Hlen1|].
  split; [apply Hold2; lia|]. split; [exact Hopen2|].
  split; [|congruence].
  unfold stub_bound. rewrite Hst2, Hch2, Hi2. reflexivity.
Qed.

(** *** The sound state is kept *)

Lemma client_ok_disconnected s : client_ok s -> client_ok (disconnected s).
Proof.
  intros (Hst & Hlt & Hown). split; [exact Hst|]. split.
  - unfold disconnected; simpl. rewrite length_alter. exact Hlt.
  - intros ch Hopen. rewrite channel_open_disconnected_any in Hopen.
    apply andb_true_iff in Hopen as [Hopen _]. apply Hown. exact Hopen.
Qed.

Lemma client_ok_reconnected s s1 :
  reconnected s s1 -> only_own_channel_open s -> client_ok s1.
Proof.
  intros ((_&_&_&_&_&_&_&_&_&Hi) & _ & Hch & Hst & (c & Hh & Hcl & _) & _)
         Hown.
  split; [|split].
  - unfold stub_bound. rewrite Hst, Hch, Hi. reflexivity.
  - rewrite Hch, Hh, length_app, length_alter. simpl. lia.
  - intros ch Hopen. rewrite Hch.
    pose proof (channel_open_lt _ _ Hopen) as Hlt.
    rewrite Hh, length_app, length_alter in Hlt. simpl in Hlt.
    destruct (decide (ch = length (heap (env s)))) as [|Hne]; [assumption|].
    exfalso. unfold channel_open in Hopen. rewrite Hh in Hopen.
    rewrite lookup_app_l in Hopen by (rewrite length_alter; lia).
    destruct (decide (channel (obj s) = ch)) as [<-|Hne2].
    + rewrite list_lookup_alter_eq in Hopen.
      destruct (heap (env s) !! channel (obj s)); discriminate.
    + rewrite list_lookup_alter_ne in Hopen by exact Hne2.
      apply Hne2. symmetry. apply Hown. exact Hopen.
Qed.

Lemma client_ok_body_frame s s' : body_frame s s' -> client_ok s -> client_ok s'.
Proof.
  intros ((_&_&_&_&_&_&_&_&_&Hi) & Hch & Hst & Hheap & _) (Hb & Hlt & Hown).
  split; [|split].
  - unfold stub_bound in *. rewrite Hst, Hch, Hi. exact Hb.
  - rewrite Hch, Hheap. exact Hlt.
  - intros ch Hopen. rewrite Hch. apply Hown.
    rewrite <- (channel_open_same_heap (env s) (env s')); assumption.
Qed.

Lemma run_keeps_ok {A} (op : Operation A) fuel s r s' :
  client_ok s -> run fuel op s = Some (r, s') -> client_ok s'.
Proof.
  intros Hok Hrun.
  destruct (first_unreadable (env s) (client_files (obj s))) as [p|] eqn:Hp.
  - rewrite (run_unopenable op fuel s p Hp) in Hrun. inversion Hrun; subst.
    apply client_ok_disconnected. exact Hok.
  - assert (Hcred : credentials_readable (obj s) (env s) = true)
      by (rewrite credentials_readable_first_unreadable, Hp; reflexivity).
    destruct (reconnect_ok channel_options s Hcred) as (s1 & Hre & Hrec & _).
    assert (Hok1 : client_ok s1)
      by (eapply client_ok_reconnected; [exact Hrec|apply Hok]).
    rewrite decorators_of_run in Hrun.
    destruct (terminal op).
    + unfold _handle_grpc_error, try_except in Hrun.
      rewrite (atomic_connection_run _ _ s s1 Hre) in Hrun.
      destruct (body fuel op s1) as [[[a|e] s2]|] eqn:Hb; [| |discriminate].
      * inversion Hrun; subst. apply client_ok_disconnected.
        eapply client_ok_body_frame; [|exact Hok1].
        eapply preserves_body; eauto.
      * assert (Hok2 : client_ok s2).
        { eapply client_ok_body_frame; [|exact Hok1].
          eapply preserves_body; eauto. }
        destruct e; inversion Hrun; subst; exact Hok2.
    + rewrite (atomic_connection_run _ _ s s1 Hre) in Hrun.
      destruct (_resend_data_on_reconnection fuel (body fuel op) s1)
        as [[[a|e] s2]|] eqn:Hb; [| |discriminate].
      * inversion Hrun; subst. apply client_ok_disconnected.
        eapply client_ok_body_frame; [|exact Hok1].
        eapply (preserves_resend body_frame); eauto. apply preserves_body.
      * inversion Hrun; subst.
        eapply client_ok_body_frame; [|exact Hok1].
        eapply (preserves_resend body_frame); eauto. apply preserves_body.
Qed.

(** X7.  A client built in a world where no channel is open starts in a
    sound state, and every series of decorated operations keeps it there,
    whichever of them return, raise or exit: the stub stays bound to the
    client's channel and interceptors, and no channel but the client's
    current one is ever left open. *)
Theorem client_stays_sound
    (agg_addr : string) (agg_port : Z) (tls_flag disable : bool)
    (root cert key : string) (agg_uuid fed_uuid common_name : option string)
    (for_admin : bool) (interval : option Z) (w : World)
    (c : AggregatorGRPCClient) (w' : World) :
  (forall ch, channel_open w ch = false) ->
  __init__ channel_options agg_addr agg_port tls_flag disable root cert key
    agg_uuid fed_uuid common_name for_admin interval w
  = Some (Ret c, w') ->
  client_ok {| obj := c; env := w' |}
  /\ forall fuel (cs : list Call) s',
       run_calls fuel cs {| obj := c; env := w' |} = Some s' ->
       client_ok s'.
Proof.
  intros Hclosed Hinit.
  assert (Hstart : client_ok {| obj := c; env := w' |}).
  { destruct (first_unreadable w
                (if tls_flag then files_needed root disable cert key else []))
      as [p|] eqn:Hp.
    - rewrite (proj1 (init_cases channel_options agg_addr agg_port tls_flag
                        disable root cert key agg_uuid fed_uuid common_name
                        for_admin interval w) p Hp) in Hinit.
      discriminate.
    - destruct (proj2 (init_cases channel_options agg_addr agg_port tls_flag
                         disable root cert key agg_uuid fed_uuid common_name
                         for_admin interval w) Hp)
        as (c0 & w0 & Hrun & _ & _ & _ & _ & _ & _ & _ & _ & _ & _ & _ & Hst
            & Hch & (ch0 & Hh & _ & Hcl) & _).
      rewrite Hrun in Hinit. inversion Hinit; subst c0 w0.
      split; [exact Hst|]. split; simpl.
      + rewrite Hch, Hh, length_app. simpl. lia.
      + intros ch Hopen. simpl in *. rewrite Hch.
        pose proof (channel_open_lt _ _ Hopen) as Hlt.
        rewrite Hh, length_app in Hlt. simpl in Hlt.
        destruct (decide (ch = length (heap w))) as [|Hne]; [assumption|].
        exfalso. unfold channel_open in Hopen. rewrite Hh in Hopen.
        rewrite lookup_app_l in Hopen by lia.
        specialize (Hclosed ch). unfold channel_open in Hclosed.
        congruence. }
  split; [exact Hstart|].
  intros fuel cs. revert Hstart. generalize {| obj := c; env := w' |}.
  induction cs as [|[A op] rest IH]; intros s Hok s' Hrun; simpl in Hrun.
  - inversion Hrun; subst. exact Hok.
  - destruct (run fuel op s) as [[r s1]|] eqn:E; [|discriminate].
    eapply IH; [|exact Hrun]. eapply run_keeps_ok; eauto.
Qed.
End Reconnecting.


(* ===================================================================== *)
(** ** Every operation, from request to returned value *)
(* ===================================================================== *)

Section Values.
Variable channel_options : list (string * Z).
Variable proto_to_datastream : TaskResults.t -> list string.
Variable convert_experiment_status_proto_to_dict :
  GetExperimentStatusResponse.t -> list (string * string).
Variable srv : Server.

Local Abbreviation run := (run channel_options proto_to_datastream
                   convert_experiment_status_proto_to_dict srv).
Local Abbreviation body := (body proto_to_datastream
                    convert_experiment_status_proto_to_dict srv).
Local Abbreviation attempt := (attempt proto_to_datastream
                       convert_experiment_status_proto_to_dict srv).

End Values.

(* ===================================================================== *)
(** ** The interceptor on the wire *)
(* ===================================================================== *)

(** X9.  With a negative reconnect interval, which [time.sleep] rejects, the
    first failure the interceptor would retry makes it raise ValueError
    instead: the status code and the backoff announcement are logged, there
    is no sleep and no second attempt. *)
Theorem negative_interval_breaks_retry {D Q R : Type}
    (self : RetryOnRpcErrorClientInterceptor)
    (continuation : D -> Q -> M World (Outcome R)) (d : D) (q : Q)
    (fuel : nat) (w w1 : World) (o : Outcome R) :
  continuation d q w = Some (Ret o, w1) ->
  isinstance_RpcError o = true ->
  retried self (outcome_code o) = true ->
  reconnect_interval (sleeping_policy self) < 0 ->
  _intercept_call (Datatypes.S fuel) self continuation d q w
  = Some (Raise (ValueError "sleep length must be non-negative"),
          add_events
            [Log INFO ("Response code: " ++ StatusCode_str (outcome_code o));
             Log INFO ("Attempting to connect to aggregator at "
                       ++ backoff_uri (sleeping_policy self))] w1).
Proof.
  intros Hc Hi Hr Hneg. simpl. rewrite bind_run, Hc, Hi.
  unfold retried in Hr. apply negb_true_iff in Hr. rewrite Hr.
  unfold ConstantBackoff_sleep, time_sleep.
  destruct (Z.ltb_spec (reconnect_interval (sleeping_policy self)) 0); [|lia].
  unfold bind, logger_info, emit, modify, raise, add_events; simpl.
  rewrite <- app_assoc. reflexivity.
Qed.

Section OnTheWire.
Context {Q R : Type}.
Variable oracle : nat -> Q -> NetReply R.
Variable ch : nat.
Variable i : RetryOnRpcErrorClientInterceptor.
Variable method : string.
Variable q : Q.








End OnTheWire.

(* ===================================================================== *)
(** ** Unavailability, seen from the caller *)
(* ===================================================================== *)

Section Unavailability.
Variable channel_options : list (string * Z).
Variable proto_to_datastream : TaskResults.t -> list string.
Variable convert_experiment_status_proto_to_dict :
  GetExperimentStatusResponse.t -> list (string * string).
Variable srv : Server.

Local Abbreviation run := (run channel_options proto_to_datastream
                   convert_experiment_status_proto_to_dict srv).
Local Abbreviation body := (body proto_to_datastream
                    convert_experiment_status_proto_to_dict srv).
Local Abbreviation attempt := (attempt proto_to_datastream
                       convert_experiment_status_proto_to_dict srv).






End Unavailability.

(* ===================================================================== *)
(** ** Stamping and validating *)
(* ===================================================================== *)

(** The header of a response that answers a request stamped with [h]: the
    two parties swapped. *)
Definition mirrored (h : MessageHeader.t) : MessageHeader.t :=
  {| MessageHeader.sender := MessageHeader.receiver h;
     MessageHeader.receiver := MessageHeader.sender h;
     MessageHeader.federation_uuid := MessageHeader.federation_uuid h;
     MessageHeader.single_col_cert_common_name :=
       MessageHeader.single_col_cert_common_name h |}.

(** X12.  The header [_set_header] stamps and the checks of
    [validate_response] agree exactly when the client was given both an
    aggregator uuid and a federation uuid: then a response that mirrors the
    stamped header passes validation.  A client built without one of them
    (both default to [None]) rejects every response, whatever its header,
    since no header field equals [None]. *)
Theorem stamped_header_round_trip {R} `{HasHeader R}
    (caller : string) (s : Machine) :
  (forall reply : R,
     header_of reply = mirrored (stamped (obj s) caller) ->
     (validate_response reply caller s = Some (Ret tt, s)
      <-> aggregator_uuid (obj s) <> None /\ federation_uuid (obj s) <> None))
  /\
  (aggregator_uuid (obj s) = None \/ federation_uuid (obj s) = None ->
   forall reply : R,
     exists e, validate_response reply caller s = Some (Raise e, s)).
Proof.
  split.
  - intros reply Hh. rewrite validate_response_run. unfold validation_result.
    rewrite Hh.
    destruct (first_violation (obj s) caller (mirrored (stamped (obj s) caller)))
      as [f|] eqn:Hv.
    + split; [discriminate|]. intros [Ha Hf]. exfalso.
      assert (Hnone : first_violation (obj s) caller
                        (mirrored (stamped (obj s) caller)) = None).
      { apply first_violation_none. simpl.
        destruct (aggregator_uuid (obj s)); [|congruence].
        destruct (federation_uuid (obj s)); [|congruence].
        repeat split. }
      congruence.
    + split; [|reflexivity]. intros _.
      apply first_violation_none in Hv as (_ & Ha & Hf & _).
      split; congruence.
  - intros Hnone reply. rewrite validate_response_run.
    unfold validation_result.
    destruct (first_violation (obj s) caller (header_of reply)) as [f|] eqn:Hv.
    + eexists. reflexivity.
    + exfalso. apply first_violation_none in Hv as (_ & Ha & Hf & _).
      destruct Hnone; congruence.
Qed.

(* ===================================================================== *)
(** ** Failures that are not transport failures *)
(* ===================================================================== *)

Section OtherFailures.
Variable channel_options : list (string * Z).
Variable proto_to_datastream : TaskResults.t -> list string.
Variable convert_experiment_status_proto_to_dict :
  GetExperimentStatusResponse.t -> list (string * string).
Variable srv : Server.

Local Abbreviation run := (run channel_options proto_to_datastream
                   convert_experiment_status_proto_to_dict srv).
Local Abbreviation body := (body proto_to_datastream
                    convert_experiment_status_proto_to_dict srv).
Local Abbreviation attempt := (attempt proto_to_datastream
                       convert_experiment_status_proto_to_dict srv).



(** X14.  The connectivity check and the admin operations never raise a
    transport failure to their caller: whatever they raise is not a
    [grpc.RpcError]. *)
Theorem terminal_paths_never_raise_transport_failure {A}
    (op : Operation A) (fuel : nat) (s : Machine) (e : Exn) (s' : Machine) :
  terminal op = true ->
  run fuel op s = Some (Raise e, s') ->
  is_RpcError e = false.
Proof.
  intros Hterm Hrun. rewrite decorators_of_run, Hterm in Hrun.
  unfold _handle_grpc_error, try_except in Hrun.
  destruct (_atomic_connection channel_options (body fuel op) s)
    as [[[a|e1] s1]|]; try discriminate.
  destruct e1; inversion Hrun; subst; reflexivity.
Qed.
End OtherFailures.

(* ===================================================================== *)
(** ** More scenarios *)
(* ===================================================================== *)

(** A collaborator over TLS whose private key has gone missing since it was
    built. *)
Definition tls_client : AggregatorGRPCClient :=
  {| uri := "localhost:50051"; tls := true; disable_client_auth := false;
     root_certificate := "ca.crt"; certificate := "client.crt";
     private_key := "client.key";
     channel := 0; header := None;
     aggregator_uuid := Some "agg-uuid"; federation_uuid := Some "fed-uuid";
     single_col_cert_common_name := None;
     interceptors := [collaborator_interceptor];
     stub := {| stub_channel := 0;
                stub_interceptors := [collaborator_interceptor] |} |}.

Definition keyless_start : Machine :=
  {| obj := tls_client;
     env := {| trace := [];
               heap := [{| target := "localhost:50051";
                           credentials :=
                             Some {| root_certificates := "ROOT";
                                     cred_private_key := Some "KEY";
                                     certificate_chain := Some "CERT" |};
                           options := []; closed := false |}];
               files := [("ca.crt", "ROOT"); ("client.crt", "CERT")];
               calls := 0 |} |}.

(** An interceptor configured with a negative interval. *)
Definition hasty_interceptor : RetryOnRpcErrorClientInterceptor :=
  {| sleeping_policy := {| reconnect_interval := -1;
                           backoff_uri := "localhost:50051" |};
     status_for_retry := Some [UNAVAILABLE] |}.

(** Two calls in a row: the tasks, then a tensor the aggregator refuses. *)
Definition two_calls : list Call :=
  [MkCall (get_tasks_op "collab-1");
   MkCall (get_aggregated_tensor_op "collab-1" "conv1" 3 false ["trained"] true)].

Definition after_two_calls : Machine :=
  Eval vm_compute in
    match run_calls [] one_chunk_per_tensor status_as_dict
            (fake_aggregator None) 1 two_calls collaborator_start with
    | Some s' => s'
    | None => collaborator_start
    end.

Definition after_exit : Machine :=
  Eval vm_compute in
    match run [] one_chunk_per_tensor status_as_dict (fake_aggregator None) 1
            (connectivity_check_op "admin") admin_start with
    | Some (_, s') => s'
    | None => admin_start
    end.

Lemma reconnect_failure_scenario :
  exists s',
    reconnect [] keyless_start = Some (Raise (OSError "client.key"), s')
    /\ obj s' = obj keyless_start
    /\ length (heap (env s')) = 1%nat
    /\ channel_open (env s') (channel (obj s')) = false
    /\ calls (env s') = 0%nat
    /\ warnings (env s') = 0%nat.
Proof.
  apply (reconnect_failure_leaves_client_disconnected [] keyless_start
           "client.key").
  reflexivity.
Defined.

Lemma operations_fail_scenario :
  run [] one_chunk_per_tensor status_as_dict (fake_aggregator None) 0
    (connectivity_check_op "collab-1") keyless_start
  = Some (Raise (OSError "client.key"), disconnected keyless_start).
Proof.
  apply (operations_fail_before_any_attempt [] one_chunk_per_tensor
           status_as_dict (fake_aggregator None)
           (connectivity_check_op "collab-1") 0 keyless_start "client.key").
  reflexivity.
Defined.

Lemma reconnect_twice_scenario :
  exists s1 s2,
    reconnect [] collaborator_start = Some (Ret tt, s1)
    /\ reconnect [] s1 = Some (Ret tt, s2)
    /\ channel (obj s1) = 1%nat
    /\ channel (obj s2) = 2%nat
    /\ channel_open (env s2) (channel (obj s1)) = false
    /\ channel_open (env s2) (channel (obj s2)) = true
    /\ stub_bound (obj s2)
    /\ calls (env s2) = 0%nat.
Proof.
  apply (reconnect_twice_never_fails [] collaborator_start).
  reflexivity.
Defined.

Lemma client_stays_sound_scenario :
  client_ok collaborator_start /\ client_ok after_two_calls.
Proof.
  pose proof (client_stays_sound [] one_chunk_per_tensor status_as_dict
                (fake_aggregator None) "localhost" 50051 false false "" "" ""
                (Some "agg-uuid") (Some "fed-uuid") None false None
                fresh_world (built_client false) built_world
                (fun ch => eq_refl) (init_builds_client false))
    as [Hstart Hseries].
  split; [exact Hstart|].
  apply (Hseries 1%nat two_calls after_two_calls).
  vm_compute. reflexivity.
Defined.


Lemma negative_interval_scenario :
  _intercept_call 3 hasty_interceptor (flaky UNAVAILABLE) tt tt fresh_world
  = Some (Raise (ValueError "sleep length must be non-negative"),
          add_events
            [Log INFO "Response code: StatusCode.UNAVAILABLE";
             Log INFO "Attempting to connect to aggregator at localhost:50051"]
            (tick fresh_world)).
Proof.
  apply (negative_interval_breaks_retry hasty_interceptor (flaky UNAVAILABLE)
           tt tt 2 fresh_world (tick fresh_world)
           (RpcErrorOutcome UNAVAILABLE "try again")).
  - reflexivity.
  - reflexivity.
  - reflexivity.
  - simpl. lia.
Defined.



Lemma stamped_header_scenario :
  validate_response tasks_response "collab-1" collaborator_start
  = Some (Ret tt, collaborator_start).
Proof.
  apply (proj1 (stamped_header_round_trip "collab-1" collaborator_start)
           tasks_response eq_refl).
  split; discriminate.
Defined.


(** The administrator's connectivity check against an aggregator that is
    down ends in an exit, not in a transport failure. *)
Lemma terminal_exit_scenario :
  run [] one_chunk_per_tensor status_as_dict (fake_aggregator None) 1
    (connectivity_check_op "admin") admin_start
  = Some (Raise (SystemExit 1), after_exit)
  /\ is_RpcError (SystemExit 1) = false.
Proof.
  assert (Hrun : run [] one_chunk_per_tensor status_as_dict
                   (fake_aggregator None) 1 (connectivity_check_op "admin")
                   admin_start
                 = Some (Raise (SystemExit 1), after_exit))
    by (vm_compute; reflexivity).
  split; [exact Hrun|].
  apply (terminal_paths_never_raise_transport_failure [] one_chunk_per_tensor
           status_as_dict (fake_aggregator None)
           (connectivity_check_op "admin") 1 admin_start (SystemExit 1)
           after_exit eq_refl Hrun).
Defined.
